(** * wordChef: a shallow embedding of the text-analysis toolkit

    The Python sources embedded here are [wordChef.py] (the six analysis
    operations and the file-based [SessionLogger]) and
    [bloque_mejoras_MariusDanieBaroana.py] (the improved keyword / key-phrase
    extractor and the [logging]-based [SessionLogger]).

    Conventions of the embedding:
    - a Python [str] is a list of Unicode code points;
    - a Python [int] is a [Z];
    - a Python [float] is an IEEE 754 binary64 value where the code computes
      with it and compares the results (the sentence scores of
      [resumen_simple]), with the arithmetic of the standard library's
      [SpecFloat]; phrase scores are exact rationals [Q]: they are multiples
      of one tenth, which [round(., 3)] makes canonical; the score of the
      sentiment classifier, which is passed on as it comes, is a [Q] too;
    - an external service that may raise (the spaCy pipeline, the sentiment
      classifier) returns in the error monad [exc];
    - a [Counter] is an association list in first-insertion order, the order
      that [Counter.items()] and the stable sorts observe. *)

From Stdlib Require Import List ZArith QArith Qround Lia Bool.
From Stdlib Require Import SpecFloat.
From Stdlib Require String Ascii.
Import String.StringSyntax.
Bind Scope string_scope with String.string.
From Stdlib Require Import Permutation Sorted.
Import ListNotations.

Set Implicit Arguments.
Local Open Scope Z_scope.

(** ** Python strings *)

Module Py.

Definition char := N.
Definition str := list char.

Definition str_eq_dec : forall a b : str, {a = b} + {a <> b} :=
  list_eq_dec N.eq_dec.

Definition str_eqb (a b : str) : bool :=
  if str_eq_dec a b then true else false.

(** An ASCII literal as a Python string. *)
Definition lit (s : String.string) : str :=
  map Ascii.N_of_ascii (String.list_ascii_of_string s).
Arguments lit s%_string_scope.

(** [len(s)] *)
Definition len {A} (l : list A) : Z := Z.of_nat (length l).

(** [str.isspace] on one code point: the Unicode white-space set. *)
Definition isspace (c : char) : bool :=
  ((9 <=? c) && (c <=? 13) || (28 <=? c) && (c <=? 32)
   || (c =? 133) || (c =? 160) || (c =? 5760)
   || (8192 <=? c) && (c <=? 8202)
   || (c =? 8232) || (c =? 8233) || (c =? 8239) || (c =? 8287)
   || (c =? 12288))%N.

Fixpoint dropwhile {A} (p : A -> bool) (l : list A) : list A :=
  match l with
  | [] => []
  | x :: r => if p x then dropwhile p r else l
  end.

Definition lstrip (s : str) : str := dropwhile isspace s.
Definition rstrip (s : str) : str := rev (dropwhile isspace (rev s)).
(** [s.strip()] *)
Definition strip (s : str) : str := rstrip (lstrip s).

(** [sep.join(parts)] *)
Fixpoint join (sep : str) (parts : list str) : str :=
  match parts with
  | [] => []
  | [p] => p
  | p :: r => p ++ sep ++ join sep r
  end.

(** [s.split(c)] for a one-character separator: empty pieces are kept. *)
Fixpoint split_on (c : char) (s : str) : list str :=
  match s with
  | [] => [[]]
  | x :: r =>
      if N.eqb x c then [] :: split_on c r
      else match split_on c r with
           | [] => [[x]]
           | w :: ws => (x :: w) :: ws
           end
  end.

(** Maximal runs of characters satisfying [p]: [re.findall] of a
    one-class pattern [[...]+]. *)
Fixpoint runs (p : char -> bool) (s : str) : list str :=
  match s with
  | [] => []
  | x :: r =>
      if p x then
        match r with
        | y :: _ => if p y then
                      match runs p r with
                      | w :: ws => (x :: w) :: ws
                      | [] => [[x]]
                      end
                    else [x] :: runs p r
        | [] => [[x]]
        end
      else runs p r
  end.

(** [s.split()]: split on runs of white space, no empty pieces. *)
Definition split (s : str) : list str :=
  runs (fun c => negb (isspace c)) s.

(** [sub in s] *)
Fixpoint prefix (p s : str) : bool :=
  match p, s with
  | [], _ => true
  | _ :: _, [] => false
  | a :: p', b :: s' => N.eqb a b && prefix p' s'
  end.

Fixpoint contains (sub s : str) : bool :=
  prefix sub s ||
  match s with
  | [] => false
  | _ :: r => contains sub r
  end.

(** [c * k] for a one-character string. *)
Definition rep (k : nat) (c : char) : str := repeat c k.

(** [l[:k]] for a Python integer [k]: a negative bound counts from the end. *)
Definition slice_to {A} (k : Z) (l : list A) : list A :=
  if 0 <=? k then firstn (Z.to_nat k) l
  else firstn (length l - Z.to_nat (- k)) l.

(** Truth value of an object, as tested by [if x:] and [not x]. *)
Class Truthy (A : Type) := truthy : A -> bool.

#[export] Instance truthy_list {A} : Truthy (list A) :=
  fun l => match l with [] => false | _ => true end.
#[export] Instance truthy_option {A} `{Truthy A} : Truthy (option A) :=
  fun o => match o with None => false | Some a => truthy a end.
#[export] Instance truthy_tuple3 {A B C} : Truthy (A * B * C) :=
  fun _ => true.

(** ** Exceptions *)

Inductive exc (A : Type) : Type :=
| Ok (a : A)
| Raise (msg : str).
Arguments Ok {A} a.
Arguments Raise {A} msg.

Definition bind {A B} (m : exc A) (k : A -> exc B) : exc B :=
  match m with
  | Ok a => k a
  | Raise e => Raise e
  end.

Definition returns {A} (m : exc A) : Prop := exists a, m = Ok a.

(** ** Stable sorting: [sorted(l, key=..., reverse=...)]

    [sorted] is stable in both directions: elements with equal keys keep
    their relative order.  [ins] walks past the elements that must stay in
    front of [x]; [before y x] says that [y], already placed and later in
    the input, must nevertheless come first. *)

Section Sort.
Variable A : Type.
Variable before : A -> A -> bool.

Fixpoint ins (x : A) (l : list A) : list A :=
  match l with
  | [] => [x]
  | y :: r => if before y x then y :: ins x r else x :: l
  end.

Fixpoint sorted (l : list A) : list A :=
  match l with
  | [] => []
  | x :: r => ins x (sorted r)
  end.
End Sort.

(** Descending by a rational key: [sorted(l, key=k, reverse=True)]. *)
Definition sorted_desc {A} (key : A -> Q) : list A -> list A :=
  sorted (fun y x => negb (Qle_bool (key y) (key x))).

(** Ascending by an integer key: [sorted(l)] on integers. *)
Definition sorted_asc {A} (key : A -> Z) : list A -> list A :=
  sorted (fun y x => key y <? key x).

End Py.
Export Py.

(** ** Python floats: IEEE 754 binary64, rounding to nearest even *)

Module Float.

Definition prec : Z := 53.
Definition emax : Z := 1024.

Definition float := spec_float.

(** [float(z)], the conversion that [int / float], [int - float] and
    [float + int] apply to their integer operand: the nearest float.  CPython
    refuses the integers beyond the largest float with an [OverflowError];
    no [len] reaches them, and the conversion gives an infinity there. *)
Definition of_int (z : Z) : float := binary_normalize prec emax z 0 false.

Definition add : float -> float -> float := SFadd prec emax.
Definition sub : float -> float -> float := SFsub prec emax.
Definition div : float -> float -> float := SFdiv prec emax.

(** [x < y] and [x <= y] *)
Definition ltb : float -> float -> bool := SFltb.
Definition leb : float -> float -> bool := SFleb.

(** [math.isnan] and [math.isfinite] *)
Definition isnan (x : float) : bool :=
  match x with S754_nan => true | _ => false end.
Definition isfinite (x : float) : bool :=
  match x with S754_zero _ | S754_finite _ _ _ => true | _ => false end.

(** Descending by a float key: [sorted(l, key=k, reverse=True)].  An element
    placed later in the input comes first only when its key is greater. *)
Definition sorted_desc {A} (key : A -> float) : list A -> list A :=
  sorted (fun y x => ltb (key x) (key y)).

End Float.

Notation "x <- m ;; k" := (bind m (fun x => k))
  (at level 61, m at next level, right associativity).

(** ** The spaCy data model

    Only the attributes the sources read are kept.  A pipeline is an opaque
    service from text to an analysed document; calling it may raise. *)

Module Spacy.

Record Token := {
  text : str;
  lemma_ : str;
  pos_ : str;
  is_stop : bool;
  is_alpha : bool
}.

(** A sentence or a noun chunk: a run of tokens with its surface text. *)
Record Span := {
  span_tokens : list Token;
  span_text : str
}.

Record Ent := {
  ent_text : str;
  label_ : str
}.

Record Doc := {
  tokens : list Token;
  sents : list Span;
  noun_chunks : list Span;
  ents : list Ent
}.

Definition Language := str -> exc Doc.

Definition empty_span : Span := {| span_tokens := []; span_text := [] |}.

End Spacy.
Export Spacy.

(** ** [collections.Counter] *)

Module Counter.

Definition t := list (str * Z).

(** [c[k] += 1] *)
Fixpoint incr (k : str) (c : t) : t :=
  match c with
  | [] => [(k, 1)]
  | (k', n) :: r =>
      if str_eqb k' k then (k', n + 1) :: r else (k', n) :: incr k r
  end.

(** [Counter(l)] *)
Definition of_list (l : list str) : t :=
  fold_left (fun c k => incr k c) l [].

(** [c.most_common(n)]: [heapq.nlargest(n, c.items(), key=count)], that is
    the first [n] items of the stable descending sort, and nothing for a
    negative [n]. *)
Definition most_common (n : Z) (c : t) : list (str * Z) :=
  if n <? 0 then []
  else firstn (Z.to_nat n) (sorted_desc (fun kv => inject_Z (snd kv)) c).

End Counter.

(** A dictionary with string keys, in insertion order. *)
Definition dict (V : Type) := list (str * V).

Fixpoint dict_get {V} (k : str) (d : dict V) : option V :=
  match d with
  | [] => None
  | (k', v) :: r => if str_eqb k' k then Some v else dict_get k r
  end.

(** [x in l] *)
Definition str_in (x : str) (l : list str) : bool := existsb (str_eqb x) l.

(** Lexicographic comparison of strings by code point: Python's [<] on
    [str]. *)
Fixpoint str_compare (a b : str) : comparison :=
  match a, b with
  | [], [] => Eq
  | [], _ :: _ => Lt
  | _ :: _, [] => Gt
  | x :: a', y :: b' =>
      match N.compare x y with
      | Eq => str_compare a' b'
      | c => c
      end
  end.

Definition str_lt (a b : str) : Prop := str_compare a b = Lt.

(** [sorted(set(l))]: the distinct elements in increasing order. *)
Fixpoint ins_set (x : str) (l : list str) : list str :=
  match l with
  | [] => [x]
  | y :: r =>
      match str_compare x y with
      | Lt => x :: l
      | Eq => l
      | Gt => y :: ins_set x r
      end
  end.

Definition sorted_set (l : list str) : list str :=
  fold_right ins_set [] l.

(** ** wordChef.py *)

Module WordChef.

(** The NLTK toolkit when it could be imported. *)
Record Nltk := {
  word_tokenize : str -> list str;
  stopwords_spanish : list str
}.

(** One answer of the sentiment pipeline: a dictionary read with
    [.get('label', '')] and [.get('score', 0.0)]. *)
Record Prediction := {
  label : option str;
  score : option Q
}.

Definition Clasificador := str -> exc (list Prediction).

Record Normalizado := {
  original : str;
  lematizado : str;
  sin_repeticiones : str;
  corregido : str
}.

Record PalabrasClave := {
  top_5_palabras : list (str * Z);
  sustantivos : list (str * Z);
  verbos : list (str * Z)
}.

#[export] Instance truthy_normalizado : Truthy Normalizado := fun _ => true.
#[export] Instance truthy_palabras : Truthy PalabrasClave := fun _ => true.

Definition n_tilde : char := 241%N.
Definition i_acute : char := 237%N.

Definition CORRECCIONES_COMUNES : dict str :=
  [ (lit "haiga", lit "haya"); (lit "naiden", lit "nadie");
    (lit "nadien", lit "nadie"); (lit "aserca", lit "acerca");
    (lit "enserio", lit "en serio"); (lit "haber", lit "a ver");
    (lit "iva", lit "iba") ].

Definition SUSTANTIVOS_NO_NEUTROS : dict str :=
  [ (lit "casa", lit "la casa"); (lit "persona", lit "la persona");
    (lit "gente", lit "la gente");
    (lit "ni" ++ [n_tilde] ++ lit "o", lit "el ni" ++ [n_tilde] ++ lit "o");
    (lit "ni" ++ [n_tilde] ++ lit "a", lit "la ni" ++ [n_tilde] ++ lit "a");
    (lit "camisa", lit "la camisa") ].

Definition error_texto_vacio : str :=
  lit "Error: texto vac" ++ [i_acute] ++ lit "o.".

(** [not texto or not texto.strip()] *)
Definition vacio (texto : str) : bool :=
  negb (truthy texto) || negb (truthy (strip texto)).

Section Operaciones.

(** [str.lower], and the Unicode alphanumeric class behind [str.isalnum]
    and the regular expression class [\w]. *)
Variable lower : str -> str.
Variable alnum : char -> bool.

Definition isalnum (s : str) : bool := truthy s && forallb alnum s.
Definition is_word (c : char) : bool := alnum c || N.eqb c 95%N.

(** *** Normalizador *)

(** The words that differ, case-insensitively, from the word just before
    them in the original list. *)
Fixpoint quitar_repetidas (prev : str) (palabras : list str) : list str :=
  match palabras with
  | [] => []
  | w :: r =>
      if str_eqb (lower w) (lower prev) then quitar_repetidas w r
      else w :: quitar_repetidas w r
  end.

Definition sin_repetir (palabras : list str) : list str :=
  match palabras with
  | [] => []
  | w :: r => w :: quitar_repetidas w r
  end.

Fixpoint corregir_desde (prev : option Token) (doc : list Token) : list str :=
  match doc with
  | [] => []
  | token :: r =>
      let palabra := lower (text token) in
      match dict_get palabra CORRECCIONES_COMUNES with
      | Some c => c :: corregir_desde (Some token) r
      | None =>
          match dict_get palabra SUSTANTIVOS_NO_NEUTROS with
          | Some c => c :: corregir_desde (Some token) r
          | None =>
              match prev with
              | Some p =>
                  if str_eqb palabra (lower (text p))
                  then corregir_desde (Some token) r
                  else text token :: corregir_desde (Some token) r
              | None => text token :: corregir_desde (Some token) r
              end
          end
      end
  end.

Definition corregir_palabras (doc : option Doc) : str :=
  match doc with
  | None => []
  | Some d => join (lit " ") (corregir_desde None (tokens d))
  end.

Definition normalizador_texto (texto : str) (nlp : option Language)
  : exc (option Normalizado) :=
  if negb (truthy texto) || (len (strip texto) =? 0) then Ok None
  else
    match nlp with
    | None =>
        let palabras := split texto in
        Ok (Some {| original := texto;
                    lematizado := lit "(spaCy requerido)";
                    sin_repeticiones := join (lit " ") (sin_repetir palabras);
                    corregido := lit "(spaCy requerido)" |})
    | Some pipeline =>
        doc <- pipeline texto ;;
        let palabras := split texto in
        Ok (Some {| original := texto;
                    lematizado := join (lit " ") (map lemma_ (tokens doc));
                    sin_repeticiones := join (lit " ") (sin_repetir palabras);
                    corregido := corregir_palabras (Some doc) |})
    end.

(** *** Resumen simple *)

(** [enumerate(l)] *)
Definition enumerate {A} (l : list A) : list (nat * A) :=
  combine (seq 0 (length l)) l.

(** [200.0] *)
Definition doscientos : Float.float := Float.of_int 200.

(** The scoring loop: [cuenta] is the number of nouns (or of long tokens)
    of a sentence, [longitud] the length of its text.  [puntaje] is an [int]
    until the penalty, a [float], is subtracted from it. *)
Definition puntaje {O} (cuenta longitud : O -> Z) (i : nat) (oracion : O)
  : Float.float :=
  let p := 0 + cuenta oracion in
  let p := Float.sub (Float.of_int p)
             (Float.div (Float.of_int (longitud oracion)) doscientos) in
  if Nat.eqb i 0 then Float.add p (Float.of_int 1) else p.

Definition puntuar {O} (cuenta longitud : O -> Z) (oraciones : list O)
  : list (nat * Float.float) :=
  map (fun io => (fst io, puntaje cuenta longitud (fst io) (snd io)))
      (enumerate oraciones).

(** The indices of the [n] best sentences, in increasing order. *)
Definition elegir (n : Z) (puntuaciones : list (nat * Float.float))
  : list nat :=
  let mejores := slice_to n (Float.sorted_desc snd puntuaciones) in
  sorted_asc Z.of_nat (map fst mejores).

Definition resumir {O} (cuenta longitud : O -> Z) (texto_de : O -> str)
  (vacia : O) (n : Z) (oraciones : list O) : str :=
  let indices := elegir n (puntuar cuenta longitud oraciones) in
  join (lit " ") (map (fun i => texto_de (nth i oraciones vacia)) indices).

(** Without spaCy: the pieces between full stops, stripped, the blank ones
    dropped. *)
Definition oraciones_simples (texto : str) : list str :=
  map strip (filter (fun s => truthy (strip s)) (split_on 46%N texto)).

Definition tokens_largos (oracion : str) : Z :=
  len (filter (fun w => 2 <? len w) (runs is_word oracion)).

Definition nombres (oracion : Span) : Z :=
  len (filter (fun t => str_eqb (pos_ t) (lit "NOUN")) (span_tokens oracion)).

Definition resumen_simple (texto : str) (n : Z) (nlp : option Language)
  : exc str :=
  if vacio texto then Ok error_texto_vacio
  else
    match nlp with
    | Some pipeline =>
        doc <- pipeline texto ;;
        let oraciones := sents doc in
        if len oraciones <=? n then Ok texto
        else Ok (resumir nombres (fun o => len (span_text o))
                         (fun o => strip (span_text o)) empty_span
                         n oraciones)
    | None =>
        let oraciones := oraciones_simples texto in
        if len oraciones <=? n then Ok texto
        else Ok (resumir tokens_largos (fun o => len o) (fun o => o) []
                         n oraciones)
    end.

(** *** Extraccion NER *)

Definition extraer (doc : Doc) (tipo : str) : list str :=
  map ent_text (filter (fun e => str_eqb (label_ e) tipo) (ents doc)).

Definition extraer_entidades (texto : str) (nlp : option Language)
  : exc (dict (list str)) :=
  match nlp with
  | None => Ok []
  | Some pipeline =>
      doc <- pipeline texto ;;
      Ok [ (lit "Personas", sorted_set (extraer doc (lit "PER")));
           (lit "Lugares", sorted_set (extraer doc (lit "LOC")));
           (lit "Empresas", sorted_set (extraer doc (lit "ORG")));
           (lit "Fechas", sorted_set (extraer doc (lit "DATE")));
           (lit "Cantidades", sorted_set (extraer doc (lit "QUANTITY"))) ]
  end.

(** *** Palabras clave

    The module global [nltk] is [None] when the import failed; it is an
    argument here. *)

Definition textos_con_pos (doc : Doc) (pos : str) : list str :=
  map text (filter (fun t => str_eqb (pos_ t) pos) (tokens doc)).

Definition extraer_palabras_clave (nltk : option Nltk) (texto : str)
  (nlp : option Language) : exc (option PalabrasClave) :=
  if vacio texto then Ok None
  else
    let top_5 :=
      match nltk with
      | Some tk =>
          let tokens := word_tokenize tk (lower texto) in
          let stopwords_es := stopwords_spanish tk in
          let tokens_filtrados :=
            filter (fun t => isalnum t && negb (str_in t stopwords_es)
                             && (2 <? len t)) tokens in
          Counter.most_common 5 (Counter.of_list tokens_filtrados)
      | None => []
      end in
    match nlp with
    | Some pipeline =>
        doc <- pipeline texto ;;
        Ok (Some {| top_5_palabras := top_5;
                    sustantivos := Counter.most_common 5
                      (Counter.of_list (textos_con_pos doc (lit "NOUN")));
                    verbos := Counter.most_common 5
                      (Counter.of_list (textos_con_pos doc (lit "VERB"))) |})
    | None =>
        Ok (Some {| top_5_palabras := top_5; sustantivos := [];
                    verbos := [] |})
    end.

(** *** Sentimiento *)

Definition sentimiento_es (texto : str) (clasificador : option Clasificador)
  : str * Q * str :=
  if vacio texto then (error_texto_vacio, 0%Q, [])
  else
    match clasificador with
    | None => (lit "Error: transformers no instalado.", 0%Q,
               lit "transformers missing")
    | Some c =>
        match c texto with
        | Raise e => (lit "Error", 0%Q, e)
        | Ok [] => (lit "Error", 0%Q, lit "list index out of range")
        | Ok (resultado :: _) =>
            let etiqueta := match label resultado with
                            | Some l => l | None => [] end in
            let puntuacion := match score resultado with
                              | Some p => p | None => 0%Q end in
            let sentimiento :=
              if contains (lit "1") etiqueta || contains (lit "2") etiqueta
              then lit "Negativo"
              else if contains (lit "3") etiqueta then lit "Neutral"
              else lit "Positivo" in
            (sentimiento, puntuacion, etiqueta)
        end
    end.

End Operaciones.

End WordChef.

(** ** bloque_mejoras_MariusDanieBaroana.py *)

Module Mejoras.

Import WordChef (Nltk, word_tokenize, stopwords_spanish).

Record Resultado := {
  top_5_palabras : list (str * Z);
  sustantivos : list (str * Z);
  verbos : list (str * Z);
  frases_clave : list (str * Q)
}.

#[export] Instance truthy_resultado : Truthy Resultado := fun _ => true.

(** What the module-level [logger] is asked to record. *)
Inductive Registro :=
| Info (action snippet : str) (resultado : Resultado)
| Error (message : str).

(** [round(x, 3)]: to the nearest thousandth, ties to the even one. *)
Definition round_half_even (q : Q) : Z :=
  let f := Qfloor q in
  match Qcompare (q - inject_Z f) (1 # 2) with
  | Lt => f
  | Gt => f + 1
  | Eq => if Z.even f then f else f + 1
  end.

Definition round3 (q : Q) : Q :=
  (inject_Z (round_half_even (q * 1000)) / 1000)%Q.

(** The letters the token pattern adds to [\w] and the hyphen:
    a, e, i, o, u with acute accent, n with tilde, u with diaeresis. *)
Definition letras_extra : list char :=
  [45; 225; 233; 237; 243; 250; 241; 252]%N.

Section Extraccion.

(** [unicodedata.normalize('NFKC', .)], [str.casefold] and the Unicode
    alphanumeric class. *)
Variable nfkc : str -> str.
Variable casefold : str -> str.
Variable alnum : char -> bool.

Definition _normalize_text (text : str) : str := casefold (nfkc text).

Definition en_patron (c : char) : bool :=
  WordChef.is_word alnum c || existsb (N.eqb c) letras_extra.

(** [re.fullmatch] of the token pattern. *)
Definition fullmatch (t : str) : bool := truthy t && forallb en_patron t.

(** [re.findall] of the token pattern. *)
Definition findall (s : str) : list str := runs en_patron s.

Definition lemas_con_pos (doc : Doc) (pos : str) : list str :=
  map (fun t => casefold (lemma_ t))
      (filter (fun t => str_eqb (pos_ t) pos && (2 <? len (lemma_ t)))
              (tokens doc)).

(** The tokens of a chunk that are kept, and the phrase they spell. *)
Definition palabras_de (chunk : Span) : list Token :=
  filter (fun t => negb (is_stop t) && is_alpha t) (span_tokens chunk).

Definition frase_de (words : list Token) : str :=
  join (lit " ") (map (fun t => casefold (lemma_ t)) words).

(** The counting pass over [doc.noun_chunks]. *)
Definition contar_chunk (phrase_counter : Counter.t) (chunk : Span)
  : Counter.t :=
  let words := palabras_de chunk in
  if negb (truthy words) then phrase_counter
  else
    let phrase_lemmas := frase_de words in
    if len phrase_lemmas <? 3 then phrase_counter
    else Counter.incr phrase_lemmas phrase_counter.

Definition contar_frases (doc : Doc) : Counter.t :=
  fold_left contar_chunk (noun_chunks doc) [].

(** The scoring of one counted phrase. *)
Definition contains_top_noun (sustantivos_top : list str) (phrase : str) : Z :=
  if existsb (fun word => str_in word sustantivos_top) (split phrase)
  then 1 else 0.

Definition puntuar_frase (sustantivos_top : list str) (pf : str * Z)
  : str * Q :=
  let (phrase, freq) := pf in
  let num_words := len (split phrase) in
  let score :=
    (inject_Z freq * (1 + (1 # 2) * (inject_Z num_words - 1))
     + (2 # 10) * inject_Z (contains_top_noun sustantivos_top phrase))%Q in
  (phrase, round3 score).

Definition frases_de (doc : Doc) (sustantivos_relevantes : list (str * Z))
  (top_phrases : Z) : list (str * Q) :=
  let phrase_counter := contar_frases doc in
  let sustantivos_top := map fst sustantivos_relevantes in
  let scored_phrases := map (puntuar_frase sustantivos_top) phrase_counter in
  slice_to top_phrases (sorted_desc snd scored_phrases).

(** The module globals [nltk] (with its cached stop words, the empty set
    when the import failed) are an argument; the result comes with what the
    call asks the module-level [logger] to record. *)
Definition extraer_palabras_clave (nltk : option Nltk) (texto : str)
  (nlp : option Language) (top_n top_phrases : Z)
  : option Resultado * list Registro :=
  if WordChef.vacio texto then (None, [])
  else
    let texto_norm := _normalize_text texto in
    let top_5 :=
      match nltk with
      | Some tk =>
          let tokens := word_tokenize tk texto_norm in
          let stopwords_es := stopwords_spanish tk in
          let tokens_filtered :=
            filter (fun t => fullmatch t && negb (str_in t stopwords_es)
                             && (2 <? len t)) tokens in
          Counter.most_common top_n (Counter.of_list tokens_filtered)
      | None =>
          let tokens := findall texto_norm in
          let tokens_filtered :=
            filter (fun t => negb (str_in t []) && (2 <? len t)) tokens in
          Counter.most_common top_n (Counter.of_list tokens_filtered)
      end in
    let '(doc, sustantivos_relevantes, verbos_principales, errores) :=
      match nlp with
      | None => (None, [], [], [])
      | Some pipeline =>
          match pipeline texto with
          | Ok d =>
              (Some d,
               Counter.most_common top_n
                 (Counter.of_list (lemas_con_pos d (lit "NOUN"))),
               Counter.most_common top_n
                 (Counter.of_list (lemas_con_pos d (lit "VERB"))),
               [])
          | Raise e =>
              (None, [], [],
               [Error (lit "Error procesando con spaCy: " ++ e)])
          end
      end in
    let frases :=
      match doc with
      | Some d => frases_de d sustantivos_relevantes top_phrases
      | None => []
      end in
    let resultado := {| top_5_palabras := top_5;
                        sustantivos := sustantivos_relevantes;
                        verbos := verbos_principales;
                        frases_clave := frases |} in
    (Some resultado,
     errores ++ [Info (lit "Extracci" ++ [243%N] ++
                            lit "n de Palabras Clave (mejorada)")
                      (slice_to 120 texto) resultado]).

End Extraccion.

End Mejoras.

(** ** The session loggers *)

Module SessionLogger.

Definition nl : char := 10%N.
Definition bullet : char := 8226%N.

(** What [log] receives as [resultado]; every leaf is the text that the
    f-string formatting of the object produces. *)
Inductive Valor :=
| Lista (items : list str)
| Otro (s : str).

Inductive Resultado :=
| Dicc (d : dict Valor)
| Simple (s : str).

(** [entrada[:100] + ('...' if len(entrada) > 100 else '')] *)
Definition entrada_truncada (entrada : str) : str :=
  slice_to 100 entrada ++ (if 100 <? len entrada then lit "..." else []).

(** [f.write(data)] on a file opened for appending: the state is the
    content of the file. *)
Definition write (data : str) (archivo : str) : str := archivo ++ data.

Definition escribir_valor (f : str) (cv : str * Valor) : str :=
  let (clave, valor) := cv in
  let f := write (lit "  " ++ clave ++ lit ":" ++ [nl]) f in
  match valor with
  | Lista items =>
      fold_left (fun f item =>
                   write (lit "    " ++ [bullet] ++ lit " " ++ item ++ [nl]) f)
                items f
  | Otro v => write (lit "    " ++ v ++ [nl]) f
  end.

(** [log(tipo, entrada, resultado)], [hora] being the clock reading
    formatted as [%H:%M:%S]. *)
Definition log (hora tipo entrada : str) (resultado : Resultado)
  (archivo : str) : str :=
  let f := write (lit "[" ++ hora ++ lit "] " ++ tipo ++ [nl]) archivo in
  let f := write (rep 80 45%N ++ [nl]) f in
  let f := write (lit "Entrada: " ++ entrada_truncada entrada ++ [nl; nl]) f in
  let f :=
    match resultado with
    | Dicc d => fold_left escribir_valor d f
    | Simple r => write (lit "Resultado: " ++ r ++ [nl]) f
    end in
  write ([nl] ++ rep 80 61%N ++ [nl; nl]) f.

End SessionLogger.

(** The logger of bloque_mejoras, built on [logging]: [log] formats one
    message and hands it to the handler. *)
Module SessionLoggerMejoras.

(** [(input_snippet or '')[:120]] *)
Definition snippet (input_snippet : option str) : str :=
  slice_to 120 (match input_snippet with
                | Some s => if truthy s then s else []
                | None => []
                end).

(** The message of one call; [repr_result] is [repr(result)], which may
    raise. *)
Definition mensaje (action : str) (input_snippet : option str)
  (repr_result : exc str) : str :=
  match repr_result with
  | Ok r => action ++ lit " | Entrada: " ++ snippet input_snippet
            ++ lit " | Resultado: " ++ r
  | Raise _ => action ++ lit " | Entrada: " ++ snippet input_snippet
               ++ lit " | Resultado (no serializable)"
  end.

(** The formatted line, [asctime] being the clock reading; the state is
    the sequence of lines emitted to the handler. *)
Definition log (asctime action : str) (input_snippet : option str)
  (repr_result : exc str) (emitidos : list str) : list str :=
  emitidos ++ [asctime ++ lit " - INFO - "
               ++ mensaje action input_snippet repr_result].

End SessionLoggerMejoras.

(** ** The properties, in the words of the specification *)

Module Spec.

(** [freq * (1 + 0.5 * (num_words - 1)) + 0.2] when the phrase has a salient
    word, and [+ 0] otherwise. *)
Definition puntuacion_frase (freq num_words : Z) (salient : bool) : Q :=
  (inject_Z freq * (1 + (5 # 10) * (inject_Z num_words - 1))
   + (if salient then 2 # 10 else 0))%Q.

(** Some word of the phrase is among the top-frequency nouns. *)
Definition saliente (sustantivos : list (str * Z)) (phrase : str) : bool :=
  existsb (fun word => str_in word (map fst sustantivos)) (split phrase).

(** Descending by score. *)
Definition desc {A} (a b : A * Q) : Prop := (snd b <= snd a)%Q.

(** Noun (or long-token) count minus the penalty [length / 200.0], plus the
    bonus of one exactly for the first sentence, as floats. *)
Definition puntuacion_oracion (cuenta longitud : Z) (i : nat) : Float.float :=
  let penalizacion :=
    Float.div (Float.of_int longitud) (Float.of_int 200) in
  let sin_bono := Float.sub (Float.of_int cuenta) penalizacion in
  match i with
  | O => Float.add sin_bono (Float.of_int 1)
  | S _ => sin_bono
  end.


(** The frequency count of the entities of one category. *)
Definition conteo_entidades (doc : Doc) (tipo : str) : Counter.t :=
  Counter.of_list (WordChef.extraer doc tipo).

(** The categories of the NER result and the spaCy labels behind them. *)
Definition categorias : list (str * str) :=
  [ (lit "Personas", lit "PER"); (lit "Lugares", lit "LOC");
    (lit "Empresas", lit "ORG"); (lit "Fechas", lit "DATE");
    (lit "Cantidades", lit "QUANTITY") ].

(** Some reading of the NER result gives, for every document and every
    category, the frequency count of its entities. *)
Definition devuelve_frecuencias : Prop :=
  exists leer : dict (list str) -> str -> Counter.t,
  forall texto pipeline doc d clave tipo,
    pipeline texto = Ok doc ->
    WordChef.extraer_entidades texto (Some pipeline) = Ok d ->
    In (clave, tipo) categorias ->
    leer d clave = conteo_entidades doc tipo.

(** [indices] are the positions of the [n] highest-scoring sentences, in
    their original order. *)
Definition las_mejores {O} (cuenta longitud : O -> Z) (vacia : O)
  (oraciones : list O) (n : Z) (indices : list nat) : Prop :=
  let puntos i :=
    puntuacion_oracion (cuenta (nth i oraciones vacia))
                       (longitud (nth i oraciones vacia)) i in
  len indices = n
  /\ StronglySorted lt indices
  /\ (forall i, In i indices -> (i < length oraciones)%nat)
  /\ (forall i j, In i indices -> (j < length oraciones)%nat ->
        ~ In j indices -> Float.leb (puntos j) (puntos i) = true).

(** A result that is falsy for its callers: [None] or an empty collection. *)
Definition sin_resultado {A} `{Truthy A} (r : A) : Prop := truthy r = false.

End Spec.

(** ** Concrete inputs *)

Module Ejemplos.

(** ASCII stand-ins for the Unicode tables. *)
Definition lower (s : str) : str :=
  map (fun c => if (65 <=? c) && (c <=? 90) then c + 32 else c)%N s.

Definition alnum (c : char) : bool :=
  ((48 <=? c) && (c <=? 57) || (65 <=? c) && (c <=? 90)
   || (97 <=? c) && (c <=? 122))%N.

Definition nombre (w : String.string) : Token :=
  {| text := lit w; lemma_ := lit w; pos_ := lit "NOUN";
     is_stop := false; is_alpha := true |}.

Definition articulo (w : String.string) : Token :=
  {| text := lit w; lemma_ := lit w; pos_ := lit "DET";
     is_stop := true; is_alpha := true |}.

Definition trozo (ts : list Token) : Span :=
  {| span_tokens := ts; span_text := join (lit " ") (map text ts) |}.

Definition persona (w : String.string) : Ent :=
  {| ent_text := lit w; label_ := lit "PER" |}.

(** Seven noun chunks of one noun each. *)
Definition siete : list Token :=
  [nombre "casa"; nombre "perro"; nombre "gato"; nombre "mesa";
   nombre "libro"; nombre "agua"; nombre "cielo"].

Definition doc_siete : Doc :=
  {| tokens := siete;
     sents := [trozo siete];
     noun_chunks := map (fun t => trozo [t]) siete;
     ents := [] |}.

Definition texto_siete : str := lit "casa perro gato mesa libro agua cielo".

(** Two chunks, one of them twice, one too short to be kept. *)
Definition doc_frases : Doc :=
  {| tokens := [articulo "la"; nombre "casa"; nombre "campo";
                articulo "la"; nombre "casa"; nombre "campo";
                articulo "el"; nombre "rio"; nombre "te"];
     sents := [];
     noun_chunks := [trozo [articulo "la"; nombre "casa"; nombre "campo"];
                     trozo [articulo "la"; nombre "casa"; nombre "campo"];
                     trozo [articulo "el"; nombre "rio"];
                     trozo [nombre "te"]];
     ents := [] |}.

Definition texto_frases : str :=
  lit "la casa campo la casa campo el rio te".

(** The same person named once and named twice. *)
Definition doc_ana : Doc :=
  {| tokens := []; sents := []; noun_chunks := [];
     ents := [persona "Ana"] |}.

Definition doc_ana_dos : Doc :=
  {| tokens := []; sents := []; noun_chunks := [];
     ents := [persona "Ana"; persona "Ana"] |}.

Definition doc_ana_ana : Doc :=
  {| tokens := []; sents := []; noun_chunks := [];
     ents := [persona "Ana"; persona "Ana"; persona "Luis"] |}.

Definition siempre (d : Doc) : Language := fun _ => Ok d.

Definition tres_oraciones : str := lit "uno dos tres. cuatro. cinco seis".

Definition ciento_uno : str := rep 101 97%N.

(** Two sentences whose scores differ in the last bit of the float. *)
Definition empate : str := lit "abcdefg. abc def".

(** Four blank lines, and a document that takes each for a sentence. *)
Definition cuatro_lineas : str := [32; 10; 32; 10; 32; 10; 32; 10]%N.

Definition linea_blanca : Span :=
  {| span_tokens := [ {| text := [32; 10]%N; lemma_ := [32; 10]%N;
                         pos_ := lit "SPACE"; is_stop := false;
                         is_alpha := false |} ];
     span_text := [32; 10]%N |}.

Definition doc_blanco : Doc :=
  {| tokens := flat_map span_tokens
                 [linea_blanca; linea_blanca; linea_blanca; linea_blanca];
     sents := [linea_blanca; linea_blanca; linea_blanca; linea_blanca];
     noun_chunks := [];
     ents := [] |}.

Definition mejoras (texto : str) (d : Doc) (top_n top_phrases : Z) :=
  Mejoras.extraer_palabras_clave (fun s => s) lower alnum None texto
    (Some (siempre d)) top_n top_phrases.

End Ejemplos.

(** ** More of the sources

    The rest of the session logger, and the words in which the further
    properties are stated. *)

Module Sesion.

Import SessionLogger.






End Sesion.

Module Vecinas.

(** No two neighbours of the list are equal once lower-cased. *)
Fixpoint distintas (lower : str -> str) (l : list str) : Prop :=
  match l with
  | a :: (b :: _) as r => lower a <> lower b /\ distintas lower r
  | _ => True
  end.

End Vecinas.

(** ** Regular expressions, as [re] matches them

    The constructs the three patterns of wordChef.py use.  Matching is by
    backtracking: alternatives are tried from left to right and a repetition
    takes as many iterations as it can before giving one back.  In these
    patterns every iteration of an unbounded repetition consumes a
    character, so the length of the input bounds their number. *)

Module Re.

Inductive regex :=
| Eps
| Chr (p : char -> bool)
| Seq (r1 r2 : regex)
| Alt (r1 r2 : regex)
| Rep (lo : nat) (hi : option nat) (r : regex)
| Boundary.

(** A literal string. *)
Fixpoint Lit (s : str) : regex :=
  match s with
  | [] => Eps
  | c :: r => Seq (Chr (N.eqb c)) (Lit r)
  end.

Definition Opt (r : regex) : regex := Rep 0 (Some 1%nat) r.
Definition Star (r : regex) : regex := Rep 0 None r.
Definition Plus (r : regex) : regex := Rep 1 None r.

(** The strings a pattern can match. *)
Inductive denota : regex -> str -> Prop :=
| D_eps : denota Eps []
| D_chr p c : p c = true -> denota (Chr p) [c]
| D_seq r1 r2 w1 w2 :
    denota r1 w1 -> denota r2 w2 -> denota (Seq r1 r2) (w1 ++ w2)
| D_alt_l r1 r2 w : denota r1 w -> denota (Alt r1 r2) w
| D_alt_r r1 r2 w : denota r2 w -> denota (Alt r1 r2) w
| D_rep_stop hi r : denota (Rep 0 hi r) []
| D_rep_step lo hi r w1 w2 :
    hi <> Some 0%nat ->
    denota r w1 ->
    denota (Rep (pred lo) (option_map pred hi) r) w2 ->
    denota (Rep lo hi r) (w1 ++ w2)
| D_boundary : denota Boundary [].

(** Every character a match can hold satisfies [P]. *)
Fixpoint solo (P : char -> bool) (r : regex) : Prop :=
  match r with
  | Chr p => forall c, p c = true -> P c = true
  | Seq r1 r2 | Alt r1 r2 => solo P r1 /\ solo P r2
  | Rep _ _ r' => solo P r'
  | Eps | Boundary => True
  end.

(** Every match holds a character that satisfies [P]. *)
Fixpoint exige (P : char -> bool) (r : regex) : Prop :=
  match r with
  | Chr p => forall c, p c = true -> P c = true
  | Seq r1 r2 => exige P r1 \/ exige P r2
  | Alt r1 r2 => exige P r1 /\ exige P r2
  | Rep lo _ r' => (1 <= lo)%nat /\ exige P r'
  | Eps | Boundary => False
  end.

(** The least and, when there is one, the greatest length of a match. *)
Fixpoint minlen (r : regex) : nat :=
  match r with
  | Chr _ => 1
  | Seq r1 r2 => minlen r1 + minlen r2
  | Alt r1 r2 => Nat.min (minlen r1) (minlen r2)
  | Rep lo _ r' => lo * minlen r'
  | Eps | Boundary => 0
  end.

Fixpoint maxlen (r : regex) : option nat :=
  match r with
  | Chr _ => Some 1%nat
  | Seq r1 r2 =>
      match maxlen r1, maxlen r2 with
      | Some a, Some b => Some (a + b)%nat
      | _, _ => None
      end
  | Alt r1 r2 =>
      match maxlen r1, maxlen r2 with
      | Some a, Some b => Some (Nat.max a b)
      | _, _ => None
      end
  | Rep _ hi r' =>
      match hi, maxlen r' with
      | Some h, Some a => Some (h * a)%nat
      | _, _ => None
      end
  | Eps | Boundary => Some 0%nat
  end.

Section Engine.

(** The class [\w], which decides where [\b] holds. *)
Variable is_word : char -> bool.

Definition at_boundary (prev : option char) (s : str) : bool :=
  xorb (match prev with Some c => is_word c | None => false end)
       (match s with c :: _ => is_word c | [] => false end).

(** A greedy repetition of at most [n] and at least [lo] iterations of
    [body], before the continuation [k]: one more iteration is tried first,
    stopping here is the fallback. *)
Fixpoint rep_loop
  (body : option char -> str -> (option char -> str -> option str)
          -> option str)
  (k : option char -> str -> option str)
  (n lo : nat) (prev : option char) (s : str) {struct n} : option str :=
  match n with
  | O => if Nat.eqb lo 0 then k prev s else None
  | S n' =>
      match body prev s (fun prev' s' => rep_loop body k n' (pred lo) prev' s')
      with
      | Some out => Some out
      | None => if Nat.eqb lo 0 then k prev s else None
      end
  end.

(** [mt r prev s k]: match [r] at the head of [s], [prev] being the
    character before it, and hand what follows to [k]. *)
Fixpoint mt (r : regex) (prev : option char) (s : str)
  (k : option char -> str -> option str) {struct r} : option str :=
  match r with
  | Eps => k prev s
  | Chr p =>
      match s with
      | c :: s' => if p c then k (Some c) s' else None
      | [] => None
      end
  | Seq r1 r2 => mt r1 prev s (fun prev' s' => mt r2 prev' s' k)
  | Alt r1 r2 =>
      match mt r1 prev s k with
      | Some out => Some out
      | None => mt r2 prev s k
      end
  | Rep lo hi r' =>
      rep_loop (mt r') k
        (match hi with Some h => h | None => length s end) lo prev s
  | Boundary => if at_boundary prev s then k prev s else None
  end.

(** What a successful match leaves is what follows a string the pattern
    denotes. *)
Definition mt_ok (r : regex) : Prop :=
  forall prev s k out,
    mt r prev s k = Some out ->
    exists w prev' s',
      s = w ++ s' /\ denota r w /\ k prev' s' = Some out.

(** The match at the head of [s], if any: what is left after it. *)
Definition match_here (r : regex) (prev : option char) (s : str)
  : option str :=
  mt r prev s (fun _ s' => Some s').

(** The scan of [re.findall]: leftmost matches that do not overlap.  After
    a match of [n] characters the next [n - 1] positions are skipped. *)
Fixpoint scan (r : regex) (skip : nat) (prev : option char) (s : str)
  : list str :=
  match s with
  | [] =>
      match skip, match_here r prev [] with
      | O, Some _ => [[]]
      | _, _ => []
      end
  | c :: s' =>
      match skip with
      | S j => scan r j (Some c) s'
      | O =>
          match match_here r prev s with
          | Some rest =>
              let n := (length s - length rest)%nat in
              firstn n s :: scan r (pred n) (Some c) s'
          | None => scan r 0 (Some c) s'
          end
      end
  end.

(** [re.findall(r, s)] for a pattern without capturing groups. *)
Definition findall (r : regex) (s : str) : list str := scan r 0 None s.

End Engine.

End Re.

(** ** wordChef.py: the pattern finders *)

Module Patrones.

Import Re.

Definition uno_de (l : list char) : char -> bool :=
  fun c => existsb (N.eqb c) l.

Definition entre (a b : char) : char -> bool :=
  fun c => ((a <=? c) && (c <=? b))%N.

Definition o (p q : char -> bool) : char -> bool :=
  fun c => p c || q c.

Section Finders.

(** The Unicode classes [\d] and [\w]. *)
Variable isdigit : char -> bool.
Variable is_word : char -> bool.

Definition d : regex := Chr isdigit.
Definition separador : regex := Chr (uno_de [47; 45]%N).
Definition punto_coma : regex := Chr (uno_de [46; 44]%N).
Definition euro : char := 8364%N.
Definition dolar : char := 36%N.

(** [\b(?:\d{1,2}[/-]\d{1,2}[/-]\d{2,4}|\d{4}[/-]\d{1,2}[/-]\d{1,2})\b] *)
Definition PATRON_FECHAS : regex :=
  Seq Boundary
   (Seq (Alt (Seq (Rep 1 (Some 2%nat) d)
               (Seq separador
               (Seq (Rep 1 (Some 2%nat) d)
               (Seq separador (Rep 2 (Some 4%nat) d)))))
             (Seq (Rep 4 (Some 4%nat) d)
               (Seq separador
               (Seq (Rep 1 (Some 2%nat) d)
               (Seq separador (Rep 1 (Some 2%nat) d))))))
        Boundary).

(** The pattern for money: optional euro sign, optional space, one to three
    digits, groups of three digits after a dot or a comma, an optional
    fraction, an optional space and a currency; or a dollar sign, digits,
    an optional fraction and a word boundary; all after a word boundary. *)
Definition PATRON_DINERO : regex :=
  Seq Boundary
   (Alt (Seq (Opt (Chr (N.eqb euro)))
        (Seq (Opt (Chr isspace))
        (Seq (Rep 1 (Some 3%nat) d)
        (Seq (Star (Seq punto_coma (Rep 3 (Some 3%nat) d)))
        (Seq (Opt (Seq punto_coma (Plus d)))
        (Seq (Opt (Chr isspace))
             (Alt (Chr (N.eqb euro))
             (Alt (Lit (lit "euros"))
             (Alt (Lit (lit "USD")) (Chr (N.eqb dolar)))))))))))
        (Seq (Chr (N.eqb dolar))
        (Seq (Plus d)
        (Seq (Opt (Seq (Chr (N.eqb 46%N)) (Plus d)))
             Boundary)))).

Definition letra : char -> bool := o (entre 65%N 90%N) (entre 97%N 122%N).
Definition letra_o_cifra : char -> bool := o letra (entre 48%N 57%N).

(** [\b[A-Za-z0-9._%+-]+@[A-Za-z0-9.-]+\.[A-Za-z]{2,}\b] *)
Definition PATRON_EMAIL : regex :=
  Seq Boundary
   (Seq (Plus (Chr (o letra_o_cifra (uno_de [46; 95; 37; 43; 45]%N))))
   (Seq (Chr (N.eqb 64%N))
   (Seq (Plus (Chr (o letra_o_cifra (uno_de [46; 45]%N))))
   (Seq (Chr (N.eqb 46%N))
   (Seq (Rep 2 None (Chr letra))
        Boundary))))).

Definition encontrar_fechas (texto : str) : list str :=
  findall is_word PATRON_FECHAS texto.
Definition encontrar_dinero (texto : str) : list str :=
  findall is_word PATRON_DINERO texto.
Definition encontrar_correos (texto : str) : list str :=
  findall is_word PATRON_EMAIL texto.

End Finders.

End Patrones.

(** ** wordChef.py: asking for the text

    The console is the lines still to be read and the lines printed so far;
    [input] on an exhausted console raises [EOFError].  The file system
    gives, for a path, nothing when it does not exist, and otherwise its
    content or the error of reading it. *)

Module Entrada.

Record Consola := {
  pendientes : list str;
  impreso : list str
}.

Definition IO (A : Type) := Consola -> exc (A * Consola).

Definition ret {A} (a : A) : IO A := fun c => Ok (a, c).

Definition seguido {A B} (m : IO A) (k : A -> IO B) : IO B :=
  fun c => match m c with
           | Ok (a, c') => k a c'
           | Raise e => Raise e
           end.

Definition print (s : str) : IO unit :=
  fun c => Ok (tt, {| pendientes := pendientes c;
                      impreso := impreso c ++ [s] |}).

Definition input (prompt : str) : IO str :=
  fun c => match pendientes c with
           | [] => Raise (lit "EOFError")
           | l :: r => Ok (l, {| pendientes := r;
                                 impreso := impreso c ++ [prompt] |})
           end.

Definition o_acute : char := 243%N.
Definition a_acute : char := 225%N.
Definition nl : char := 10%N.

Section Entrada.

Variable archivos : str -> option (exc str).

Definition leer_archivo (ruta : str) : IO (option str) :=
  match archivos ruta with
  | None =>
      seguido (print (lit "Error: El archivo '" ++ ruta
                      ++ lit "' no existe."))
              (fun _ => ret None)
  | Some (Ok contenido) => ret (Some contenido)
  | Some (Raise e) =>
      seguido (print (lit "Error al leer el archivo: " ++ e))
              (fun _ => ret None)
  end.

Definition pedir_manual : IO str :=
  input (lit "Ingresa texto:" ++ [nl] ++ lit "> ").

(** The loop [for _ in range(3)], [intentos] being the turns left. *)
Fixpoint obtener_texto_desde (intentos : nat) : IO str :=
  match intentos with
  | O => pedir_manual
  | S resto =>
      seguido (print (lit "Selecciona c" ++ [o_acute]
                      ++ lit "mo ingresar el texto:")) (fun _ =>
      seguido (print (lit "1) Escribir directamente")) (fun _ =>
      seguido (print (lit "2) Leer desde archivo")) (fun _ =>
      seguido (input (lit "> ")) (fun linea =>
      let opcion := strip linea in
      if str_eqb opcion (lit "1") then pedir_manual
      else if str_eqb opcion (lit "2") then
        seguido (input (lit "Ingresa la ruta del archivo de texto:"
                        ++ [nl] ++ lit "> ")) (fun linea_ruta =>
        let ruta := strip linea_ruta in
        seguido (leer_archivo ruta) (fun texto =>
        match texto with
        | Some t => ret t
        | None =>
            seguido (print (lit "Intenta de nuevo."))
                    (fun _ => obtener_texto_desde resto)
        end))
      else
        seguido (print (lit "Opci" ++ [o_acute] ++ lit "n no v"
                        ++ [a_acute] ++ lit "lida, se intentar"
                        ++ [a_acute] ++ lit " entrada manual."))
                (fun _ => obtener_texto_desde resto)))))
  end.

Definition obtener_texto : IO str := obtener_texto_desde 3.

Definition solicitar_texto : IO str :=
  seguido (print ([nl] ++ lit "=== Obtener texto ==="))
          (fun _ => obtener_texto).

End Entrada.

End Entrada.

(** ** wordChef.py: loading the dependencies *)

Module Carga.

(** The spaCy library when it could be imported; [Modelo] is a loaded
    pipeline.  [add_pipe] returns the pipeline with the component added. *)
Record Spacy (Modelo : Type) := {
  load : str -> exc Modelo;
  blank : str -> exc Modelo;
  pipe_names : Modelo -> list str;
  add_pipe : str -> Modelo -> exc Modelo
}.
Arguments load {Modelo}.
Arguments blank {Modelo}.
Arguments pipe_names {Modelo}.
Arguments add_pipe {Modelo}.

Definition modelos : list str :=
  [lit "es_core_news_sm"; lit "es_core_news_md"; lit "xx_sent_ud_sm"].

Section Carga.
Variable Modelo : Type.
Variable sp : Spacy Modelo.

(** [try: nlp.add_pipe("sentencizer") except Exception: pass] *)
Definition con_sentencizer (nlp : Modelo) : Modelo :=
  match add_pipe sp (lit "sentencizer") nlp with
  | Ok nlp' => nlp'
  | Raise _ => nlp
  end.

(** The loop over the model names: the first that loads is returned. *)
Fixpoint probar (nombres : list str) : option Modelo :=
  match nombres with
  | [] => None
  | m :: resto =>
      match load sp m with
      | Ok nlp =>
          Some (if negb (str_in (lit "sentencizer") (pipe_names sp nlp))
                then con_sentencizer nlp else nlp)
      | Raise _ => probar resto
      end
  end.

End Carga.

Definition cargar_modelo_spacy {Modelo} (spacy : option (Spacy Modelo))
  : Entrada.IO (option Modelo) :=
  match spacy with
  | None =>
      Entrada.seguido
        (Entrada.print (lit "Aviso: spaCy no instalado. Algunas funciones no "
                        ++ lit "estar" ++ [225%N] ++ lit "n disponibles."))
        (fun _ => Entrada.ret None)
  | Some sp =>
      match probar sp modelos with
      | Some nlp => Entrada.ret (Some nlp)
      | None =>
          fun c => match blank sp (lit "es") with
                   | Ok nlp => Ok (Some (con_sentencizer sp nlp), c)
                   | Raise e => Raise e
                   end
      end
  end.

(** [pipeline] is the factory of [transformers] when it could be
    imported. *)
Definition inicializar_sentimiento {C}
  (pipeline : option (str -> str -> exc C)) : option C :=
  match pipeline with
  | None => None
  | Some p =>
      match p (lit "sentiment-analysis")
              (lit "nlptown/bert-base-multilingual-uncased-sentiment") with
      | Ok c => Some c
      | Raise _ => None
      end
  end.

End Carga.

(** ** wordChef.py: the menu

    The world of the menu is the console and the sequence of calls made to
    [logger.log], each with its label, its text and the Python value
    logged.  What is printed is the text of the arguments of [print], joined
    by spaces. *)

Module Menu.

#[local] Unset Elimination Schemes.
Inductive PyVal :=
| VStr (s : str)
| VInt (n : Z)
| VLista (l : list PyVal)
| VTupla (l : list PyVal)
| VDicc (d : list (str * PyVal)).
#[local] Set Elimination Schemes.

Record Mundo := {
  consola : Entrada.Consola;
  registros : list (str * str * PyVal)
}.

Definition M (A : Type) := Mundo -> exc (A * Mundo).

Definition ret {A} (a : A) : M A := fun w => Ok (a, w).

Definition luego {A B} (m : M A) (k : A -> M B) : M B :=
  fun w => match m w with
           | Ok (a, w') => k a w'
           | Raise e => Raise e
           end.

Definition lift {A} (m : Entrada.IO A) : M A :=
  fun w => match m (consola w) with
           | Ok (a, c') => Ok (a, {| consola := c'; registros := registros w |})
           | Raise e => Raise e
           end.

(** A call that may raise. *)
Definition llamar {A} (r : exc A) : M A :=
  fun w => match r with
           | Ok a => Ok (a, w)
           | Raise e => Raise e
           end.

(** [logger.log(tipo, texto, valor)] *)
Definition log (tipo texto : str) (valor : PyVal) : M unit :=
  fun w => Ok (tt, {| consola := consola w;
                      registros := registros w ++ [(tipo, texto, valor)] |}).

(** From [w] to [w'] nothing was read from the console, and at most [n]
    calls to [logger.log] were made, all of them with the text [texto]. *)
Definition marco (texto : str) (n : nat) (w w' : Mundo) : Prop :=
  Entrada.pendientes (consola w') = Entrada.pendientes (consola w)
  /\ exists extra,
       registros w' = registros w ++ extra
       /\ (length extra <= n)%nat
       /\ forall r, In r extra -> snd (fst r) = texto.

Definition vstrs (l : list str) : PyVal := VLista (map VStr l).

Definition pares (l : list (str * Z)) : PyVal :=
  VLista (map (fun p => VTupla [VStr (fst p); VInt (snd p)]) l).

Definition de_normalizado (n : WordChef.Normalizado) : PyVal :=
  VDicc [ (lit "original", VStr (WordChef.original n));
          (lit "lematizado", VStr (WordChef.lematizado n));
          (lit "sin_repeticiones", VStr (WordChef.sin_repeticiones n));
          (lit "corregido", VStr (WordChef.corregido n)) ].

Definition de_palabras (r : WordChef.PalabrasClave) : PyVal :=
  VDicc [ (lit "top_5_palabras", pares (WordChef.top_5_palabras r));
          (lit "sustantivos", pares (WordChef.sustantivos r));
          (lit "verbos", pares (WordChef.verbos r)) ].

Definition de_entidades (d : dict (list str)) : PyVal :=
  VDicc (map (fun kv => (fst kv, vstrs (snd kv))) d).

Definition u_acute : char := 250%N.
Definition o_acute : char := 243%N.
Definition a_acute : char := 225%N.
Definition nl : char := 10%N.

Section Menu.

Variable lower : str -> str.
Variable alnum : char -> bool.
Variable isdigit : char -> bool.
Variable nltk : option WordChef.Nltk.
Variable archivos : str -> option (exc str).

(** [repr] of a value that is not a string, and the format [.4f]. *)
Variable repr : PyVal -> str.
Variable formato_4f : Q -> str.

(** [str(v)] *)
Definition texto_de (v : PyVal) : str :=
  match v with
  | VStr s => s
  | _ => repr v
  end.

Definition print (args : list PyVal) : M unit :=
  lift (Entrada.print (join (lit " ") (map texto_de args))).

Definition print_linea (s : str) : M unit := print [VStr s].

(** [l or alternativa] *)
Definition o_si_vacia (l : list str) (alternativa : str) : PyVal :=
  if truthy l then vstrs l else VStr alternativa.

Variable nlp : option Language.
Variable clasificador_sentimiento : option WordChef.Clasificador.

(** [extraer_entidades] as the menu sees it: without spaCy it prints a
    warning before returning the empty dictionary. *)
Definition entidades_con_aviso (texto : str) : M (dict (list str)) :=
  match nlp with
  | None =>
      luego (print_linea (lit "Aviso: spaCy no disponible " ++ [8212%N]
                          ++ lit " NER no puede ejecutarse."))
            (fun _ => llamar (WordChef.extraer_entidades texto None))
  | Some _ => llamar (WordChef.extraer_entidades texto nlp)
  end.

(** The branches of one turn of the menu, once the text is known. *)
Definition atender (opcion texto : str) : M unit :=
  if str_eqb opcion (lit "1") then
    luego (llamar (WordChef.normalizador_texto lower texto nlp)) (fun res =>
    match res with
    | Some r =>
        luego (print_linea ([nl] ++ lit "--- RESULTADOS ---")) (fun _ =>
        luego (print [VStr (lit "Original:"); VStr (WordChef.original r)])
          (fun _ =>
        luego (print [VStr (lit "Lematizado:"); VStr (WordChef.lematizado r)])
          (fun _ =>
        luego (print [VStr (lit "Sin repeticiones:");
                      VStr (WordChef.sin_repeticiones r)]) (fun _ =>
        luego (print [VStr (lit "Corregido:"); VStr (WordChef.corregido r)])
          (fun _ =>
        log (lit "Normalizador") texto (de_normalizado r))))))
    | None => ret tt
    end)
  else if str_eqb opcion (lit "2") then
    let fechas :=
      Patrones.encontrar_fechas isdigit (WordChef.is_word alnum) texto in
    let dinero :=
      Patrones.encontrar_dinero isdigit (WordChef.is_word alnum) texto in
    let correos :=
      Patrones.encontrar_correos (WordChef.is_word alnum) texto in
    luego (print [VStr ([nl] ++ lit "Fechas:");
                  o_si_vacia fechas (lit "Ninguna")]) (fun _ =>
    luego (print [VStr (lit "Dinero:"); o_si_vacia dinero (lit "Ninguno")])
      (fun _ =>
    luego (print [VStr (lit "Correos:"); o_si_vacia correos (lit "Ninguno")])
      (fun _ =>
    log (lit "Patrones") texto
        (VDicc [ (lit "Fechas", vstrs fechas); (lit "Dinero", vstrs dinero);
                 (lit "Correos", vstrs correos) ]))))
  else if str_eqb opcion (lit "3") then
    luego (llamar (WordChef.resumen_simple alnum texto 3 nlp)) (fun resumen =>
    luego (print_linea ([nl] ++ lit "--- RESUMEN ---")) (fun _ =>
    luego (print [VStr resumen]) (fun _ =>
    log (lit "Resumen") texto (VDicc [(lit "Resumen", VStr resumen)]))))
  else if str_eqb opcion (lit "4") then
    luego (entidades_con_aviso texto) (fun entidades =>
    luego (fold_left
             (fun m kv =>
                luego m (fun _ =>
                print_linea (fst kv ++ lit ": " ++
                             (if truthy (snd kv) then repr (vstrs (snd kv))
                              else lit "Ninguno detectado"))))
             entidades (ret tt)) (fun _ =>
    log (lit "NER") texto (de_entidades entidades)))
  else if str_eqb opcion (lit "5") then
    luego (llamar (WordChef.extraer_palabras_clave lower alnum nltk texto nlp))
      (fun resultado =>
    match resultado with
    | Some r =>
        luego (print [VStr (lit "Top 5 palabras:");
                      pares (WordChef.top_5_palabras r)]) (fun _ =>
        luego (print [VStr (lit "Sustantivos relevantes:");
                      pares (WordChef.sustantivos r)]) (fun _ =>
        luego (print [VStr (lit "Verbos principales:");
                      pares (WordChef.verbos r)]) (fun _ =>
        log (lit "Palabras clave") texto (de_palabras r))))
    | None => ret tt
    end)
  else if str_eqb opcion (lit "6") then
    let '(sentimiento, score, raw) :=
      WordChef.sentimiento_es texto clasificador_sentimiento in
    if str_eqb sentimiento (lit "Error") then
      print_linea (lit "Ocurri" ++ [o_acute] ++ lit " un error: " ++ raw)
    else
      luego (print_linea (lit "Resultado: " ++ sentimiento
                          ++ lit " (Confianza: " ++ formato_4f score
                          ++ lit ") Estrellas: " ++ raw)) (fun _ =>
      log (lit "Sentimiento") texto
          (VDicc [ (lit "Sentimiento", VStr sentimiento);
                   (lit "Confianza", VStr (formato_4f score));
                   (lit "Etiqueta", VStr raw) ]))
  else ret tt.

Definition mostrar_menu : M unit :=
  luego (print_linea ([nl] ++ lit "=== worldChef: Men" ++ [u_acute]
                      ++ lit " de utilidades ===")) (fun _ =>
  luego (print_linea (lit "1) Normalizador de texto")) (fun _ =>
  luego (print_linea (lit "2) Buscar patrones (fechas, dinero, correos)"))
    (fun _ =>
  luego (print_linea (lit "3) Resumen simple")) (fun _ =>
  luego (print_linea (lit "4) Extracci" ++ [o_acute]
                      ++ lit "n de entidades")) (fun _ =>
  luego (print_linea (lit "5) Palabras clave")) (fun _ =>
  luego (print_linea (lit "6) An" ++ [a_acute]
                      ++ lit "lisis de sentimiento")) (fun _ =>
  print_linea (lit "0) Salir")))))))).

(** The loop [while True]; every turn reads a line, so the number of
    pending lines bounds the number of turns: [vueltas] is that bound, and
    a turn beyond it would find the console exhausted. *)
Fixpoint menu_bucle (vueltas : nat) : M unit :=
  match vueltas with
  | O => fun _ => Raise (lit "EOFError")
  | S resto =>
      luego mostrar_menu (fun _ =>
      luego (lift (Entrada.input (lit "Selecciona una opci" ++ [o_acute]
                                  ++ lit "n: "))) (fun linea =>
      let opcion := strip linea in
      if str_eqb opcion (lit "0") then print_linea (lit "Saliendo.")
      else if negb (contains opcion (lit "123456")) then
        luego (print_linea (lit "Opci" ++ [o_acute] ++ lit "n no v"
                            ++ [a_acute] ++ lit "lida, intenta de nuevo."))
              (fun _ => menu_bucle resto)
      else
        luego (lift (Entrada.solicitar_texto archivos)) (fun texto =>
        luego (atender opcion texto) (fun _ => menu_bucle resto))))
  end.

End Menu.

(** [menu_principal]: the dependencies are loaded once, then the loop
    runs.  [inicializar_nltk] only touches the data store of NLTK and
    leaves the console and the log alone. *)
Definition menu_principal lower alnum isdigit nltk archivos repr formato_4f
  (spacy : option (Carga.Spacy Language))
  (pipeline : option (str -> str -> exc WordChef.Clasificador)) : M unit :=
  luego (lift (Carga.cargar_modelo_spacy spacy)) (fun nlp =>
  let clasificador_sentimiento := Carga.inicializar_sentimiento pipeline in
  fun w =>
    menu_bucle lower alnum isdigit nltk archivos repr formato_4f nlp
      clasificador_sentimiento
      (S (length (Entrada.pendientes (consola w)))) w).

End Menu.

(** ** More concrete inputs *)

Module Casos.

Import Ejemplos.

Definition isdigit (c : char) : bool := ((48 <=? c) && (c <=? 57))%N.
Definition is_word : char -> bool := WordChef.is_word alnum.

(** A tokenizer that splits on white space, and three stop words. *)
Definition nltk_simple : WordChef.Nltk :=
  {| WordChef.word_tokenize := split;
     WordChef.stopwords_spanish := [lit "la"; lit "los"; lit "del"] |}.

Definition verbo (w : String.string) : Token :=
  {| text := lit w; lemma_ := lit w; pos_ := lit "VERB";
     is_stop := false; is_alpha := true |}.

Definition texto_casas : str := lit "La casa del perro mira la casa".

Definition doc_casas : Doc :=
  {| tokens := [articulo "La"; nombre "casa"; articulo "del"; nombre "perro";
                verbo "mira"; articulo "la"; nombre "casa"];
     sents := [];
     noun_chunks := [];
     ents := [] |}.

Definition falla : Language := fun _ => Raise (lit "sin modelo").

Definition doc_limpio : Doc :=
  {| tokens := [nombre "un"; nombre "perro"; verbo "corre"];
     sents := []; noun_chunks := []; ents := [] |}.

(** A spaCy where only the medium model is installed; a pipeline is a
    list of component names. *)
Definition spacy_md : Carga.Spacy (list str) :=
  {| Carga.load := fun m => if str_eqb m (lit "es_core_news_md")
                            then Ok [lit "tagger"]
                            else Raise (lit "OSError");
     Carga.blank := fun _ => Ok [];
     Carga.pipe_names := fun nlp => nlp;
     Carga.add_pipe := fun c nlp => Ok (nlp ++ [c]) |}.

Definition sin_archivos : str -> option (exc str) := fun _ => None.

Definition consola_de (lineas : list str) : Entrada.Consola :=
  {| Entrada.pendientes := lineas; Entrada.impreso := [] |}.

Definition mundo_de (lineas : list str) : Menu.Mundo :=
  {| Menu.consola := consola_de lineas; Menu.registros := [] |}.

Definition sin_repr : Menu.PyVal -> str := fun _ => lit "...".
Definition sin_formato : Q -> str := fun _ => lit "0.0000".

Definition atender :=
  Menu.atender lower alnum isdigit (Some nltk_simple) sin_repr sin_formato
    None None.

Definition menu_bucle :=
  Menu.menu_bucle lower alnum isdigit (Some nltk_simple) sin_archivos
    sin_repr sin_formato None None.

Definition texto_prueba : str :=
  lit "Naci el 15/03/1995 y mi email es juan@ejemplo.com. Gane 1.500 euros.".

End Casos.

(** * Properties *)

(** ** Lists, slices and the stable sort *)

Lemma len_nonneg {A} (l : list A) : 0 <= len l.
Proof. unfold len; lia. Qed.

Lemma In_firstn {A} n (l : list A) x : In x (firstn n l) -> In x l.
Proof.
  revert l. induction n as [|n IH]; intros [|y r]; simpl; try tauto.
  intros [H|H]; [left; exact H | right; apply IH, H].
Qed.

Lemma In_skipn {A} n (l : list A) x : In x (skipn n l) -> In x l.
Proof.
  revert l. induction n as [|n IH]; intros [|y r]; simpl; try tauto.
  intros H. right. apply IH, H.
Qed.

Lemma slice_to_nonneg {A} (k : Z) (l : list A) :
  0 <= k -> slice_to k l = firstn (Z.to_nat k) l.
Proof.
  intros Hk. unfold slice_to.
  destruct (0 <=? k) eqn:E; [reflexivity | apply Z.leb_gt in E; lia].
Qed.

Lemma slice_to_len {A} (k : Z) (l : list A) :
  0 <= k -> len (slice_to k l) <= k.
Proof.
  intros Hk. rewrite slice_to_nonneg by assumption.
  unfold len. pose proof (firstn_le_length (Z.to_nat k) l). lia.
Qed.

Lemma slice_to_incl {A} (k : Z) (l : list A) x :
  In x (slice_to k l) -> In x l.
Proof.
  unfold slice_to. destruct (0 <=? k); intros H; eapply In_firstn; eauto.
Qed.

Lemma slice_to_all {A} (k : Z) (l : list A) :
  len l <= k -> slice_to k l = l.
Proof.
  intros H. pose proof (len_nonneg l).
  rewrite slice_to_nonneg by lia. apply firstn_all2. unfold len in H. lia.
Qed.

Section SortFacts.
Variable A : Type.
Variable before : A -> A -> bool.

Lemma ins_perm (x : A) (l : list A) : Permutation (ins before x l) (x :: l).
Proof.
  induction l as [|y r IH]; simpl.
  - apply Permutation_refl.
  - destruct (before y x).
    + eapply Permutation_trans; [apply perm_skip, IH | apply perm_swap].
    + apply Permutation_refl.
Qed.

Lemma sorted_perm (l : list A) : Permutation (sorted before l) l.
Proof.
  induction l as [|x r IH]; simpl.
  - apply perm_nil.
  - eapply Permutation_trans; [apply ins_perm | apply perm_skip, IH].
Qed.

Lemma sorted_length (l : list A) : length (sorted before l) = length l.
Proof. apply Permutation_length, sorted_perm. Qed.

Lemma sorted_in (l : list A) x : In x (sorted before l) <-> In x l.
Proof.
  split; apply Permutation_in;
    [apply sorted_perm | apply Permutation_sym, sorted_perm].
Qed.

(** The order the sort establishes, for any relation [R] that [before]
    decides. *)
Variable R : A -> A -> Prop.
Hypothesis R_trans : forall a b c, R a b -> R b c -> R a c.
Hypothesis before_true : forall y x, before y x = true -> R y x.
Hypothesis before_false : forall y x, before y x = false -> R x y.

Lemma ins_sorted (x : A) (l : list A) :
  StronglySorted R l -> StronglySorted R (ins before x l).
Proof.
  induction 1 as [|y r Hr IH Hy]; simpl.
  - constructor; [constructor | constructor].
  - destruct (before y x) eqn:E.
    + constructor; [exact IH|].
      apply Forall_forall. intros z Hz.
      apply (Permutation_in _ (ins_perm x r)) in Hz.
      destruct Hz as [<-|Hz]; [auto|].
      rewrite Forall_forall in Hy. auto.
    + constructor; [constructor; assumption|].
      constructor; [auto|].
      rewrite Forall_forall in Hy |- *. intros z Hz. eauto.
Qed.

Lemma sorted_sorted (l : list A) : StronglySorted R (sorted before l).
Proof.
  induction l as [|x r IH]; simpl; [constructor | apply ins_sorted, IH].
Qed.
End SortFacts.

Lemma sorted_desc_sorted {A} (key : A -> Q) (l : list A) :
  StronglySorted (fun a b => (key b <= key a)%Q) (sorted_desc key l).
Proof.
  apply sorted_sorted.
  - intros a b c Hab Hbc. eapply Qle_trans; eauto.
  - intros y x H. apply negb_true_iff in H.
    destruct (Qlt_le_dec (key x) (key y)) as [Hlt|Hle].
    + apply Qlt_le_weak, Hlt.
    + apply Qle_bool_iff in Hle. congruence.
  - intros y x H. apply negb_false_iff in H. apply Qle_bool_iff, H.
Qed.

Lemma sorted_asc_sorted {A} (key : A -> Z) (l : list A) :
  StronglySorted (fun a b => key a <= key b) (sorted_asc key l).
Proof.
  apply sorted_sorted.
  - intros; lia.
  - intros y x H. apply Z.ltb_lt in H. lia.
  - intros y x H. apply Z.ltb_ge in H. lia.
Qed.

Lemma StronglySorted_firstn {A} (R : A -> A -> Prop) n (l : list A) :
  StronglySorted R l -> StronglySorted R (firstn n l).
Proof.
  intros H. revert n. induction H as [|x r Hr IH Hx]; intros [|n]; simpl;
    try constructor; auto.
  rewrite Forall_forall in Hx |- *. intros z Hz. eauto using In_firstn.
Qed.

Lemma StronglySorted_split {A} (R : A -> A -> Prop) n (l : list A) a b :
  StronglySorted R l -> In a (firstn n l) -> In b (skipn n l) -> R a b.
Proof.
  intros H. revert n. induction H as [|x r Hr IH Hx]; intros [|n]; simpl;
    try contradiction.
  intros [<-|Ha] Hb.
  - rewrite Forall_forall in Hx. eauto using In_skipn.
  - eauto.
Qed.

Lemma slice_to_sorted {A} (R : A -> A -> Prop) k (l : list A) :
  StronglySorted R l -> StronglySorted R (slice_to k l).
Proof.
  unfold slice_to. destruct (0 <=? k); apply StronglySorted_firstn.
Qed.

(** ** Floats

    [<] on the floats that are numbers is a strict weak order. *)

Ltac comparar :=
  repeat match goal with
  | H : context [Z.compare ?a ?b] |- _ =>
      destruct (Z.compare_spec a b); try subst; simpl in H
  | |- context [Z.compare ?a ?b] =>
      destruct (Z.compare_spec a b); try subst; simpl
  | H : context [Pos.compare ?a ?b] |- _ =>
      destruct (Pos.compare_spec a b); try subst; simpl in H
  | |- context [Pos.compare ?a ?b] =>
      destruct (Pos.compare_spec a b); try subst; simpl
  end; try discriminate; try reflexivity; try lia.

Ltac por_casos :=
  unfold Float.ltb, Float.leb, SFltb, SFleb, SFcompare;
  repeat match goal with
  | x : Float.float |- _ => destruct x
  | s : bool |- _ => destruct s
  end; simpl; try discriminate; try reflexivity;
  change (Pos.compare_cont Eq) with Pos.compare in *;
  intros; comparar.

Lemma ltb_asym (x y : Float.float) :
  Float.ltb x y = true -> Float.ltb y x = false.
Proof. por_casos. Qed.

Lemma ltb_leb (x y : Float.float) :
  Float.isnan x = false -> Float.isnan y = false ->
  Float.ltb x y = false -> Float.leb y x = true.
Proof. por_casos. Qed.

Lemma ltb_false_trans (x y z : Float.float) :
  Float.isnan y = false ->
  Float.ltb x y = false -> Float.ltb y z = false -> Float.ltb x z = false.
Proof. por_casos. Qed.

(** The rounding of a mantissa that is not negative is a number. *)

Lemma shr_1_m mrs :
  0 <= shr_m mrs -> 0 <= shr_m (shr_1 mrs) <= shr_m mrs.
Proof.
  destruct mrs as [m r s]. simpl.
  destruct m as [|[p|p|]|p]; simpl; lia.
Qed.

Lemma iter_shr_1_m n : forall mrs,
  0 <= shr_m mrs -> 0 <= shr_m (iter_pos shr_1 n mrs) <= shr_m mrs.
Proof.
  induction n as [n IH|n IH|]; intros mrs H; simpl.
  - pose proof (shr_1_m mrs H) as H1.
    pose proof (IH _ (proj1 H1)) as H2.
    pose proof (IH _ (proj1 H2)) as H3. lia.
  - pose proof (IH _ H) as H2.
    pose proof (IH _ (proj1 H2)) as H3. lia.
  - apply shr_1_m, H.
Qed.

Lemma shr_record_of_loc_m m l : shr_m (shr_record_of_loc m l) = m.
Proof. destruct l as [|[ | | ]]; reflexivity. Qed.

Lemma shr_fexp_m m e l :
  0 <= m ->
  0 <= shr_m (fst (shr_fexp Float.prec Float.emax m e l)) <= m.
Proof.
  intros H. unfold shr_fexp, shr.
  destruct (fexp Float.prec Float.emax (Zdigits2 m + e) - e) as [|n|n];
    simpl; rewrite ?shr_record_of_loc_m; try lia.
  pose proof (iter_shr_1_m n (shr_record_of_loc m l)) as Hn.
  rewrite shr_record_of_loc_m in Hn. auto.
Qed.

Lemma shr_fexp_e m e l :
  snd (shr_fexp Float.prec Float.emax m e l)
  = Z.max e (fexp Float.prec Float.emax (Zdigits2 m + e)).
Proof.
  unfold shr_fexp, shr.
  destruct (fexp Float.prec Float.emax (Zdigits2 m + e) - e) as [|n|n] eqn:E;
    simpl; lia.
Qed.

Lemma round_nearest_even_m m l :
  m <= round_nearest_even m l <= m + 1.
Proof.
  destruct l as [|[ | | ]]; simpl; try lia.
  destruct (Z.even m); lia.
Qed.

Lemma binary_round_aux_isnan s m e l :
  0 <= m ->
  Float.isnan (binary_round_aux Float.prec Float.emax s m e l) = false.
Proof.
  intros H. unfold binary_round_aux.
  pose proof (shr_fexp_m e l H) as H1.
  destruct (shr_fexp Float.prec Float.emax m e l) as [mrs' e']. simpl in H1.
  pose proof (round_nearest_even_m (shr_m mrs') (loc_of_shr_record mrs')) as H2.
  assert (H3 : 0 <= round_nearest_even (shr_m mrs') (loc_of_shr_record mrs'))
    by lia.
  pose proof (shr_fexp_m e' loc_Exact H3) as H4.
  destruct (shr_fexp Float.prec Float.emax _ e' loc_Exact) as [mrs'' e''].
  simpl in H4. destruct (shr_m mrs'') as [|p|p]; try reflexivity; [|lia].
  destruct (e'' <=? Float.emax - Float.prec); reflexivity.
Qed.

Lemma binary_normalize_isnan m e s :
  Float.isnan (binary_normalize Float.prec Float.emax m e s) = false.
Proof.
  destruct m as [|p|p]; simpl; [reflexivity| |];
    unfold binary_round;
    destruct (shl_align p e _) as [mz ez];
    apply binary_round_aux_isnan; lia.
Qed.

Lemma div_isnan (x : Float.float) s m e :
  Float.isnan x = false ->
  Float.isnan (Float.div x (S754_finite s m e)) = false.
Proof.
  destruct x as [sx|sx| |sx mx ex]; try discriminate; try reflexivity.
  intros _. unfold Float.div, SFdiv, SFdiv_core_binary.
  match goal with
  | |- context [Z.div_eucl ?a ?b] =>
      assert (Hq : 0 <= a / b);
      [apply Z.div_pos; [|lia]| unfold Z.div in Hq;
                                 destruct (Z.div_eucl a b) as [q r]]
  end.
  - match goal with
    | |- 0 <= match ?d with _ => _ end => destruct d
    end; try lia.
    apply Z.shiftl_nonneg. lia.
  - apply binary_round_aux_isnan, Hq.
Qed.

Lemma sub_isnan (x y : Float.float) :
  Float.isfinite x = true -> Float.isnan y = false ->
  Float.isnan (Float.sub x y) = false.
Proof.
  destruct x as [sx|sx| |sx mx ex], y as [sy|sy| |sy my ey];
    try discriminate; intros _ _; try reflexivity.
  - destruct sx, sy; reflexivity.
  - apply binary_normalize_isnan.
Qed.

Lemma add_isnan (x y : Float.float) :
  Float.isnan x = false -> Float.isfinite y = true ->
  Float.isnan (Float.add x y) = false.
Proof.
  destruct x as [sx|sx| |sx mx ex], y as [sy|sy| |sy my ey];
    try discriminate; intros _ _; try reflexivity.
  - destruct sx, sy; reflexivity.
  - apply binary_normalize_isnan.
Qed.

(** An integer below [2 ^ 63] in absolute value converts to a finite
    float. *)

Lemma digits2_pos_le p : forall k,
  0 <= k -> Zpos p < 2 ^ k -> Zpos (digits2_pos p) <= k.
Proof.
  induction p as [p IH|p IH|]; intros k Hk H; simpl digits2_pos.
  - assert (k <> 0) by (intros ->; simpl in H; lia).
    replace k with (Z.succ (k - 1)) in H by lia.
    rewrite Z.pow_succ_r in H by lia.
    specialize (IH (k - 1)). lia.
  - assert (k <> 0) by (intros ->; simpl in H; lia).
    replace k with (Z.succ (k - 1)) in H by lia.
    rewrite Z.pow_succ_r in H by lia.
    specialize (IH (k - 1)). lia.
  - assert (k <> 0) by (intros ->; simpl in H; lia). lia.
Qed.

Lemma Zdigits2_le m k :
  0 <= k -> 0 <= m < 2 ^ k -> 0 <= Zdigits2 m <= k.
Proof.
  intros Hk H. destruct m as [|p|p]; simpl; try lia.
  pose proof (@digits2_pos_le p k Hk). lia.
Qed.

Lemma iter_xO_pow m d : Zpos (Pos.iter xO m d) = Zpos m * 2 ^ Zpos d.
Proof.
  induction d as [|d IH] using Pos.peano_ind.
  - simpl. lia.
  - rewrite Pos.iter_succ, Pos2Z.inj_succ, Z.pow_succ_r by lia.
    rewrite Pos2Z.inj_xO, IH. lia.
Qed.

Lemma binary_round_aux_isfinite s m e l k :
  0 <= k <= 120 -> 0 <= m < 2 ^ k -> e <= 0 ->
  Float.isfinite (binary_round_aux Float.prec Float.emax s m e l) = true.
Proof.
  intros Hk Hm He. unfold binary_round_aux.
  pose proof (shr_fexp_m e l (proj1 Hm)) as H1.
  pose proof (shr_fexp_e m e l) as E1.
  destruct (shr_fexp Float.prec Float.emax m e l) as [mrs' e']. simpl in H1, E1.
  pose proof (round_nearest_even_m (shr_m mrs') (loc_of_shr_record mrs')) as H2.
  set (m1 := round_nearest_even (shr_m mrs') (loc_of_shr_record mrs')) in *.
  assert (H3 : 0 <= m1) by lia.
  pose proof (shr_fexp_m e' loc_Exact H3) as H4.
  pose proof (shr_fexp_e m1 e' loc_Exact) as E2.
  destruct (shr_fexp Float.prec Float.emax m1 e' loc_Exact) as [mrs'' e''].
  simpl in H4, E2.
  destruct (shr_m mrs'') as [|p|p]; try reflexivity; [|lia].
  assert (Hd : 0 <= Zdigits2 m <= k) by (apply Zdigits2_le; lia).
  assert (Hd1 : 0 <= Zdigits2 m1 <= k + 1).
  { apply Zdigits2_le; [lia|]. rewrite Z.pow_add_r, Z.pow_1_r by lia. lia. }
  unfold fexp, emin, Float.prec, Float.emax in *.
  assert (Hle : (e'' <=? 1024 - 53) = true) by (apply Z.leb_le; lia).
  rewrite Hle. reflexivity.
Qed.

Lemma of_int_isfinite z :
  Z.abs z < 2 ^ 63 -> Float.isfinite (Float.of_int z) = true.
Proof.
  intros Hz. unfold Float.of_int, binary_normalize.
  assert (H : forall s p, Zpos p < 2 ^ 63 ->
            Float.isfinite (binary_round Float.prec Float.emax s p 0) = true).
  { intros s p Hp. unfold binary_round, shl_align.
    pose proof (@digits2_pos_le p 63 ltac:(lia) Hp) as Hd.
    assert (Hf : fexp Float.prec Float.emax (Zpos (digits2_pos p) + 0)
                 = Zpos (digits2_pos p) - 53)
      by (unfold fexp, emin, Float.prec, Float.emax; lia).
    rewrite Hf.
    destruct (Zpos (digits2_pos p) - 53 - 0) as [|d|d] eqn:Ed.
    - apply (@binary_round_aux_isfinite s _ 0 loc_Exact 63); lia.
    - apply (@binary_round_aux_isfinite s _ 0 loc_Exact 63); lia.
    - apply (@binary_round_aux_isfinite s _ _ loc_Exact (63 + Zpos d));
        [lia| |lia].
      rewrite iter_xO_pow, Z.pow_add_r by lia.
      split; [lia|]. apply Z.mul_lt_mono_pos_r; [|exact Hp].
      apply Z.pow_pos_nonneg; lia. }
  destruct z as [|p|p]; [reflexivity| |]; apply H; lia.
Qed.

(** The descending sort by a float key, on keys that are numbers. *)

Lemma float_ins_sorted {A} (key : A -> Float.float) (x : A) (l : list A) :
  Forall (fun a => Float.isnan (key a) = false) l ->
  StronglySorted (fun a b => Float.ltb (key a) (key b) = false) l ->
  StronglySorted (fun a b => Float.ltb (key a) (key b) = false)
    (ins (fun y x => Float.ltb (key x) (key y)) x l).
Proof.
  intros Hnan H. induction H as [|y r Hr IH Hy]; simpl.
  - constructor; [constructor | constructor].
  - inversion Hnan as [|? ? Hny Hnr]; subst.
    destruct (Float.ltb (key x) (key y)) eqn:E.
    + constructor; [exact (IH Hnr)|].
      apply Forall_forall. intros z Hz.
      apply (Permutation_in _ (ins_perm _ x r)) in Hz.
      destruct Hz as [<-|Hz]; [apply ltb_asym, E|].
      rewrite Forall_forall in Hy. auto.
    + constructor; [constructor; assumption|].
      constructor; [exact E|].
      rewrite Forall_forall in Hy |- *. intros z Hz.
      apply (ltb_false_trans (key x) (key y) (key z) Hny E), Hy, Hz.
Qed.

Lemma float_sorted_desc_sorted {A} (key : A -> Float.float) (l : list A) :
  Forall (fun a => Float.isnan (key a) = false) l ->
  StronglySorted (fun a b => Float.ltb (key a) (key b) = false)
    (Float.sorted_desc key l).
Proof.
  unfold Float.sorted_desc.
  induction l as [|x r IH]; intros H; simpl; [constructor|].
  inversion H as [|? ? Hx Hr]; subst.
  apply float_ins_sorted; [|apply IH, Hr].
  rewrite Forall_forall in Hr |- *. intros a Ha. apply Hr.
  eapply sorted_in, Ha.
Qed.

(** ** Counters *)

Lemma str_eqb_eq (a b : str) : str_eqb a b = true <-> a = b.
Proof. unfold str_eqb. destruct (str_eq_dec a b); split; congruence. Qed.

Lemma incr_keys (p : str) (c : Counter.t) k :
  In k (map fst (Counter.incr p c)) <-> k = p \/ In k (map fst c).
Proof.
  induction c as [|[k' n] r IH]; simpl.
  - intuition congruence.
  - destruct (str_eqb k' p) eqn:E; simpl.
    + apply str_eqb_eq in E. subst. intuition congruence.
    + rewrite IH. intuition congruence.
Qed.

Lemma incr_positive (p : str) (c : Counter.t) :
  Forall (fun kv => 1 <= snd kv) c ->
  Forall (fun kv => 1 <= snd kv) (Counter.incr p c).
Proof.
  induction 1 as [|[k n] r Hk Hr IH]; simpl.
  - repeat constructor. simpl. lia.
  - destruct (str_eqb k p); constructor; simpl in *; auto; lia.
Qed.

Lemma most_common_len (n : Z) (c : Counter.t) :
  0 <= n -> len (Counter.most_common n c) <= n.
Proof.
  intros Hn. unfold Counter.most_common.
  destruct (n <? 0) eqn:E; [apply Z.ltb_lt in E; lia|].
  unfold len. pose proof (firstn_le_length (Z.to_nat n)
    (sorted_desc (fun kv => inject_Z (snd kv)) c)). lia.
Qed.

Lemma most_common_negative (n : Z) (c : Counter.t) :
  n < 0 -> Counter.most_common n c = [].
Proof.
  intros Hn. unfold Counter.most_common.
  apply Z.ltb_lt in Hn. rewrite Hn. reflexivity.
Qed.

(** ** Rounding to thousandths *)

Lemma round_half_even_Z (q : Q) (z : Z) :
  (q == inject_Z z)%Q -> Mejoras.round_half_even q = z.
Proof.
  intros H. unfold Mejoras.round_half_even.
  assert (Hf : Qfloor q = z) by (rewrite H; apply Qfloor_Z).
  rewrite Hf.
  assert (Hc : ((q - inject_Z z) ?= (1 # 2))%Q = Lt).
  { apply Qlt_alt. rewrite H. unfold Qminus. rewrite Qplus_opp_r.
    reflexivity. }
  rewrite Hc. reflexivity.
Qed.

Lemma round3_thousandths (q : Q) (z : Z) :
  (q * 1000 == inject_Z z)%Q -> (Mejoras.round3 q == q)%Q.
Proof.
  intros H. unfold Mejoras.round3.
  rewrite (round_half_even_Z H), <- H. field.
Qed.

(** ** The improved keyword extractor *)

Section MejorasFacts.
Variable nfkc : str -> str.
Variable casefold : str -> str.
Variable alnum : char -> bool.

Let extraer_palabras_clave :=
  Mejoras.extraer_palabras_clave nfkc casefold alnum.
Let contar_frases := Mejoras.contar_frases casefold.
Let frases_de := Mejoras.frases_de casefold.

Lemma puntuar_frase_fst top pf : fst (Mejoras.puntuar_frase top pf) = fst pf.
Proof. destruct pf; reflexivity. Qed.

(** The stored score is the formula: rounding to three decimals does not
    move a multiple of one tenth. *)
Lemma puntuar_frase_snd sust phrase freq :
  (snd (Mejoras.puntuar_frase (map fst sust) (phrase, freq))
   == Spec.puntuacion_frase freq (len (split phrase))
        (Spec.saliente sust phrase))%Q.
Proof.
  unfold Mejoras.puntuar_frase, Spec.puntuacion_frase, Spec.saliente,
    Mejoras.contains_top_noun. simpl snd.
  set (w := len (split phrase)).
  set (b := existsb _ _).
  rewrite round3_thousandths
    with (z := 500 * freq * (w + 1) + (if b then 200 else 0)).
  - destruct b; ring.
  - destruct b; rewrite !inject_Z_plus, !inject_Z_mult, inject_Z_plus;
      change (inject_Z 500) with 500%Q; change (inject_Z 200) with 200%Q;
      change (inject_Z 1) with 1%Q; change (inject_Z 0) with 0%Q; ring.
Qed.

Lemma contar_chunk_keys c chunk k :
  (forall k', In k' (map fst c) -> 3 <= len k') ->
  In k (map fst (Mejoras.contar_chunk casefold c chunk)) -> 3 <= len k.
Proof.
  intros Hc. unfold Mejoras.contar_chunk.
  destruct (negb (truthy _)); [auto|].
  destruct (len _ <? 3) eqn:E; [auto|].
  rewrite incr_keys. intros [->|H]; [|auto].
  apply Z.ltb_ge in E. exact E.
Qed.

Lemma contar_chunk_positive c chunk :
  Forall (fun kv => 1 <= snd kv) c ->
  Forall (fun kv => 1 <= snd kv) (Mejoras.contar_chunk casefold c chunk).
Proof.
  intros Hc. unfold Mejoras.contar_chunk.
  destruct (negb (truthy _)); [auto|].
  destruct (len _ <? 3); [auto|]. apply incr_positive, Hc.
Qed.

Lemma fold_contar_keys chunks c k :
  (forall k', In k' (map fst c) -> 3 <= len k') ->
  In k (map fst (fold_left (Mejoras.contar_chunk casefold) chunks c)) ->
  3 <= len k.
Proof.
  revert c. induction chunks as [|ch r IH]; simpl; intros c Hc; [auto|].
  apply IH. intros k'. apply contar_chunk_keys, Hc.
Qed.

Lemma fold_contar_positive chunks c :
  Forall (fun kv => 1 <= snd kv) c ->
  Forall (fun kv => 1 <= snd kv)
         (fold_left (Mejoras.contar_chunk casefold) chunks c).
Proof.
  revert c. induction chunks as [|ch r IH]; simpl; intros c Hc; [auto|].
  apply IH, contar_chunk_positive, Hc.
Qed.

Lemma contar_frases_keys doc k :
  In k (map fst (contar_frases doc)) -> 3 <= len k.
Proof. apply fold_contar_keys. simpl. tauto. Qed.

Lemma contar_frases_positive doc phrase freq :
  In (phrase, freq) (contar_frases doc) -> 1 <= freq.
Proof.
  intros H.
  pose proof (fold_contar_positive (noun_chunks doc) (Forall_nil _)) as F.
  rewrite Forall_forall in F. apply (F _ H).
Qed.

(** A chunk that is counted leaves its phrase among the keys. *)
Lemma fold_contar_mono chunks c k :
  In k (map fst c) ->
  In k (map fst (fold_left (Mejoras.contar_chunk casefold) chunks c)).
Proof.
  revert c. induction chunks as [|ch r IH]; simpl; intros c Hc; [auto|].
  apply IH. unfold Mejoras.contar_chunk.
  destruct (negb (truthy _)); [auto|].
  destruct (len _ <? 3); [auto|]. apply incr_keys. auto.
Qed.

Lemma frases_de_incl doc sust k p :
  In p (frases_de doc sust k) ->
  exists freq, In (fst p, freq) (contar_frases doc)
               /\ p = Mejoras.puntuar_frase (map fst sust) (fst p, freq).
Proof.
  unfold frases_de, Mejoras.frases_de. intros H.
  apply slice_to_incl, sorted_in, in_map_iff in H.
  destruct H as [[ph f] [<- Hin]]. exists f. split; [exact Hin|].
  reflexivity.
Qed.

(** What a call on a blank text and on any other text returns. *)
Lemma extraer_vacio nltk texto nlp top_n top_phrases :
  WordChef.vacio texto = true ->
  extraer_palabras_clave nltk texto nlp top_n top_phrases = (None, []).
Proof.
  intros H. unfold extraer_palabras_clave, Mejoras.extraer_palabras_clave.
  rewrite H. reflexivity.
Qed.

Lemma extraer_no_vacio nltk texto nlp top_n top_phrases :
  WordChef.vacio texto = false ->
  exists r regs,
    extraer_palabras_clave nltk texto nlp top_n top_phrases = (Some r, regs)
    /\ (exists c, Mejoras.top_5_palabras r = Counter.most_common top_n c)
    /\ match nlp with
       | Some pipeline =>
           match pipeline texto with
           | Ok d =>
               (exists c, Mejoras.sustantivos r = Counter.most_common top_n c)
               /\ (exists c, Mejoras.verbos r = Counter.most_common top_n c)
               /\ Mejoras.frases_clave r
                  = frases_de d (Mejoras.sustantivos r) top_phrases
           | Raise _ =>
               Mejoras.sustantivos r = [] /\ Mejoras.verbos r = []
               /\ Mejoras.frases_clave r = []
           end
       | None =>
           Mejoras.sustantivos r = [] /\ Mejoras.verbos r = []
           /\ Mejoras.frases_clave r = []
       end.
Proof.
  intros H. unfold extraer_palabras_clave, Mejoras.extraer_palabras_clave.
  rewrite H.
  destruct nlp as [pipeline|]; [destruct (pipeline texto) as [d|e]|];
    (eexists; eexists; split; [reflexivity|]); simpl;
    (split; [destruct nltk; eexists; reflexivity|]);
    repeat split; try (eexists; reflexivity).
Qed.

Lemma extraer_some nltk texto nlp top_n top_phrases r regs :
  extraer_palabras_clave nltk texto nlp top_n top_phrases = (Some r, regs) ->
  WordChef.vacio texto = false.
Proof.
  destruct (WordChef.vacio texto) eqn:E; [|reflexivity].
  rewrite extraer_vacio by assumption. discriminate.
Qed.

End MejorasFacts.

(** ** Blank texts *)

Lemma dropwhile_nil {A} (p : A -> bool) (l : list A) :
  dropwhile p l = [] <-> forallb p l = true.
Proof.
  induction l as [|x r IH]; simpl; [tauto|].
  destruct (p x); simpl; [exact IH | split; discriminate].
Qed.

Lemma forallb_rev {A} (p : A -> bool) (l : list A) :
  forallb p (rev l) = forallb p l.
Proof.
  induction l as [|x r IH]; simpl; [reflexivity|].
  rewrite forallb_app, IH. simpl. rewrite andb_true_r. apply andb_comm.
Qed.

Lemma dropwhile_suffix {A} (p : A -> bool) (l : list A) :
  exists pre, l = pre ++ dropwhile p l /\ forallb p pre = true.
Proof.
  induction l as [|x r (pre & E & F)]; simpl.
  - exists []. split; reflexivity.
  - destruct (p x) eqn:Px.
    + exists (x :: pre). simpl. rewrite Px, F. split; [congruence|reflexivity].
    + exists []. split; reflexivity.
Qed.

(** [texto.strip()] is empty exactly on the texts made of white space. *)
Lemma strip_nil (s : str) : strip s = [] <-> forallb isspace s = true.
Proof.
  unfold strip, rstrip, lstrip.
  destruct (dropwhile_suffix isspace s) as (pre & E & F).
  set (t := dropwhile isspace s) in *.
  assert (Ht : rev (dropwhile isspace (rev t)) = [] <-> forallb isspace t = true).
  { rewrite <- (forallb_rev isspace t), <- dropwhile_nil.
    split; intros H.
    - apply (f_equal (@rev _)) in H. rewrite rev_involutive in H. exact H.
    - rewrite H. reflexivity. }
  rewrite Ht. clearbody t. subst s. rewrite forallb_app, F. simpl. tauto.
Qed.

Lemma vacio_blanco (texto : str) :
  WordChef.vacio texto = forallb isspace texto.
Proof.
  unfold WordChef.vacio.
  destruct (forallb isspace texto) eqn:E.
  - apply strip_nil in E. rewrite E. apply orb_true_r.
  - destruct texto as [|c r]; [discriminate|].
    destruct (strip (c :: r)) eqn:S; [|reflexivity].
    apply strip_nil in S. congruence.
Qed.

Lemma len_zero {A} (l : list A) : (len l =? 0) = negb (truthy l).
Proof. destruct l; reflexivity. Qed.

Lemma normalizador_guard (texto : str) :
  negb (truthy texto) || (len (strip texto) =? 0) = WordChef.vacio texto.
Proof. rewrite len_zero. reflexivity. Qed.

(** ** Key phrases: scores, order, sizes *)

(** C1 (as amended): every counted phrase is given the score
    [freq * (1 + 0.5 * (num_words - 1))], plus [0.2] exactly when one of its
    words is a top-frequency noun; the list [frases_clave] is the list of
    all these (phrase, score) pairs in descending order of score, cut by
    the slice [[:top_phrases]]. *)
Theorem frases_clave_puntuadas_y_cortadas
  nfkc casefold alnum nltk texto pipeline doc top_n top_phrases r regs :
  Mejoras.extraer_palabras_clave nfkc casefold alnum nltk texto
    (Some pipeline) top_n top_phrases = (Some r, regs) ->
  pipeline texto = Ok doc ->
  let candidatas := Mejoras.contar_frases casefold doc in
  let formula phrase freq :=
    Spec.puntuacion_frase freq (len (split phrase))
      (Spec.saliente (Mejoras.sustantivos r) phrase) in
  exists todas,
    Permutation (map fst todas) (map fst candidatas)
    /\ (forall phrase freq, In (phrase, freq) candidatas ->
          1 <= freq /\
          exists s, In (phrase, s) todas /\ (s == formula phrase freq)%Q)
    /\ (forall phrase s, In (phrase, s) todas ->
          exists freq, In (phrase, freq) candidatas
                       /\ (s == formula phrase freq)%Q)
    /\ StronglySorted Spec.desc todas
    /\ Mejoras.frases_clave r = slice_to top_phrases todas.
Proof.
  intros Hr Hdoc candidatas formula.
  pose proof (@extraer_some _ _ _ _ _ _ _ _ _ _ Hr) as Hv.
  destruct (@extraer_no_vacio nfkc casefold alnum nltk texto (Some pipeline)
              top_n top_phrases Hv) as (r' & regs' & Hr' & _ & Hnlp).
  rewrite Hr in Hr'. injection Hr' as <- <-.
  rewrite Hdoc in Hnlp. destruct Hnlp as (_ & _ & Hf).
  set (top := map fst (Mejoras.sustantivos r)) in *.
  set (puntuadas := map (Mejoras.puntuar_frase top) candidatas).
  exists (sorted_desc snd puntuadas).
  assert (Hperm : Permutation (sorted_desc snd puntuadas) puntuadas)
    by apply sorted_perm.
  split; [|split; [|split; [|split]]].
  - eapply Permutation_trans; [apply Permutation_map, Hperm|].
    unfold puntuadas. rewrite map_map.
    erewrite map_ext; [apply Permutation_refl|].
    intros pf. apply puntuar_frase_fst.
  - intros phrase freq Hin. split.
    + eapply contar_frases_positive, Hin.
    + exists (snd (Mejoras.puntuar_frase top (phrase, freq))). split.
      * apply (Permutation_in _ (Permutation_sym Hperm)).
        apply in_map_iff. exists (phrase, freq). split; [|exact Hin].
        reflexivity.
      * apply puntuar_frase_snd.
  - intros phrase s Hin.
    apply (Permutation_in _ Hperm), in_map_iff in Hin.
    destruct Hin as [[ph f] [E Hin]].
    assert (ph = phrase) by (apply (f_equal fst) in E; exact E). subst ph.
    exists f. split; [exact Hin|].
    apply (f_equal snd) in E. simpl snd in E. rewrite <- E.
    apply puntuar_frase_snd.
  - apply sorted_desc_sorted.
  - exact Hf.
Qed.

(** C1, witness: the two phrases of [doc_frases]. *)
Lemma frases_clave_puntuadas_y_cortadas_witness :
  exists r regs,
    Ejemplos.mejoras Ejemplos.texto_frases Ejemplos.doc_frases 5 6
      = (Some r, regs)
    /\ exists todas,
         StronglySorted Spec.desc todas
         /\ Mejoras.frases_clave r = slice_to 6 todas.
Proof.
  eexists. eexists. split; [reflexivity|].
  destruct (@frases_clave_puntuadas_y_cortadas
              (fun s => s) Ejemplos.lower Ejemplos.alnum None
              Ejemplos.texto_frases (Ejemplos.siempre Ejemplos.doc_frases)
              Ejemplos.doc_frases 5 6 _ _ eq_refl eq_refl)
    as (todas & _ & _ & _ & Hs & Hf).
  exists todas. split; [exact Hs | exact Hf].
Defined.

(** C1, as stated, fails on seven candidates with the default
    [top_phrases = 6]: the returned list keeps six of the seven pairs. *)
Lemma frases_clave_no_son_todas :
  exists r regs,
    Ejemplos.mejoras Ejemplos.texto_siete Ejemplos.doc_siete 5 6
      = (Some r, regs)
    /\ length (Mejoras.contar_frases Ejemplos.lower Ejemplos.doc_siete) = 7%nat
    /\ length (Mejoras.frases_clave r) = 6%nat
    /\ ~ Permutation (map fst (Mejoras.frases_clave r))
           (map fst (Mejoras.contar_frases Ejemplos.lower
                       Ejemplos.doc_siete)).
Proof.
  eexists. eexists. split; [reflexivity|].
  split; [reflexivity|]. split; [reflexivity|].
  intros H. apply Permutation_length in H. vm_compute in H. discriminate.
Qed.

(** C2: among the phrases counted in one call, a phrase with at least the
    frequency and at least the word count of another, and the same
    salient-word indicator, has at least its score. *)
Theorem puntuacion_monotona
  casefold doc sustantivos_top phrase1 freq1 phrase2 freq2 :
  In (phrase1, freq1) (Mejoras.contar_frases casefold doc) ->
  In (phrase2, freq2) (Mejoras.contar_frases casefold doc) ->
  freq2 <= freq1 ->
  len (split phrase2) <= len (split phrase1) ->
  Mejoras.contains_top_noun sustantivos_top phrase1
    = Mejoras.contains_top_noun sustantivos_top phrase2 ->
  (snd (Mejoras.puntuar_frase sustantivos_top (phrase2, freq2))
   <= snd (Mejoras.puntuar_frase sustantivos_top (phrase1, freq1)))%Q.
Proof.
  intros H1 H2 Hf Hw Hc.
  apply contar_frases_positive in H1, H2.
  pose proof (len_nonneg (split phrase2)) as Hw2.
  set (sust := map (fun w => (w, 0)) sustantivos_top).
  assert (Es : map fst sust = sustantivos_top).
  { unfold sust. rewrite map_map. simpl. apply map_id. }
  rewrite <- Es, !puntuar_frase_snd.
  unfold Spec.puntuacion_frase, Spec.saliente. rewrite Es.
  unfold Mejoras.contains_top_noun in Hc.
  set (b1 := existsb _ (split phrase1)) in *.
  set (b2 := existsb _ (split phrase2)) in *.
  assert (Eb : b1 = b2) by (destruct b1, b2; congruence).
  rewrite Eb. apply Qplus_le_l.
  set (w1 := len (split phrase1)) in *. set (w2 := len (split phrase2)) in *.
  assert (E : forall f w,
             (inject_Z f * (1 + (5 # 10) * (inject_Z w - 1))
              == inject_Z (f * (w + 1)) * (1 # 2))%Q).
  { intros f w. rewrite inject_Z_mult, inject_Z_plus.
    change (inject_Z 1) with 1%Q. ring. }
  rewrite !E. apply Qmult_le_compat_r; [|discriminate].
  rewrite <- Zle_Qle. nia.
Qed.

(** C2, witness: "casa campo" (twice, two words) against "rio" (once, one
    word); both contain a top noun. *)
Lemma puntuacion_monotona_witness :
  (snd (Mejoras.puntuar_frase [lit "casa"; lit "rio"] (lit "rio", 1%Z))
   <= snd (Mejoras.puntuar_frase [lit "casa"; lit "rio"]
             (lit "casa campo", 2%Z)))%Q.
Proof.
  apply (@puntuacion_monotona Ejemplos.lower Ejemplos.doc_frases).
  - vm_compute. left. reflexivity.
  - vm_compute. right. left. reflexivity.
  - lia.
  - vm_compute. discriminate.
  - reflexivity.
Defined.

Lemma slice_to_nil {A} (k : Z) : slice_to k (@nil A) = [].
Proof. unfold slice_to. destruct (0 <=? k); apply firstn_nil. Qed.

(** C5: for every text and every requested size (a count: [0 <= top_n],
    [0 <= top_phrases]), the top-words, nouns and verbs lists of the improved
    extractor have at most [top_n] elements and its [frases_clave] at most
    [top_phrases]; the lists of the original extractor, whose size is fixed,
    have at most five. *)
Theorem listas_acotadas
  nfkc casefold lower alnum nltk texto nlp top_n top_phrases :
  0 <= top_n -> 0 <= top_phrases ->
  (forall r regs,
     Mejoras.extraer_palabras_clave nfkc casefold alnum nltk texto nlp
       top_n top_phrases = (Some r, regs) ->
     len (Mejoras.top_5_palabras r) <= top_n
     /\ len (Mejoras.sustantivos r) <= top_n
     /\ len (Mejoras.verbos r) <= top_n
     /\ len (Mejoras.frases_clave r) <= top_phrases)
  /\ (forall r,
        WordChef.extraer_palabras_clave lower alnum nltk texto nlp
          = Ok (Some r) ->
        len (WordChef.top_5_palabras r) <= 5
        /\ len (WordChef.sustantivos r) <= 5
        /\ len (WordChef.verbos r) <= 5).
Proof.
  intros Hn Hp. split.
  - intros r regs Hr.
    pose proof (@extraer_some _ _ _ _ _ _ _ _ _ _ Hr) as Hv.
    destruct (@extraer_no_vacio nfkc casefold alnum nltk texto nlp
                top_n top_phrases Hv) as (r' & regs' & Hr' & [c Ht] & Hnlp).
    rewrite Hr in Hr'. injection Hr' as <- <-.
    split; [rewrite Ht; apply most_common_len, Hn|].
    destruct nlp as [pipeline|]; [destruct (pipeline texto) as [d|e]|].
    + destruct Hnlp as ([cs Hs] & [cv Hv'] & Hf).
      rewrite Hf. rewrite Hs at 1. rewrite Hv'.
      repeat split; try (apply most_common_len, Hn).
      apply slice_to_len, Hp.
    + destruct Hnlp as (-> & -> & ->). cbn. lia.
    + destruct Hnlp as (-> & -> & ->). cbn. lia.
  - intros r Hr. unfold WordChef.extraer_palabras_clave in Hr.
    destruct (WordChef.vacio texto); [discriminate|].
    assert (Ht : forall c, len (Counter.most_common 5 c) <= 5)
      by (intros; apply most_common_len; lia).
    destruct nlp as [pipeline|].
    + destruct (pipeline texto) as [d|e]; simpl in Hr; [|discriminate].
      injection Hr as <-. simpl. repeat split; try apply Ht.
      destruct nltk; [apply Ht | cbn; lia].
    + injection Hr as <-. simpl. repeat split; try (cbn; lia).
      destruct nltk; [apply Ht | cbn; lia].
Qed.

(** C5, witness: the defaults [top_n = 5], [top_phrases = 6] on seven
    candidate phrases. *)
Lemma listas_acotadas_witness :
  exists r regs,
    Ejemplos.mejoras Ejemplos.texto_siete Ejemplos.doc_siete 5 6
      = (Some r, regs)
    /\ len (Mejoras.sustantivos r) <= 5
    /\ len (Mejoras.frases_clave r) <= 6.
Proof.
  eexists. eexists. split; [reflexivity|].
  destruct (@listas_acotadas (fun s => s) Ejemplos.lower Ejemplos.lower
              Ejemplos.alnum None Ejemplos.texto_siete
              (Some (Ejemplos.siempre Ejemplos.doc_siete)) 5 6
              ltac:(lia) ltac:(lia)) as [H _].
  destruct (H _ _ eq_refl) as (_ & Hs & _ & Hf).
  split; [exact Hs | exact Hf].
Defined.

(** C6: a chunk whose lemma-joined phrase has fewer than three characters
    contributes nothing to [frases_clave], every phrase returned has at least
    three, and a call with no candidate returns normally with an empty
    [frases_clave]. *)
Theorem frases_cortas_descartadas
  nfkc casefold alnum nltk texto nlp top_n top_phrases :
  forallb isspace texto = false ->
  exists r regs,
    Mejoras.extraer_palabras_clave nfkc casefold alnum nltk texto nlp
      top_n top_phrases = (Some r, regs)
    /\ (forall chunk,
          len (Mejoras.frase_de casefold (Mejoras.palabras_de chunk)) < 3 ->
          ~ In (Mejoras.frase_de casefold (Mejoras.palabras_de chunk))
               (map fst (Mejoras.frases_clave r)))
    /\ (forall phrase,
          In phrase (map fst (Mejoras.frases_clave r)) -> 3 <= len phrase)
    /\ (forall pipeline doc,
          nlp = Some pipeline -> pipeline texto = Ok doc ->
          Mejoras.contar_frases casefold doc = [] ->
          Mejoras.frases_clave r = [])
    /\ (nlp = None -> Mejoras.frases_clave r = []).
Proof.
  intros Hv. rewrite <- vacio_blanco in Hv.
  destruct (@extraer_no_vacio nfkc casefold alnum nltk texto nlp
              top_n top_phrases Hv) as (r & regs & Hr & _ & Hnlp).
  exists r, regs. split; [exact Hr|].
  assert (Hlen : forall phrase,
             In phrase (map fst (Mejoras.frases_clave r)) -> 3 <= len phrase).
  { intros phrase Hin. apply in_map_iff in Hin.
    destruct Hin as [p [<- Hin]].
    destruct nlp as [pipeline|]; [destruct (pipeline texto) as [d|e]|].
    - destruct Hnlp as (_ & _ & Hf). rewrite Hf in Hin.
      apply frases_de_incl in Hin. destruct Hin as (freq & Hin & _).
      apply (@contar_frases_keys casefold d).
      apply in_map_iff. exists (fst p, freq). split; [reflexivity|exact Hin].
    - destruct Hnlp as (_ & _ & Hf). rewrite Hf in Hin. contradiction.
    - destruct Hnlp as (_ & _ & Hf). rewrite Hf in Hin. contradiction. }
  split; [|split; [exact Hlen|split]].
  - intros chunk Hshort Hin. apply Hlen in Hin. lia.
  - intros pipeline doc -> Hdoc Hc. rewrite Hdoc in Hnlp.
    destruct Hnlp as (_ & _ & Hf). rewrite Hf.
    unfold Mejoras.frases_de. rewrite Hc. apply slice_to_nil.
  - intros ->. apply Hnlp.
Qed.

(** C6, witness: the chunk "te" of [doc_frases] is dropped. *)
Lemma frases_cortas_descartadas_witness :
  exists r regs,
    Ejemplos.mejoras Ejemplos.texto_frases Ejemplos.doc_frases 5 6
      = (Some r, regs)
    /\ ~ In (lit "te") (map fst (Mejoras.frases_clave r)).
Proof.
  destruct (@frases_cortas_descartadas (fun s => s) Ejemplos.lower
              Ejemplos.alnum None Ejemplos.texto_frases
              (Some (Ejemplos.siempre Ejemplos.doc_frases)) 5 6 eq_refl)
    as (r & regs & Hr & Hshort & _).
  exists r, regs. split; [exact Hr|].
  apply (Hshort (Ejemplos.trozo [Ejemplos.nombre "te"])).
  vm_compute. reflexivity.
Defined.

(** ** Blank input and missing dependencies *)

Lemma texto_blanco_guardas lower alnum nltk texto nlp n clasificador :
  forallb isspace texto = true ->
  WordChef.normalizador_texto lower texto nlp = Ok None
  /\ WordChef.extraer_palabras_clave lower alnum nltk texto nlp = Ok None
  /\ WordChef.resumen_simple alnum texto n nlp
       = Ok WordChef.error_texto_vacio
  /\ WordChef.sentimiento_es texto clasificador
       = (WordChef.error_texto_vacio, 0%Q, []).
Proof.
  intros H. rewrite <- vacio_blanco in H.
  unfold WordChef.normalizador_texto, WordChef.extraer_palabras_clave,
    WordChef.resumen_simple, WordChef.sentimiento_es.
  rewrite normalizador_guard, H. repeat split.
Qed.

(** C3 (as amended): on an empty or white-space-only text,
    [normalizador_texto] and both [extraer_palabras_clave] return [None],
    while [resumen_simple] returns the message "Error: texto vacio." and
    [sentimiento_es] returns that message with score 0.0 and an empty
    label. *)
Theorem texto_en_blanco
  lower alnum nfkc casefold nltk texto nlp n clasificador top_n top_phrases :
  forallb isspace texto = true ->
  WordChef.normalizador_texto lower texto nlp = Ok None
  /\ WordChef.extraer_palabras_clave lower alnum nltk texto nlp = Ok None
  /\ Mejoras.extraer_palabras_clave nfkc casefold alnum nltk texto nlp
       top_n top_phrases = (None, [])
  /\ WordChef.resumen_simple alnum texto n nlp
       = Ok WordChef.error_texto_vacio
  /\ WordChef.sentimiento_es texto clasificador
       = (WordChef.error_texto_vacio, 0%Q, []).
Proof.
  intros H.
  destruct (@texto_blanco_guardas lower alnum nltk texto nlp n clasificador H)
    as (H1 & H2 & H3 & H4).
  repeat split; try assumption.
  apply extraer_vacio. rewrite vacio_blanco. exact H.
Qed.

(** C3, witness: a text of two spaces and a tab. *)
Lemma texto_en_blanco_witness :
  WordChef.normalizador_texto Ejemplos.lower [32; 32; 9]%N None = Ok None
  /\ WordChef.resumen_simple Ejemplos.alnum [32; 32; 9]%N 3 None
       = Ok WordChef.error_texto_vacio.
Proof.
  destruct (@texto_en_blanco Ejemplos.lower Ejemplos.alnum (fun s => s)
              Ejemplos.lower None [32; 32; 9]%N None 3 None 5 6 eq_refl)
    as (Hn & _ & _ & Hr & _).
  split; [exact Hn | exact Hr].
Defined.

(** C3, as stated, fails on the empty text: [resumen_simple] and
    [sentimiento_es] do return a value, an error message. *)
Lemma texto_vacio_da_mensaje :
  WordChef.resumen_simple Ejemplos.alnum [] 3 None
    = Ok WordChef.error_texto_vacio
  /\ ~ Spec.sin_resultado WordChef.error_texto_vacio
  /\ WordChef.sentimiento_es [] None = (WordChef.error_texto_vacio, 0%Q, [])
  /\ ~ Spec.sin_resultado (WordChef.sentimiento_es [] None).
Proof.
  repeat split; intros H; discriminate H.
Qed.

(** C4 (as amended): what each operation does on a blank text or without
    its dependency.
    - On a blank text [normalizador_texto] and [extraer_palabras_clave]
      return [None], [resumen_simple] and [sentimiento_es] the message
      "Error: texto vacio."; the four return before they call the pipeline
      or the classifier, so they do not raise.
    - [extraer_entidades] does not look at its text: with a pipeline it
      calls it on any text, blank or not, and returns a dictionary of the five
      categories, or raises what the pipeline raises; without spaCy it
      returns the empty dictionary.
    - Without spaCy and on a text that is not blank, [normalizador_texto]
      returns a dictionary with "(spaCy requerido)" placeholders,
      [resumen_simple] returns the text when the pieces between full stops are
      at most [n] and the summary of these pieces otherwise, and
      [extraer_palabras_clave] returns empty noun and verb lists, and an empty
      word list too when NLTK is missing.
    - Without the classifier [sentimiento_es] returns the message
      "Error: transformers no instalado.", the score 0.0 and the label
      "transformers missing".
    None of the calls without the dependency raises. *)
Theorem dependencia_ausente lower alnum nltk texto n nlp clasificador :
  (forallb isspace texto = true ->
   WordChef.normalizador_texto lower texto nlp = Ok None
   /\ WordChef.extraer_palabras_clave lower alnum nltk texto nlp = Ok None
   /\ WordChef.resumen_simple alnum texto n nlp
       = Ok WordChef.error_texto_vacio
   /\ WordChef.sentimiento_es texto clasificador
       = (WordChef.error_texto_vacio, 0%Q, []))
  /\ (forall pipeline,
        WordChef.extraer_entidades texto (Some pipeline)
        = match pipeline texto with
          | Ok doc =>
              Ok (map (fun ct => (fst ct,
                                  sorted_set (WordChef.extraer doc (snd ct))))
                      Spec.categorias)
          | Raise e => Raise e
          end)
  /\ WordChef.extraer_entidades texto None = Ok []
  /\ WordChef.sentimiento_es texto None
     = (if forallb isspace texto
        then (WordChef.error_texto_vacio, 0%Q, [])
        else (lit "Error: transformers no instalado.", 0%Q,
              lit "transformers missing"))
  /\ WordChef.normalizador_texto lower texto None
     = (if forallb isspace texto then Ok None
        else Ok (Some {| WordChef.original := texto;
                         WordChef.lematizado := lit "(spaCy requerido)";
                         WordChef.sin_repeticiones :=
                           join (lit " ")
                                (WordChef.sin_repetir lower (split texto));
                         WordChef.corregido := lit "(spaCy requerido)" |}))
  /\ WordChef.resumen_simple alnum texto n None
     = Ok (if forallb isspace texto then WordChef.error_texto_vacio
           else if len (WordChef.oraciones_simples texto) <=? n then texto
           else WordChef.resumir (WordChef.tokens_largos alnum)
                  (fun o => len o) (fun o => o) [] n
                  (WordChef.oraciones_simples texto))
  /\ (exists top,
        WordChef.extraer_palabras_clave lower alnum nltk texto None
        = Ok (if forallb isspace texto then None
              else Some {| WordChef.top_5_palabras := top;
                           WordChef.sustantivos := [];
                           WordChef.verbos := [] |})
        /\ len top <= 5
        /\ (nltk = None -> top = [])).
Proof.
  split.
  { intros H.
    destruct (@texto_blanco_guardas lower alnum nltk texto nlp n clasificador H)
      as (H1 & H2 & H3 & H4). auto. }
  split.
  { intros pipeline. unfold WordChef.extraer_entidades.
    destruct (pipeline texto); reflexivity. }
  unfold WordChef.sentimiento_es, WordChef.normalizador_texto,
    WordChef.resumen_simple, WordChef.extraer_palabras_clave.
  rewrite normalizador_guard, vacio_blanco.
  destruct (forallb isspace texto).
  - repeat split. exists []. repeat split. cbn. lia.
  - repeat split.
    + destruct (len _ <=? n); reflexivity.
    + eexists. split; [reflexivity|]. split.
      * destruct nltk; [apply most_common_len; lia | cbn; lia].
      * intros ->. reflexivity.
Qed.

(** C4, witness: a text of one space, and the text "hola", with no
    dependency at hand. *)
Lemma dependencia_ausente_witness :
  WordChef.resumen_simple Ejemplos.alnum [32%N] 3 None
    = Ok WordChef.error_texto_vacio
  /\ WordChef.extraer_entidades (lit "hola") None = Ok []
  /\ WordChef.resumen_simple Ejemplos.alnum (lit "hola") 3 None
     = Ok (lit "hola").
Proof.
  split; [|split].
  - destruct (@dependencia_ausente Ejemplos.lower Ejemplos.alnum None
                [32%N] 3 None None) as [H _].
    destruct (H eq_refl) as (_ & _ & Hr & _). exact Hr.
  - destruct (@dependencia_ausente Ejemplos.lower Ejemplos.alnum None
                (lit "hola") 3 None None) as (_ & _ & H & _). exact H.
  - destruct (@dependencia_ausente Ejemplos.lower Ejemplos.alnum None
                (lit "hola") 3 None None) as (_ & _ & _ & _ & _ & H & _).
    exact H.
Defined.

(** C4, as stated, fails when the classifier is missing: the value returned
    is a non-empty error value, not [None] nor an empty collection. *)
Lemma sentimiento_sin_clasificador_da_mensaje :
  WordChef.sentimiento_es (lit "hola") None
    = (lit "Error: transformers no instalado.", 0%Q,
       lit "transformers missing")
  /\ ~ Spec.sin_resultado (WordChef.sentimiento_es (lit "hola") None)
  /\ ~ Spec.sin_resultado (fst (fst (WordChef.sentimiento_es (lit "hola") None))).
Proof.
  repeat split; intros H; discriminate H.
Qed.

(** ** Named entities *)

Lemma str_compare_eq (a b : str) : str_compare a b = Eq -> a = b.
Proof.
  revert b. induction a as [|x a IH]; intros [|y b]; simpl;
    try discriminate; [reflexivity|].
  destruct (N.compare x y) eqn:E; try discriminate.
  intros H. apply N.compare_eq in E. f_equal; auto.
Qed.

Lemma str_compare_antisym (a b : str) :
  str_compare b a = CompOpp (str_compare a b).
Proof.
  revert b. induction a as [|x a IH]; intros [|y b]; simpl;
    try reflexivity.
  rewrite (N.compare_antisym x y).
  destruct (N.compare x y); simpl; auto.
Qed.

Lemma str_lt_trans (a b c : str) : str_lt a b -> str_lt b c -> str_lt a c.
Proof.
  unfold str_lt. revert b c.
  induction a as [|x a IH]; intros [|y b] [|z c]; simpl;
    try discriminate; try reflexivity.
  destruct (N.compare x y) eqn:Exy; try discriminate;
    destruct (N.compare y z) eqn:Eyz; try discriminate; intros Hab Hbc.
  - apply N.compare_eq in Exy, Eyz. subst.
    rewrite N.compare_refl. eauto.
  - apply N.compare_eq in Exy. subst. rewrite Eyz. reflexivity.
  - apply N.compare_eq in Eyz. subst. rewrite Exy. reflexivity.
  - rewrite N.compare_lt_iff in Exy, Eyz.
    assert (H : (x < z)%N) by lia.
    apply N.compare_lt_iff in H. rewrite H. reflexivity.
Qed.

Lemma str_lt_irrefl (a : str) : ~ str_lt a a.
Proof.
  unfold str_lt. induction a as [|x a IH]; simpl; [discriminate|].
  rewrite N.compare_refl. exact IH.
Qed.

Lemma ins_set_in (x : str) (l : list str) z :
  In z (ins_set x l) <-> z = x \/ In z l.
Proof.
  induction l as [|y r IH]; simpl.
  - intuition congruence.
  - destruct (str_compare x y) eqn:E; simpl.
    + apply str_compare_eq in E. subst. intuition congruence.
    + intuition congruence.
    + rewrite IH. intuition congruence.
Qed.

Lemma ins_set_sorted (x : str) (l : list str) :
  StronglySorted str_lt l -> StronglySorted str_lt (ins_set x l).
Proof.
  induction 1 as [|y r Hr IH Hy]; simpl.
  - repeat constructor.
  - destruct (str_compare x y) eqn:E.
    + constructor; assumption.
    + constructor; [constructor; assumption|].
      constructor; [exact E|].
      rewrite Forall_forall in Hy |- *. intros z Hz.
      eapply str_lt_trans; [exact E | auto].
    + constructor; [exact IH|].
      rewrite Forall_forall in Hy |- *. intros z Hz.
      apply ins_set_in in Hz. destruct Hz as [->|Hz]; [|auto].
      unfold str_lt. rewrite str_compare_antisym, E. reflexivity.
Qed.

Lemma sorted_set_in (l : list str) z : In z (sorted_set l) <-> In z l.
Proof.
  induction l as [|x r IH]; simpl; [tauto|].
  rewrite ins_set_in, IH. intuition congruence.
Qed.

Lemma sorted_set_sorted (l : list str) : StronglySorted str_lt (sorted_set l).
Proof.
  induction l as [|x r IH]; simpl; [constructor | apply ins_set_sorted, IH].
Qed.

Lemma StronglySorted_lt_NoDup (l : list str) :
  StronglySorted str_lt l -> NoDup l.
Proof.
  induction 1 as [|x r Hr IH Hx]; constructor; [|exact IH].
  intros Hin. rewrite Forall_forall in Hx.
  apply (str_lt_irrefl (Hx _ Hin)).
Qed.

(** C7 (as amended): for each category, [extraer_entidades] returns the
    distinct texts of the entities of that category, in increasing order,
    each once whatever its number of occurrences. *)
Theorem entidades_distintas_ordenadas texto pipeline doc :
  pipeline texto = Ok doc ->
  exists d,
    WordChef.extraer_entidades texto (Some pipeline) = Ok d
    /\ map fst d = map fst Spec.categorias
    /\ forall clave tipo, In (clave, tipo) Spec.categorias ->
         exists l, dict_get clave d = Some l
                   /\ StronglySorted str_lt l
                   /\ NoDup l
                   /\ forall x, In x l <->
                        exists e, In e (ents doc) /\ label_ e = tipo
                                  /\ ent_text e = x.
Proof.
  intros Hdoc. unfold WordChef.extraer_entidades. rewrite Hdoc. simpl.
  eexists. split; [reflexivity|]. split; [reflexivity|].
  assert (Hcat : forall tipo,
            StronglySorted str_lt (sorted_set (WordChef.extraer doc tipo))
            /\ NoDup (sorted_set (WordChef.extraer doc tipo))
            /\ forall x, In x (sorted_set (WordChef.extraer doc tipo)) <->
                 exists e, In e (ents doc) /\ label_ e = tipo
                           /\ ent_text e = x).
  { intros tipo. split; [apply sorted_set_sorted|].
    split; [apply StronglySorted_lt_NoDup, sorted_set_sorted|].
    intros x. rewrite sorted_set_in. unfold WordChef.extraer.
    rewrite in_map_iff. split.
    - intros (e & <- & He). apply filter_In in He. destruct He as [He Hl].
      apply str_eqb_eq in Hl. exists e. auto.
    - intros (e & He & Hl & <-). exists e. split; [reflexivity|].
      apply filter_In. split; [exact He|]. apply str_eqb_eq, Hl. }
  intros clave tipo Hin. simpl in Hin.
  repeat (destruct Hin as [Hin|Hin];
          [injection Hin as <- <-; eexists; split;
           [vm_compute; reflexivity | apply Hcat]|]).
  contradiction.
Qed.

(** C7, witness: Ana named twice and Luis once. *)
Lemma entidades_distintas_ordenadas_witness :
  exists d,
    WordChef.extraer_entidades (lit "Ana, Ana y Luis")
      (Some (Ejemplos.siempre Ejemplos.doc_ana_ana)) = Ok d
    /\ dict_get (lit "Personas") d = Some [lit "Ana"; lit "Luis"].
Proof.
  destruct (@entidades_distintas_ordenadas (lit "Ana, Ana y Luis")
              (Ejemplos.siempre Ejemplos.doc_ana_ana) Ejemplos.doc_ana_ana
              eq_refl) as (d & Hd & _).
  exists d. split; [exact Hd|].
  injection Hd as <-. reflexivity.
Defined.

(** C7, as stated, fails: the result carries no frequency.  One mention of
    Ana and two mentions of Ana have different frequency counts and the same
    result, so no reading of the result gives the counts. *)
Lemma entidades_sin_frecuencia : ~ Spec.devuelve_frecuencias.
Proof.
  intros [leer H].
  pose proof (H (lit "Ana") (Ejemplos.siempre Ejemplos.doc_ana)
                Ejemplos.doc_ana _ (lit "Personas") (lit "PER")
                eq_refl eq_refl (or_introl eq_refl)) as H1.
  pose proof (H (lit "Ana") (Ejemplos.siempre Ejemplos.doc_ana_dos)
                Ejemplos.doc_ana_dos _ (lit "Personas") (lit "PER")
                eq_refl eq_refl (or_introl eq_refl)) as H2.
  vm_compute in H1, H2. rewrite H1 in H2. discriminate H2.
Qed.

(** ** The summary *)

(** Sizes: a sentence is no longer than the text, and has no more tokens
    than characters. *)

Lemma split_on_length (c : char) (s w : str) :
  In w (split_on c s) -> (length w <= length s)%nat.
Proof.
  revert w. induction s as [|x r IH]; simpl.
  - intros w [<-|[]]. simpl. lia.
  - intros w. destruct (N.eqb x c).
    + intros [<-|H]; [simpl; lia|]. specialize (IH w H). lia.
    + destruct (split_on c r) as [|w0 ws].
      * intros [<-|[]]. simpl. lia.
      * intros [<-|H].
        -- specialize (IH w0 (or_introl eq_refl)). simpl. lia.
        -- specialize (IH w (or_intror H)). lia.
Qed.

Lemma dropwhile_length {A} (p : A -> bool) (l : list A) :
  (length (dropwhile p l) <= length l)%nat.
Proof.
  induction l as [|x r IH]; simpl; [lia|].
  destruct (p x); simpl; lia.
Qed.

Lemma strip_length (s : str) : (length (strip s) <= length s)%nat.
Proof.
  unfold strip, rstrip, lstrip. rewrite length_rev.
  pose proof (dropwhile_length isspace (rev (dropwhile isspace s))) as H1.
  rewrite length_rev in H1.
  pose proof (dropwhile_length isspace s). lia.
Qed.

Lemma runs_length (p : char -> bool) (s : str) :
  (length (runs p s) <= length s)%nat.
Proof.
  induction s as [|x r IH]; [simpl; lia|].
  simpl runs. remember (runs p r) as R eqn:ER. clear ER.
  destruct (p x); [|simpl; lia].
  destruct r as [|y r']; [simpl; lia|].
  destruct (p y); [destruct R as [|w ws]|]; simpl in *; lia.
Qed.

Lemma oraciones_simples_length (texto o : str) :
  In o (WordChef.oraciones_simples texto) -> len o <= len texto.
Proof.
  unfold WordChef.oraciones_simples. intros H.
  apply in_map_iff in H. destruct H as (s & <- & Hs).
  apply filter_In in Hs. destruct Hs as [Hs _].
  apply split_on_length in Hs. pose proof (strip_length s).
  unfold len. lia.
Qed.

Lemma tokens_largos_cota alnum (o : str) :
  0 <= WordChef.tokens_largos alnum o <= len o.
Proof.
  unfold WordChef.tokens_largos, len.
  match goal with
  | |- context [filter ?f ?l] => pose proof (filter_length_le f l)
  end.
  pose proof (runs_length (WordChef.is_word alnum) o).
  split; [lia|]. apply Nat2Z.inj_le. eapply Nat.le_trans; eassumption.
Qed.

Lemma nombres_cota (o : Span) :
  0 <= WordChef.nombres o <= len (span_tokens o).
Proof.
  unfold WordChef.nombres, len.
  match goal with
  | |- context [filter ?f ?l] => pose proof (filter_length_le f l)
  end.
  lia.
Qed.

(** A text that holds no full stop is one piece, and a blank text has no
    sentence. *)

Lemma split_on_ausente (c : char) (s : str) :
  ~ In c s -> split_on c s = [s].
Proof.
  induction s as [|x r IH]; simpl; [reflexivity|]. intros H.
  destruct (N.eqb_spec x c) as [E|E]; [tauto|].
  rewrite IH by tauto. reflexivity.
Qed.

Lemma oraciones_simples_blanco (texto : str) :
  forallb isspace texto = true -> WordChef.oraciones_simples texto = [].
Proof.
  intros H. unfold WordChef.oraciones_simples.
  rewrite split_on_ausente.
  - simpl. apply strip_nil in H. rewrite H. reflexivity.
  - intros Hin. rewrite forallb_forall in H. apply H in Hin. discriminate Hin.
Qed.

Section ResumenFacts.
Variable O : Type.
Variables cuenta longitud : O -> Z.
Variable vacia : O.

Lemma puntaje_spec i (o : O) :
  WordChef.puntaje cuenta longitud i o
  = Spec.puntuacion_oracion (cuenta o) (longitud o) i.
Proof. destruct i; reflexivity. Qed.

(** The score of a sentence with fewer than [2 ^ 63] counted tokens is a
    number. *)
Lemma puntaje_isnan i (o : O) :
  Z.abs (cuenta o) < 2 ^ 63 ->
  Float.isnan (WordChef.puntaje cuenta longitud i o) = false.
Proof.
  intros H. unfold WordChef.puntaje.
  assert (Hp : Float.isnan
                 (Float.sub (Float.of_int (0 + cuenta o))
                    (Float.div (Float.of_int (longitud o))
                       WordChef.doscientos)) = false).
  { apply sub_isnan.
    - apply of_int_isfinite. exact H.
    - apply (div_isnan _ false 7036874417766400 (-45)).
      apply binary_normalize_isnan. }
  destruct (Nat.eqb i 0); [|exact Hp].
  apply add_isnan; [exact Hp | reflexivity].
Qed.

Lemma enumerate_fst (l : list O) :
  map fst (WordChef.enumerate l) = seq 0 (length l).
Proof.
  unfold WordChef.enumerate.
  assert (H : forall k, map fst (combine (seq k (length l)) l)
                        = seq k (length l)).
  { induction l as [|x r IH]; intros k; simpl; [reflexivity|].
    rewrite IH. reflexivity. }
  apply H.
Qed.

Lemma enumerate_in (l : list O) i o :
  In (i, o) (WordChef.enumerate l) <->
  (i < length l)%nat /\ nth i l vacia = o.
Proof.
  unfold WordChef.enumerate.
  assert (H : forall k, In (i, o) (combine (seq k (length l)) l) <->
                        (k <= i < k + length l)%nat /\ nth (i - k) l vacia = o).
  { induction l as [|x r IH]; intros k; simpl.
    - split; [tauto | lia].
    - rewrite IH. split.
      + intros [E|[Hi Hn]].
        * injection E as <- <-. rewrite Nat.sub_diag. split; [lia|reflexivity].
        * split; [lia|].
          replace (i - k)%nat with (S (i - S k)) by lia. exact Hn.
      + intros [Hi Hn]. destruct (Nat.eq_dec i k) as [->|Hne].
        * left. rewrite Nat.sub_diag in Hn. congruence.
        * right. split; [lia|].
          replace (i - k)%nat with (S (i - S k)) in Hn by lia. exact Hn. }
  rewrite H, Nat.sub_0_r. intuition lia.
Qed.

Lemma puntuar_fst (l : list O) :
  map fst (WordChef.puntuar cuenta longitud l) = seq 0 (length l).
Proof.
  unfold WordChef.puntuar. rewrite map_map. simpl. apply enumerate_fst.
Qed.

Lemma puntuar_in (l : list O) i s :
  In (i, s) (WordChef.puntuar cuenta longitud l) <->
  (i < length l)%nat
  /\ s = WordChef.puntaje cuenta longitud i (nth i l vacia).
Proof.
  unfold WordChef.puntuar. rewrite in_map_iff. split.
  - intros ([j o] & E & Hin). simpl in E. injection E as -> <-.
    apply enumerate_in in Hin. destruct Hin as [Hi <-]. auto.
  - intros [Hi ->]. exists (i, nth i l vacia). split; [reflexivity|].
    apply enumerate_in. auto.
Qed.

Lemma sorted_lt_of_le (l : list nat) :
  StronglySorted (fun a b => Z.of_nat a <= Z.of_nat b) l -> NoDup l ->
  StronglySorted lt l.
Proof.
  induction 1 as [|x r Hr IH Hx]; intros Hnd; [constructor|].
  inversion Hnd as [|? ? Hnotin Hnd']; subst.
  constructor; [auto|].
  rewrite Forall_forall in Hx |- *. intros z Hz.
  specialize (Hx z Hz). assert (z <> x) by congruence. lia.
Qed.

(** The indices chosen by [elegir] are those of the [n] best sentences. *)
Lemma elegir_las_mejores (oraciones : list O) (n : Z) :
  (forall o, In o oraciones -> Z.abs (cuenta o) < 2 ^ 63) ->
  0 <= n <= len oraciones ->
  Spec.las_mejores cuenta longitud vacia oraciones n
    (WordChef.elegir n (WordChef.puntuar cuenta longitud oraciones)).
Proof.
  intros Hcota Hn. unfold WordChef.elegir.
  set (P := WordChef.puntuar cuenta longitud oraciones).
  set (S := Float.sorted_desc snd P).
  rewrite slice_to_nonneg by lia.
  set (k := Z.to_nat n). set (M := firstn k S).
  set (idx := sorted_asc Z.of_nat (map fst M)).
  assert (HSP : Permutation S P) by apply sorted_perm.
  assert (HlenS : length S = length oraciones).
  { rewrite (Permutation_length HSP). unfold P.
    rewrite <- (length_map fst), puntuar_fst. apply length_seq. }
  assert (HlenM : length M = k).
  { unfold M. apply firstn_length_le. unfold len in Hn. lia. }
  assert (Hidx : Permutation idx (map fst M)) by apply sorted_perm.
  assert (HndS : NoDup (map fst S)).
  { apply (Permutation_NoDup (Permutation_sym (Permutation_map fst HSP))).
    unfold P. rewrite puntuar_fst. apply seq_NoDup. }
  assert (HndM : NoDup (map fst M)).
  { rewrite <- (firstn_skipn k S), map_app in HndS.
    apply NoDup_app_remove_r in HndS. exact HndS. }
  assert (Hin : forall i, In i idx -> exists s, In (i, s) M).
  { intros i Hi. apply (Permutation_in _ Hidx), in_map_iff in Hi.
    destruct Hi as ([i' s] & <- & Hi). exists s. exact Hi. }
  assert (HMP : forall p, In p M -> In p P).
  { intros p Hp. apply (Permutation_in _ HSP). eapply In_firstn, Hp. }
  assert (Hnum : forall i, (i < length oraciones)%nat ->
            Float.isnan (WordChef.puntaje cuenta longitud i
                           (nth i oraciones vacia)) = false).
  { intros i Hi. apply puntaje_isnan, Hcota, nth_In, Hi. }
  assert (HnumP : Forall (fun p => Float.isnan (snd p) = false) P).
  { apply Forall_forall. intros [i s] Hp. apply puntuar_in in Hp.
    destruct Hp as [Hi ->]. apply Hnum, Hi. }
  unfold Spec.las_mejores. split; [|split; [|split]].
  - unfold len. rewrite (Permutation_length Hidx), length_map, HlenM.
    unfold k. lia.
  - apply sorted_lt_of_le; [apply sorted_asc_sorted|].
    apply (Permutation_NoDup (Permutation_sym Hidx)), HndM.
  - intros i Hi. destruct (Hin i Hi) as [s Hs].
    apply HMP, puntuar_in in Hs. tauto.
  - intros i j Hi Hj Hnotin. destruct (Hin i Hi) as [si Hsi].
    pose proof (proj1 (puntuar_in _ _ _) (HMP _ Hsi)) as [Hil Esi].
    set (sj := WordChef.puntaje cuenta longitud j (nth j oraciones vacia)).
    assert (HjP : In (j, sj) P) by (apply puntuar_in; auto).
    apply (Permutation_in _ (Permutation_sym HSP)) in HjP.
    rewrite <- (firstn_skipn k S) in HjP. apply in_app_or in HjP.
    destruct HjP as [HjM|HjK].
    + exfalso. apply Hnotin. apply (Permutation_in _ (Permutation_sym Hidx)).
      apply in_map_iff. exists (j, sj). auto.
    + pose proof (@StronglySorted_split _ _ k _ _ _
                    (float_sorted_desc_sorted snd HnumP) Hsi HjK) as Hlt.
      simpl in Hlt. rewrite <- !puntaje_spec. rewrite <- Esi.
      apply ltb_leb; [rewrite Esi; apply Hnum, Hil | apply Hnum, Hj | exact Hlt].
Qed.
End ResumenFacts.

(** C8 (as amended): on a text that is not blank, with more than [n]
    sentences ([n] a count, [0 <= n]), the score of sentence [i] is the float
    [count - length / 200.0], where [count] is its number of nouns (with
    spaCy) or of tokens longer than two characters (without), plus [1]
    exactly when [i = 0]; the summary is the [n] highest-scoring sentences
    joined by single spaces in their original order.  Without spaCy a text
    with more than [n] sentences is never blank.  Texts and token lists are
    within the size limit of CPython, [2 ^ 63]. *)
Theorem resumen_las_mejores alnum texto n :
  0 <= n -> len texto < 2 ^ 63 ->
  (n < len (WordChef.oraciones_simples texto) ->
   exists indices,
     Spec.las_mejores (WordChef.tokens_largos alnum) (fun o => len o) []
       (WordChef.oraciones_simples texto) n indices
     /\ WordChef.resumen_simple alnum texto n None
        = Ok (join (lit " ")
                (map (fun i => nth i (WordChef.oraciones_simples texto) [])
                     indices)))
  /\ (forall pipeline doc,
        forallb isspace texto = false ->
        pipeline texto = Ok doc -> n < len (sents doc) ->
        (forall o, In o (sents doc) -> len (span_tokens o) < 2 ^ 63) ->
        exists indices,
          Spec.las_mejores WordChef.nombres (fun o => len (span_text o))
            empty_span (sents doc) n indices
          /\ WordChef.resumen_simple alnum texto n (Some pipeline)
             = Ok (join (lit " ")
                     (map (fun i => strip (span_text
                                             (nth i (sents doc) empty_span)))
                          indices))).
Proof.
  intros Hn Hlen. unfold WordChef.resumen_simple. split.
  - intros Hlt.
    assert (Hb : WordChef.vacio texto = false).
    { rewrite vacio_blanco. destruct (forallb isspace texto) eqn:E; [|reflexivity].
      rewrite (oraciones_simples_blanco texto E) in Hlt. simpl in Hlt.
      unfold len in Hlt. simpl in Hlt. lia. }
    rewrite Hb. apply Z.leb_gt in Hlt. rewrite Hlt.
    eexists. split; [|reflexivity].
    apply elegir_las_mejores.
    + intros o Ho. pose proof (tokens_largos_cota alnum o).
      pose proof (oraciones_simples_length texto o Ho). lia.
    + apply Z.leb_gt in Hlt. lia.
  - intros pipeline doc Hb Hdoc Hlt Hcota.
    rewrite <- vacio_blanco in Hb. rewrite Hb, Hdoc. simpl.
    apply Z.leb_gt in Hlt. rewrite Hlt.
    eexists. split; [|reflexivity].
    apply elegir_las_mejores.
    + intros o Ho. pose proof (nombres_cota o).
      pose proof (Hcota o Ho). lia.
    + apply Z.leb_gt in Hlt. lia.
Qed.

(** C8, witness: one sentence out of two whose scores,
    [(1 - 7 / 200.0) + 1] and [2 - 7 / 200.0], differ in the last bit; the
    second one is the higher. *)
Lemma resumen_las_mejores_witness :
  WordChef.resumen_simple Ejemplos.alnum Ejemplos.empate 1 None
    = Ok (lit "abc def")
  /\ exists indices,
       Spec.las_mejores (WordChef.tokens_largos Ejemplos.alnum)
         (fun o => len o) []
         (WordChef.oraciones_simples Ejemplos.empate) 1 indices
       /\ WordChef.resumen_simple Ejemplos.alnum Ejemplos.empate 1 None
          = Ok (join (lit " ")
                  (map (fun i =>
                          nth i (WordChef.oraciones_simples Ejemplos.empate) [])
                       indices)).
Proof.
  split; [vm_compute; reflexivity|].
  destruct (@resumen_las_mejores Ejemplos.alnum Ejemplos.empate 1
              ltac:(lia) ltac:(vm_compute; reflexivity)) as [H _].
  apply H. vm_compute. reflexivity.
Defined.

(** C8, as stated, fails on a text that is not empty but blank: whatever
    sentences the pipeline finds in it, the answer is the message for an
    empty text, which is no sequence of sentences joined by spaces. *)
Lemma resumen_de_texto_blanco :
  Ejemplos.cuatro_lineas <> []
  /\ Ejemplos.siempre Ejemplos.doc_blanco Ejemplos.cuatro_lineas
     = Ok Ejemplos.doc_blanco
  /\ 3 < len (sents Ejemplos.doc_blanco)
  /\ WordChef.resumen_simple Ejemplos.alnum Ejemplos.cuatro_lineas 3
       (Some (Ejemplos.siempre Ejemplos.doc_blanco))
     = Ok WordChef.error_texto_vacio
  /\ ~ exists indices,
         WordChef.resumen_simple Ejemplos.alnum Ejemplos.cuatro_lineas 3
           (Some (Ejemplos.siempre Ejemplos.doc_blanco))
         = Ok (join (lit " ")
                 (map (fun i => strip (span_text
                                 (nth i (sents Ejemplos.doc_blanco)
                                      empty_span)))
                      indices)).
Proof.
  split; [discriminate|]. split; [reflexivity|].
  split; [reflexivity|]. split; [reflexivity|].
  intros [indices H].
  assert (Hj : forall l : list nat,
            Forall (fun c => c = 32%N)
              (join (lit " ")
                 (map (fun i => strip (span_text
                                 (nth i (sents Ejemplos.doc_blanco)
                                      empty_span))) l))).
  { induction l as [|i r IH]; [constructor|].
    assert (Ei : strip (span_text (nth i (sents Ejemplos.doc_blanco)
                                       empty_span)) = [])
      by (do 4 (destruct i as [|i]; [reflexivity|]); destruct i; reflexivity).
    cbn [map join]. rewrite Ei.
    destruct (map _ r) eqn:Er; [constructor|].
    simpl. constructor; [reflexivity | exact IH]. }
  specialize (Hj indices).
  change (WordChef.resumen_simple Ejemplos.alnum Ejemplos.cuatro_lineas 3
            (Some (Ejemplos.siempre Ejemplos.doc_blanco)))
    with (Ok WordChef.error_texto_vacio) in H.
  match type of H with
  | Ok ?a = Ok ?b => assert (E : a = b) by congruence
  end.
  rewrite <- E in Hj. inversion Hj as [|c r Hc _ E']. discriminate Hc.
Qed.

(** C10: a text that is not blank and has at most [n] sentences is
    returned as it is. *)
Theorem resumen_texto_corto alnum texto n :
  forallb isspace texto = false ->
  (len (WordChef.oraciones_simples texto) <= n ->
   WordChef.resumen_simple alnum texto n None = Ok texto)
  /\ (forall pipeline doc,
        pipeline texto = Ok doc -> len (sents doc) <= n ->
        WordChef.resumen_simple alnum texto n (Some pipeline) = Ok texto).
Proof.
  intros Hb. rewrite <- vacio_blanco in Hb.
  unfold WordChef.resumen_simple. rewrite Hb. split.
  - intros Hle. apply Z.leb_le in Hle. rewrite Hle. reflexivity.
  - intros pipeline doc Hdoc Hle. rewrite Hdoc. simpl.
    apply Z.leb_le in Hle. rewrite Hle. reflexivity.
Qed.

(** C10, witness: three sentences and [n = 3]. *)
Lemma resumen_texto_corto_witness :
  WordChef.resumen_simple Ejemplos.alnum Ejemplos.tres_oraciones 3 None
    = Ok Ejemplos.tres_oraciones.
Proof.
  destruct (@resumen_texto_corto Ejemplos.alnum Ejemplos.tres_oraciones 3
              eq_refl) as [H _].
  apply H. vm_compute. discriminate.
Defined.

(** ** The session file *)







(** * Further properties *)

(** ** Counting *)

(** [c[k]], zero for a missing key. *)
Lemma dict_get_in {V} (k : str) (v : V) (d : dict V) :
  NoDup (map fst d) -> In (k, v) d -> dict_get k d = Some v.
Proof.
  induction d as [|[k' v'] r IH]; simpl; [tauto|].
  intros Hnd [E|Hin].
  - injection E as -> ->.
    destruct (str_eqb k k) eqn:Ek; [reflexivity|].
    assert (str_eqb k k = true) by (apply str_eqb_eq; reflexivity).
    congruence.
  - inversion Hnd as [|? ? Hnotin Hnd']; subst.
    destruct (str_eqb k' k) eqn:Ek.
    + apply str_eqb_eq in Ek. subst. exfalso. apply Hnotin.
      apply in_map_iff. exists (k, v). auto.
    + auto.
Qed.

Lemma incr_nodup (k : str) (c : Counter.t) :
  NoDup (map fst c) -> NoDup (map fst (Counter.incr k c)).
Proof.
  induction c as [|[k' n] r IH]; simpl; intros Hnd.
  - constructor; [simpl; tauto | constructor].
  - inversion Hnd as [|? ? Hnotin Hnd']; subst.
    destruct (str_eqb k' k) eqn:Ek; simpl.
    + constructor; assumption.
    + constructor; [|auto].
      rewrite incr_keys. intros [->|H]; [|auto].
      assert (str_eqb k k = true) by (apply str_eqb_eq; reflexivity).
      congruence.
Qed.

Lemma incr_count (k w : str) (c : Counter.t) :
  match dict_get w (Counter.incr k c) with Some n => n | None => 0 end
  = match dict_get w c with Some n => n | None => 0 end
    + (if str_eq_dec k w then 1 else 0).
Proof.
  induction c as [|[k' n] r IH]; simpl.
  - unfold str_eqb. destruct (str_eq_dec k w); reflexivity.
  - destruct (str_eqb k' k) eqn:Ek; simpl.
    + apply str_eqb_eq in Ek. subst k'.
      unfold str_eqb. destruct (str_eq_dec k w); lia.
    + destruct (str_eqb k' w) eqn:Ew; [|exact IH].
      apply str_eqb_eq in Ew. subst k'.
      destruct (str_eq_dec k w) as [->|_]; [|lia].
      assert (str_eqb w w = true) by (apply str_eqb_eq; reflexivity).
      congruence.
Qed.

Lemma fold_incr_count (l : list str) (c : Counter.t) (w : str) :
  match dict_get w (fold_left (fun c k => Counter.incr k c) l c) with
  | Some n => n | None => 0 end
  = match dict_get w c with Some n => n | None => 0 end
    + Z.of_nat (count_occ str_eq_dec l w).
Proof.
  revert c. induction l as [|k r IH]; intros c; simpl; [lia|].
  rewrite IH, incr_count. destruct (str_eq_dec k w); lia.
Qed.

Lemma fold_incr_nodup (l : list str) (c : Counter.t) :
  NoDup (map fst c) ->
  NoDup (map fst (fold_left (fun c k => Counter.incr k c) l c)).
Proof.
  revert c. induction l as [|k r IH]; intros c H; simpl; [exact H|].
  apply IH, incr_nodup, H.
Qed.

Lemma fold_contar_claves (l : list str) (c : Counter.t) (w : str) :
  In w (map fst c) ->
  In w (map fst (fold_left (fun c k => Counter.incr k c) l c)).
Proof.
  revert c. induction l as [|k r IH]; simpl; intros c H; [exact H|].
  apply IH. apply incr_keys. auto.
Qed.

Lemma of_list_nodup (l : list str) : NoDup (map fst (Counter.of_list l)).
Proof. apply fold_incr_nodup. constructor. Qed.

(** [Counter(l)] holds each element of [l] once, with its number of
    occurrences. *)
Lemma of_list_count (l : list str) (w : str) (n : Z) :
  In (w, n) (Counter.of_list l) ->
  n = Z.of_nat (count_occ str_eq_dec l w) /\ In w l.
Proof.
  intros Hin.
  pose proof (dict_get_in _ _ _ (of_list_nodup l) Hin) as Hg.
  pose proof (fold_incr_count l [] w) as Hc.
  unfold Counter.of_list in Hg. rewrite Hg in Hc. simpl in Hc.
  split; [exact Hc|].
  assert (G : forall l c,
             In w (map fst (fold_left (fun c k => Counter.incr k c) l c)) ->
             In w (map fst c) \/ In w l).
  { clear. induction l as [|k r IH]; simpl; intros c H; [auto|].
    apply IH in H. rewrite incr_keys in H.
    destruct H as [[->|H]|H]; auto. }
  destruct (G l []) as [[]|H]; [|exact H].
  apply in_map_iff. exists (w, n). auto.
Qed.

Lemma of_list_complete (l : list str) (w : str) :
  In w l -> In w (map fst (Counter.of_list l)).
Proof.
  unfold Counter.of_list. generalize (@nil (str * Z)).
  induction l as [|k r IH]; simpl; intros c H; [contradiction|].
  destruct H as [->|H]; [|auto].
  apply fold_contar_claves. apply incr_keys. auto.
Qed.

Lemma most_common_incl (n : Z) (c : Counter.t) p :
  In p (Counter.most_common n c) -> In p c.
Proof.
  unfold Counter.most_common. destruct (n <? 0); [contradiction|].
  intros H. apply In_firstn, sorted_in in H. exact H.
Qed.

Lemma NoDup_firstn {A} k (l : list A) : NoDup l -> NoDup (firstn k l).
Proof.
  intros H. rewrite <- (firstn_skipn k l) in H.
  apply NoDup_app_remove_r in H. exact H.
Qed.

Lemma most_common_nodup (n : Z) (c : Counter.t) :
  NoDup (map fst c) -> NoDup (map fst (Counter.most_common n c)).
Proof.
  intros H. unfold Counter.most_common. destruct (n <? 0); [constructor|].
  rewrite <- firstn_map. apply NoDup_firstn.
  eapply Permutation_NoDup; [|exact H].
  apply Permutation_map, Permutation_sym, sorted_perm.
Qed.

Lemma Zle_Qle_desc (a b : Z) : (inject_Z b <= inject_Z a)%Q <-> b <= a.
Proof. rewrite <- Zle_Qle. tauto. Qed.

(** The items are in descending order of count, and no item left out has
    a larger count than an item kept. *)
Lemma most_common_sorted (n : Z) (c : Counter.t) :
  StronglySorted (fun a b => snd b <= snd a) (Counter.most_common n c).
Proof.
  unfold Counter.most_common. destruct (n <? 0); [constructor|].
  apply StronglySorted_firstn.
  pose proof (sorted_desc_sorted (fun kv : str * Z => inject_Z (snd kv)) c)
    as H.
  induction H as [|x r Hr IH Hx]; constructor; [exact IH|].
  rewrite Forall_forall in Hx |- *. intros z Hz.
  apply Zle_Qle_desc, Hx, Hz.
Qed.

Lemma most_common_top (n : Z) (c : Counter.t) p q :
  In p (Counter.most_common n c) -> In q c ->
  ~ In q (Counter.most_common n c) -> snd q <= snd p.
Proof.
  unfold Counter.most_common. destruct (n <? 0); [contradiction|].
  set (S := sorted_desc (fun kv : str * Z => inject_Z (snd kv)) c).
  intros Hp Hq Hnq.
  apply (sorted_in (fun y x : str * Z =>
           negb (Qle_bool (inject_Z (snd y)) (inject_Z (snd x))))) in Hq.
  fold (sorted_desc (fun kv : str * Z => inject_Z (snd kv)) c) in Hq.
  fold S in Hq. rewrite <- (firstn_skipn (Z.to_nat n) S) in Hq.
  apply in_app_or in Hq. destruct Hq as [Hq|Hq]; [contradiction|].
  apply Zle_Qle_desc.
  apply (@StronglySorted_split _ _ (Z.to_nat n) S p q
           (sorted_desc_sorted _ c) Hp Hq).
Qed.

Lemma count_occ_filter (P : str -> bool) (l : list str) (w : str) :
  count_occ str_eq_dec (filter P l) w
  = if P w then count_occ str_eq_dec l w else 0%nat.
Proof.
  induction l as [|x r IH]; simpl; [destruct (P w); reflexivity|].
  destruct (P x) eqn:Px; simpl.
  - destruct (str_eq_dec x w) as [->|_]; rewrite IH.
    + rewrite Px. reflexivity.
    + reflexivity.
  - rewrite IH. destruct (str_eq_dec x w) as [->|_]; [|reflexivity].
    rewrite Px. reflexivity.
Qed.

(** ** Keywords *)

Lemma top_de_lista (n : Z) (l : list str) :
  let top := Counter.most_common n (Counter.of_list l) in
  (forall w k, In (w, k) top ->
     In w l /\ k = Z.of_nat (count_occ str_eq_dec l w) /\ 1 <= k)
  /\ NoDup (map fst top)
  /\ StronglySorted (fun a b => snd b <= snd a) top
  /\ (forall w k w', In (w, k) top -> In w' l -> ~ In w' (map fst top) ->
        Z.of_nat (count_occ str_eq_dec l w') <= k).
Proof.
  intros top. split; [|split; [|split]].
  - intros w k H. apply most_common_incl, of_list_count in H.
    destruct H as [-> Hin]. repeat split; [exact Hin|].
    apply (count_occ_In str_eq_dec) in Hin. lia.
  - apply most_common_nodup, of_list_nodup.
  - apply most_common_sorted.
  - intros w k w' Hw Hw' Hnot.
    apply of_list_complete, in_map_iff in Hw'.
    destruct Hw' as ([w0 n'] & E & Hin'). simpl in E. subst w0.
    destruct (of_list_count _ _ _ Hin') as [En _]. rewrite <- En.
    apply (@most_common_top n (Counter.of_list l) (w, k) (w', n') Hw Hin').
    intros Hc. apply Hnot. apply in_map_iff. exists (w', n'). auto.
Qed.

Lemma wordchef_palabras_inv lower alnum nltk texto nlp r :
  WordChef.extraer_palabras_clave lower alnum nltk texto nlp = Ok (Some r) ->
  WordChef.top_5_palabras r
  = match nltk with
    | Some tk =>
        Counter.most_common 5
          (Counter.of_list
             (filter (fun t => WordChef.isalnum alnum t
                               && negb (str_in t (WordChef.stopwords_spanish tk))
                               && (2 <? len t))
                     (WordChef.word_tokenize tk (lower texto))))
    | None => []
    end
  /\ match nlp with
     | Some pipeline =>
         exists doc, pipeline texto = Ok doc
           /\ WordChef.sustantivos r
              = Counter.most_common 5
                  (Counter.of_list (WordChef.textos_con_pos doc (lit "NOUN")))
           /\ WordChef.verbos r
              = Counter.most_common 5
                  (Counter.of_list (WordChef.textos_con_pos doc (lit "VERB")))
     | None => WordChef.sustantivos r = [] /\ WordChef.verbos r = []
     end.
Proof.
  unfold WordChef.extraer_palabras_clave.
  destruct (WordChef.vacio texto); [discriminate|].
  destruct nlp as [pipeline|].
  - destruct (pipeline texto) as [doc|e]; simpl; [|discriminate].
    intros H. injection H as <-. simpl. split; [destruct nltk; reflexivity|].
    exists doc. auto.
  - intros H. injection H as <-. simpl. split; [destruct nltk; reflexivity|].
    auto.
Qed.

(** X1: every word of [top_5_palabras] is an alphanumeric token of the
    lower-cased text, longer than two characters and not a stop word; its
    number is the number of times the token occurs; the words are distinct,
    in descending order of frequency, and no admissible token left out
    occurs more often than a word listed. *)
Theorem top_5_palabras_correctas lower alnum tk texto nlp r :
  WordChef.extraer_palabras_clave lower alnum (Some tk) texto nlp
    = Ok (Some r) ->
  let tokens := WordChef.word_tokenize tk (lower texto) in
  let admisible t :=
    WordChef.isalnum alnum t
    && negb (str_in t (WordChef.stopwords_spanish tk)) && (2 <? len t) in
  (forall w k, In (w, k) (WordChef.top_5_palabras r) ->
     admisible w = true
     /\ k = Z.of_nat (count_occ str_eq_dec tokens w) /\ 1 <= k)
  /\ NoDup (map fst (WordChef.top_5_palabras r))
  /\ StronglySorted (fun a b => snd b <= snd a) (WordChef.top_5_palabras r)
  /\ (forall w k w',
        In (w, k) (WordChef.top_5_palabras r) ->
        In w' tokens -> admisible w' = true ->
        ~ In w' (map fst (WordChef.top_5_palabras r)) ->
        Z.of_nat (count_occ str_eq_dec tokens w') <= k).
Proof.
  intros Hr tokens admisible.
  destruct (wordchef_palabras_inv _ _ _ _ _ Hr) as [Ht _]. rewrite Ht.
  fold tokens. fold admisible.
  destruct (top_de_lista 5 (filter admisible tokens)) as (H1 & H2 & H3 & H4).
  split; [|split; [exact H2|split; [exact H3|]]].
  - intros w k Hin. destruct (H1 _ _ Hin) as (Hw & Hk & Hpos).
    apply filter_In in Hw. destruct Hw as [_ Hw].
    rewrite count_occ_filter, Hw in Hk. auto.
  - intros w k w' Hin Hw' Ha Hnot.
    pose proof (H4 w k w' Hin) as H.
    rewrite count_occ_filter, Ha in H. apply H; [|exact Hnot].
    apply filter_In. auto.
Qed.

Lemma count_occ_map_text (P : Token -> bool) (l : list Token) (w : str) :
  count_occ str_eq_dec (map text (filter P l)) w
  = length (filter (fun t => P t && str_eqb (text t) w) l).
Proof.
  induction l as [|t r IH]; simpl; [reflexivity|].
  destruct (P t); simpl; [|exact IH].
  unfold str_eqb at 1. destruct (str_eq_dec (text t) w); simpl; rewrite IH;
    reflexivity.
Qed.

(** X2: every entry of [sustantivos] (of [verbos]) is the text of a token
    tagged NOUN (VERB), with the number of such tokens having that text;
    the texts are distinct and in descending order of frequency. *)
Theorem sustantivos_y_verbos_correctos
  lower alnum nltk texto pipeline doc r :
  WordChef.extraer_palabras_clave lower alnum nltk texto (Some pipeline)
    = Ok (Some r) ->
  pipeline texto = Ok doc ->
  let veces pos w :=
    Z.of_nat (length (filter (fun t => str_eqb (pos_ t) pos
                                       && str_eqb (text t) w)
                             (tokens doc))) in
  (forall w k, In (w, k) (WordChef.sustantivos r) ->
     k = veces (lit "NOUN") w /\ 1 <= k)
  /\ (forall w k, In (w, k) (WordChef.verbos r) ->
        k = veces (lit "VERB") w /\ 1 <= k)
  /\ NoDup (map fst (WordChef.sustantivos r))
  /\ NoDup (map fst (WordChef.verbos r))
  /\ StronglySorted (fun a b => snd b <= snd a) (WordChef.sustantivos r)
  /\ StronglySorted (fun a b => snd b <= snd a) (WordChef.verbos r).
Proof.
  intros Hr Hdoc veces.
  destruct (wordchef_palabras_inv _ _ _ _ _ Hr) as [_ (d & Hd & Hs & Hv)].
  rewrite Hdoc in Hd. injection Hd as <-. rewrite Hs, Hv.
  unfold WordChef.textos_con_pos.
  destruct (top_de_lista 5 (map text (filter (fun t => str_eqb (pos_ t)
              (lit "NOUN")) (tokens doc)))) as (N1 & N2 & N3 & _).
  destruct (top_de_lista 5 (map text (filter (fun t => str_eqb (pos_ t)
              (lit "VERB")) (tokens doc)))) as (V1 & V2 & V3 & _).
  repeat split; try assumption.
  - destruct (N1 _ _ H) as (_ & Hk & _). rewrite Hk, count_occ_map_text.
    reflexivity.
  - destruct (N1 _ _ H) as (_ & _ & Hk). exact Hk.
  - destruct (V1 _ _ H) as (_ & Hk & _). rewrite Hk, count_occ_map_text.
    reflexivity.
  - destruct (V1 _ _ H) as (_ & _ & Hk). exact Hk.
Qed.

Lemma runs_forall (p : char -> bool) (s : str) (w : str) :
  In w (runs p s) -> w <> [] /\ forallb p w = true.
Proof.
  revert w. induction s as [|x r IH]; simpl; [contradiction|].
  intros w. destruct (p x) eqn:Px; [|apply IH].
  destruct r as [|y r'].
  - intros [<-|[]]. simpl. rewrite Px. split; [discriminate|reflexivity].
  - destruct (p y) eqn:Py.
    + destruct (runs p (y :: r')) as [|w0 ws] eqn:E.
      * intros [<-|[]]. simpl. rewrite Px. split; [discriminate|reflexivity].
      * intros [<-|Hin].
        -- destruct (IH w0 (or_introl eq_refl)) as [_ H0].
           simpl. rewrite Px, H0. split; [discriminate|reflexivity].
        -- apply IH. right. exact Hin.
    + intros [<-|Hin]; [|apply IH, Hin].
      simpl. rewrite Px. split; [discriminate|reflexivity].
Qed.

Lemma mejoras_inv nfkc casefold alnum nltk texto nlp top_n top_phrases r regs :
  Mejoras.extraer_palabras_clave nfkc casefold alnum nltk texto nlp
    top_n top_phrases = (Some r, regs) ->
  let texto_norm := Mejoras._normalize_text nfkc casefold texto in
  let info := Mejoras.Info
                (lit "Extracci" ++ [243%N]
                 ++ lit "n de Palabras Clave (mejorada)")
                (slice_to 120 texto) r in
  Mejoras.top_5_palabras r
  = Counter.most_common top_n
      (Counter.of_list
         match nltk with
         | Some tk =>
             filter (fun t => Mejoras.fullmatch alnum t
                              && negb (str_in t (WordChef.stopwords_spanish tk))
                              && (2 <? len t))
                    (WordChef.word_tokenize tk texto_norm)
         | None =>
             filter (fun t => negb (str_in t []) && (2 <? len t))
                    (Mejoras.findall alnum texto_norm)
         end)
  /\ match nlp with
     | Some pipeline =>
         match pipeline texto with
         | Ok d =>
             Mejoras.sustantivos r
             = Counter.most_common top_n
                 (Counter.of_list (Mejoras.lemas_con_pos casefold d
                                     (lit "NOUN")))
             /\ Mejoras.verbos r
                = Counter.most_common top_n
                    (Counter.of_list (Mejoras.lemas_con_pos casefold d
                                        (lit "VERB")))
             /\ Mejoras.frases_clave r
                = Mejoras.frases_de casefold d (Mejoras.sustantivos r)
                    top_phrases
             /\ regs = [info]
         | Raise e =>
             Mejoras.sustantivos r = [] /\ Mejoras.verbos r = []
             /\ Mejoras.frases_clave r = []
             /\ regs = [Mejoras.Error
                          (lit "Error procesando con spaCy: " ++ e); info]
         end
     | None =>
         Mejoras.sustantivos r = [] /\ Mejoras.verbos r = []
         /\ Mejoras.frases_clave r = [] /\ regs = [info]
     end.
Proof.
  unfold Mejoras.extraer_palabras_clave.
  destruct (WordChef.vacio texto); [discriminate|].
  destruct nlp as [pipeline|]; [destruct (pipeline texto) as [d|e]|];
    intros H; injection H as <- <-; simpl;
    (split; [destruct nltk; reflexivity|]); repeat split.
Qed.

(** X3: every word of the improved [top_5_palabras] is longer than two
    characters and made of the characters of the token pattern; with NLTK it
    is a token of the normalised text that is not a stop word, without NLTK
    a maximal run of pattern characters; its number is its number of
    occurrences, and the words are distinct, most frequent first. *)
Theorem top_palabras_mejoradas
  nfkc casefold alnum nltk texto nlp top_n top_phrases r regs :
  Mejoras.extraer_palabras_clave nfkc casefold alnum nltk texto nlp
    top_n top_phrases = (Some r, regs) ->
  let texto_norm := Mejoras._normalize_text nfkc casefold texto in
  let tokens := match nltk with
                | Some tk => WordChef.word_tokenize tk texto_norm
                | None => Mejoras.findall alnum texto_norm
                end in
  (forall w k, In (w, k) (Mejoras.top_5_palabras r) ->
     In w tokens /\ 2 < len w
     /\ forallb (Mejoras.en_patron alnum) w = true
     /\ (forall tk, nltk = Some tk ->
           str_in w (WordChef.stopwords_spanish tk) = false)
     /\ k = Z.of_nat (count_occ str_eq_dec tokens w) /\ 1 <= k)
  /\ NoDup (map fst (Mejoras.top_5_palabras r))
  /\ StronglySorted (fun a b => snd b <= snd a) (Mejoras.top_5_palabras r).
Proof.
  intros Hr texto_norm tokens.
  destruct (mejoras_inv _ _ _ _ _ _ _ _ Hr) as [Ht _]. rewrite Ht.
  fold texto_norm.
  match goal with
  | |- context [Counter.of_list ?l] =>
      destruct (top_de_lista top_n l) as (H1 & H2 & H3 & _)
  end.
  split; [|split; assumption].
  intros w k Hin. destruct (H1 _ _ Hin) as (Hw & Hk & Hpos).
  unfold tokens. destruct nltk as [tk|].
  - apply filter_In in Hw. destruct Hw as [Hw Ha].
    rewrite count_occ_filter, Ha in Hk.
    apply andb_prop in Ha. destruct Ha as [Ha Hl].
    apply andb_prop in Ha. destruct Ha as [Hf Hs].
    apply andb_prop in Hf. destruct Hf as [_ Hf].
    apply Z.ltb_lt in Hl. apply negb_true_iff in Hs.
    repeat split; try assumption.
    intros tk' E. injection E as <-. exact Hs.
  - apply filter_In in Hw. destruct Hw as [Hw Ha].
    rewrite count_occ_filter, Ha in Hk.
    apply andb_prop in Ha. destruct Ha as [_ Hl]. apply Z.ltb_lt in Hl.
    destruct (runs_forall _ _ _ Hw) as [_ Hp].
    repeat split; try assumption. discriminate.
Qed.

(** X4: when the spaCy pipeline raises, the improved extractor returns
    what it returns without a pipeline, and records the failure before the
    result. *)
Theorem fallo_de_spacy_tolerado
  nfkc casefold alnum nltk texto pipeline e top_n top_phrases :
  pipeline texto = Raise e ->
  let con := Mejoras.extraer_palabras_clave nfkc casefold alnum nltk texto
               (Some pipeline) top_n top_phrases in
  let sin := Mejoras.extraer_palabras_clave nfkc casefold alnum nltk texto
               None top_n top_phrases in
  fst con = fst sin
  /\ (forallb isspace texto = false ->
      snd con = Mejoras.Error (lit "Error procesando con spaCy: " ++ e)
                :: snd sin)
  /\ (forallb isspace texto = true -> snd con = [] /\ snd sin = []).
Proof.
  intros He con sin. unfold con, sin, Mejoras.extraer_palabras_clave.
  rewrite vacio_blanco, He.
  destruct (forallb isspace texto); simpl;
    (split; [reflexivity|]); split; intros H;
    first [discriminate H | reflexivity | split; reflexivity].
Qed.

(** X5: on a text that is not blank the improved extractor always returns
    a result, and the last thing it records is that result with the first
    120 characters of the text; nothing else is recorded unless the pipeline
    raised. *)
Theorem registro_de_la_extraccion
  nfkc casefold alnum nltk texto nlp top_n top_phrases :
  forallb isspace texto = false ->
  exists r errores,
    Mejoras.extraer_palabras_clave nfkc casefold alnum nltk texto nlp
      top_n top_phrases
    = (Some r,
       errores ++ [Mejoras.Info
                     (lit "Extracci" ++ [243%N]
                      ++ lit "n de Palabras Clave (mejorada)")
                     (firstn 120 texto) r])
    /\ (errores = [] <->
        forall pipeline e, nlp = Some pipeline -> pipeline texto <> Raise e).
Proof.
  intros Hb. rewrite <- vacio_blanco in Hb.
  destruct (@extraer_no_vacio nfkc casefold alnum nltk texto nlp
              top_n top_phrases Hb) as (r & regs & Hr & _).
  destruct (mejoras_inv _ _ _ _ _ _ _ _ Hr) as [_ Hn].
  rewrite slice_to_nonneg in Hn by lia. change (Z.to_nat 120) with 120%nat in Hn.
  exists r. destruct nlp as [pipeline|]; [destruct (pipeline texto) as [d|e] eqn:E|].
  - destruct Hn as (_ & _ & _ & ->). exists []. split; [exact Hr|].
    split; [|reflexivity]. intros _ p e' Hp. injection Hp as <-.
    rewrite E. discriminate.
  - destruct Hn as (_ & _ & _ & ->).
    exists [Mejoras.Error (lit "Error procesando con spaCy: " ++ e)].
    split; [exact Hr|]. split; [discriminate|].
    intros H. exfalso. apply (H pipeline e eq_refl E).
  - destruct Hn as (_ & _ & _ & ->). exists []. split; [exact Hr|].
    split; [|reflexivity]. intros _ p e' Hp. discriminate.
Qed.

Lemma count_occ_map_filter {A} (f : A -> str) (P : A -> bool) (l : list A)
  (w : str) :
  count_occ str_eq_dec (map f (filter P l)) w
  = length (filter (fun a => P a && str_eqb (f a) w) l).
Proof.
  induction l as [|a r IH]; simpl; [reflexivity|].
  destruct (P a); simpl; [|exact IH].
  unfold str_eqb at 1. destruct (str_eq_dec (f a) w); simpl; rewrite IH;
    reflexivity.
Qed.

Lemma contar_frases_of_list casefold (chunks : list Span) (c : Counter.t) :
  fold_left (Mejoras.contar_chunk casefold) chunks c
  = fold_left (fun c k => Counter.incr k c)
      (map (fun ch => Mejoras.frase_de casefold (Mejoras.palabras_de ch))
           (filter (fun ch =>
                      truthy (Mejoras.palabras_de ch)
                      && negb (len (Mejoras.frase_de casefold
                                      (Mejoras.palabras_de ch)) <? 3))
                   chunks))
      c.
Proof.
  revert c. induction chunks as [|ch r IH]; intros c; simpl; [reflexivity|].
  rewrite IH. unfold Mejoras.contar_chunk.
  destruct (truthy (Mejoras.palabras_de ch)); simpl; [|reflexivity].
  destruct (len _ <? 3); reflexivity.
Qed.

(** X6: no phrase appears twice in [frases_clave], and the frequency that
    enters the score of a phrase is the number of noun chunks whose kept
    lemmas spell it. *)
Theorem frases_clave_sin_repetir
  nfkc casefold alnum nltk texto pipeline doc top_n top_phrases r regs :
  Mejoras.extraer_palabras_clave nfkc casefold alnum nltk texto
    (Some pipeline) top_n top_phrases = (Some r, regs) ->
  pipeline texto = Ok doc ->
  let veces phrase :=
    Z.of_nat (length (filter
      (fun ch => str_eqb (Mejoras.frase_de casefold (Mejoras.palabras_de ch))
                         phrase)
      (noun_chunks doc))) in
  NoDup (map fst (Mejoras.frases_clave r))
  /\ forall phrase s, In (phrase, s) (Mejoras.frases_clave r) ->
       1 <= veces phrase
       /\ (s == Spec.puntuacion_frase (veces phrase) (len (split phrase))
                 (Spec.saliente (Mejoras.sustantivos r) phrase))%Q.
Proof.
  intros Hr Hdoc veces.
  destruct (mejoras_inv _ _ _ _ _ _ _ _ Hr) as [_ Hn].
  rewrite Hdoc in Hn. destruct Hn as (_ & _ & Hf & _).
  assert (Hc : Mejoras.contar_frases casefold doc
               = Counter.of_list
                   (map (fun ch => Mejoras.frase_de casefold
                                     (Mejoras.palabras_de ch))
                        (filter (fun ch =>
                           truthy (Mejoras.palabras_de ch)
                           && negb (len (Mejoras.frase_de casefold
                                           (Mejoras.palabras_de ch)) <? 3))
                           (noun_chunks doc))))
    by apply contar_frases_of_list.
  split.
  - rewrite Hf. unfold Mejoras.frases_de.
    assert (Hk : NoDup (map fst (sorted_desc snd
                 (map (Mejoras.puntuar_frase
                         (map fst (Mejoras.sustantivos r)))
                      (Mejoras.contar_frases casefold doc))))).
    { eapply Permutation_NoDup.
      - apply Permutation_map, Permutation_sym, sorted_perm.
      - rewrite map_map.
        erewrite map_ext; [|intros; apply puntuar_frase_fst].
        rewrite Hc. apply of_list_nodup. }
    unfold slice_to. destruct (0 <=? top_phrases);
      rewrite <- firstn_map; apply NoDup_firstn, Hk.
  - intros phrase s Hin. rewrite Hf in Hin.
    apply frases_de_incl in Hin. destruct Hin as (freq & Hin & E).
    simpl fst in Hin, E.
    pose proof (contar_frases_keys casefold doc phrase) as Hlen.
    assert (Hl : 3 <= len phrase).
    { apply Hlen, in_map_iff. exists (phrase, freq). auto. }
    pose proof (contar_frases_positive _ _ _ _ Hin) as Hpos.
    rewrite Hc in Hin. apply of_list_count in Hin. destruct Hin as [Ef _].
    rewrite count_occ_map_filter in Ef.
    assert (Ev : freq = veces phrase).
    { rewrite Ef. unfold veces. f_equal. f_equal. apply filter_ext.
      intros ch.
      destruct (str_eqb (Mejoras.frase_de casefold (Mejoras.palabras_de ch))
                        phrase) eqn:Es; [|apply andb_false_r].
      apply str_eqb_eq in Es. rewrite Es.
      assert (Et : (len phrase <? 3) = false) by (apply Z.ltb_ge; lia).
      rewrite Et. destruct (Mejoras.palabras_de ch) eqn:Ew; [|reflexivity].
      exfalso. rewrite <- Es in Hl. cbv in Hl. apply Hl. reflexivity. }
    rewrite <- Ev. split; [exact Hpos|].
    apply (f_equal snd) in E. simpl snd in E. rewrite E.
    apply puntuar_frase_snd.
Qed.

(** ** The session file, call after call *)






Lemma firstn_len_le {A} (k : nat) (l : list A) : (length (firstn k l) <= k)%nat.
Proof. apply firstn_le_length. Qed.

(** X8: the input recorded by the file-based [log] is the input itself when
    it has at most 100 characters, and never has more than 103; the snippet
    of the logging-based [log] is the input itself when it has at most 120
    characters, and never has more than 120. *)
Theorem fragmentos_acotados (entrada : str) :
  len (SessionLogger.entrada_truncada entrada) <= 103
  /\ (len entrada <= 100 -> SessionLogger.entrada_truncada entrada = entrada)
  /\ len (SessionLoggerMejoras.snippet (Some entrada)) <= 120
  /\ (len entrada <= 120 ->
      SessionLoggerMejoras.snippet (Some entrada) = entrada)
  /\ SessionLoggerMejoras.snippet None = [].
Proof.
  unfold SessionLogger.entrada_truncada, SessionLoggerMejoras.snippet, len.
  rewrite !slice_to_nonneg by lia.
  change (Z.to_nat 100) with 100%nat. change (Z.to_nat 120) with 120%nat.
  split; [|split; [|split; [|split]]].
  - rewrite length_app. pose proof (firstn_len_le 100 entrada).
    destruct (100 <? _);
      [change (length (lit "...")) with 3%nat
      | change (length (@nil char)) with 0%nat]; lia.
  - intros H. rewrite firstn_all2 by lia.
    assert (E : (100 <? Z.of_nat (length entrada)) = false)
      by (apply Z.ltb_ge; lia).
    rewrite E. apply app_nil_r.
  - pose proof (firstn_len_le 120 entrada).
    destruct entrada as [|c e]; unfold truthy, truthy_list; cbv iota beta;
      [cbn; lia | lia].
  - intros H. destruct entrada as [|c e]; [reflexivity|].
    unfold truthy, truthy_list; cbv iota beta. apply firstn_all2. lia.
  - reflexivity.
Qed.

(** ** The normaliser *)

Section NormalizadorFacts.
Variable lower : str -> str.

Lemma quitar_repetidas_distintas (prev : str) (l : list str) :
  match WordChef.quitar_repetidas lower prev l with
  | [] => True
  | b :: _ => lower prev <> lower b
  end
  /\ Vecinas.distintas lower (WordChef.quitar_repetidas lower prev l).
Proof.
  revert prev. induction l as [|w r IH]; intros prev; simpl; [auto|].
  destruct (str_eqb (lower w) (lower prev)) eqn:E.
  - apply str_eqb_eq in E. destruct (IH w) as [H1 H2].
    split; [|exact H2].
    destruct (WordChef.quitar_repetidas lower w r); [exact I|].
    rewrite <- E. exact H1.
  - destruct (IH w) as [H1 H2]. split.
    + intros H. symmetry in H. apply str_eqb_eq in H. congruence.
    + simpl. destruct (WordChef.quitar_repetidas lower w r); auto.
Qed.

Lemma sin_repetir_distintas (l : list str) :
  Vecinas.distintas lower (WordChef.sin_repetir lower l).
Proof.
  destruct l as [|w r]; simpl; [exact I|].
  destruct (quitar_repetidas_distintas w r) as [H1 H2].
  destruct (WordChef.quitar_repetidas lower w r); auto.
Qed.

Lemma quitar_repetidas_fijo (prev : str) (l : list str) :
  Vecinas.distintas lower (prev :: l) ->
  WordChef.quitar_repetidas lower prev l = l.
Proof.
  revert prev. induction l as [|w r IH]; intros prev; simpl; [reflexivity|].
  intros [Hne Hr].
  destruct (str_eqb (lower w) (lower prev)) eqn:E.
  - apply str_eqb_eq in E. congruence.
  - f_equal. apply IH. exact Hr.
Qed.

Lemma sin_repetir_fijo (l : list str) :
  Vecinas.distintas lower l -> WordChef.sin_repetir lower l = l.
Proof.
  destruct l as [|w r]; simpl; [reflexivity|].
  intros H. f_equal. apply quitar_repetidas_fijo. exact H.
Qed.

Lemma quitar_repetidas_incl (prev : str) (l : list str) w :
  In w (WordChef.quitar_repetidas lower prev l) -> In w l.
Proof.
  revert prev. induction l as [|x r IH]; intros prev; simpl; [tauto|].
  destruct (str_eqb (lower x) (lower prev)); simpl; intros H.
  - right. eapply IH, H.
  - destruct H as [H|H]; [left; exact H | right; eapply IH, H].
Qed.

Lemma corregir_desde_limpio (prev : option Token) (ts : list Token) :
  (forall t, In t ts ->
     dict_get (lower (text t)) WordChef.CORRECCIONES_COMUNES = None
     /\ dict_get (lower (text t)) WordChef.SUSTANTIVOS_NO_NEUTROS = None) ->
  Vecinas.distintas lower
    (match prev with Some p => text p :: map text ts | None => map text ts end)
  ->
  WordChef.corregir_desde lower prev ts = map text ts.
Proof.
  revert prev. induction ts as [|t r IH]; intros prev Hd Hv; [reflexivity|].
  cbn [WordChef.corregir_desde map].
  destruct (Hd t (or_introl eq_refl)) as [-> ->].
  assert (Hr : WordChef.corregir_desde lower (Some t) r = map text r).
  { apply IH.
    - intros t' Ht'. apply Hd. right. exact Ht'.
    - destruct prev; cbn [map] in Hv; [destruct Hv as [_ Hv]|]; exact Hv. }
  rewrite Hr. destruct prev as [p|]; [|reflexivity].
  cbn [map] in Hv. destruct Hv as [Hne _].
  destruct (str_eqb (lower (text t)) (lower (text p))) eqn:E; [|reflexivity].
  apply str_eqb_eq in E. congruence.
Qed.

End NormalizadorFacts.

(** X9: the words of [sin_repeticiones] are words of the text, the first
    of which is its first word; no two neighbours among them are equal up to
    letter case; and a text whose neighbouring words all differ keeps all
    its words. *)
Theorem sin_repeticiones_sin_vecinas lower texto nlp n :
  WordChef.normalizador_texto lower texto nlp = Ok (Some n) ->
  exists palabras,
    WordChef.sin_repeticiones n = join (lit " ") palabras
    /\ Vecinas.distintas lower palabras
    /\ (forall w, In w palabras -> In w (split texto))
    /\ hd_error palabras = hd_error (split texto)
    /\ (Vecinas.distintas lower (split texto) -> palabras = split texto)
    /\ WordChef.sin_repetir lower palabras = palabras.
Proof.
  intros H. exists (WordChef.sin_repetir lower (split texto)).
  split.
  { unfold WordChef.normalizador_texto in H.
    destruct (negb (truthy texto) || (len (strip texto) =? 0));
      [discriminate|].
    destruct nlp as [pipeline|].
    - destruct (pipeline texto); simpl in H; [|discriminate].
      injection H as <-. reflexivity.
    - injection H as <-. reflexivity. }
  split; [apply sin_repetir_distintas|].
  split.
  { intros w. destruct (split texto) as [|x r]; simpl; [tauto|].
    intros [Hw|Hw]; [left; exact Hw | right].
    eapply quitar_repetidas_incl, Hw. }
  split; [destruct (split texto); reflexivity|].
  split; [apply sin_repetir_fijo|].
  apply sin_repetir_fijo, sin_repetir_distintas.
Qed.

(** X10: a document none of whose words is in the correction tables, and
    whose neighbouring words all differ up to letter case, is left as it is
    by [corregir_palabras]: the result is the texts of its tokens joined by
    spaces. *)
Theorem corregir_palabras_texto_limpio lower (doc : Doc) :
  (forall t, In t (tokens doc) ->
     dict_get (lower (text t)) WordChef.CORRECCIONES_COMUNES = None
     /\ dict_get (lower (text t)) WordChef.SUSTANTIVOS_NO_NEUTROS = None) ->
  Vecinas.distintas lower (map text (tokens doc)) ->
  WordChef.corregir_palabras lower (Some doc)
    = join (lit " ") (map text (tokens doc)).
Proof.
  intros Hd Hv. unfold WordChef.corregir_palabras.
  rewrite (corregir_desde_limpio lower None (tokens doc) Hd Hv). reflexivity.
Qed.

(** ** More on the summary *)

Lemma split_on_sin (c : char) (s : str) (w : str) :
  In w (split_on c s) -> ~ In c w.
Proof.
  revert w. induction s as [|x r IH]; simpl.
  - intros w [<-|[]]. simpl. tauto.
  - intros w. destruct (N.eqb x c) eqn:E.
    + intros [<-|H]; [simpl; tauto | apply IH, H].
    + apply N.eqb_neq in E.
      destruct (split_on c r) as [|w0 ws].
      * intros [<-|[]]. simpl. intuition.
      * intros [<-|H].
        -- simpl. intros [Hx|Hin]; [congruence|].
           apply (IH w0 (or_introl eq_refl)), Hin.
        -- apply IH. right. exact H.
Qed.

Lemma dropwhile_incl {A} (p : A -> bool) (l : list A) x :
  In x (dropwhile p l) -> In x l.
Proof.
  induction l as [|y r IH]; simpl; [tauto|].
  destruct (p y); simpl; tauto.
Qed.

Lemma strip_incl (s : str) c : In c (strip s) -> In c s.
Proof.
  unfold strip, rstrip, lstrip. intros H.
  apply in_rev, dropwhile_incl in H. apply in_rev in H.
  apply dropwhile_incl in H. exact H.
Qed.

Lemma join_sin (sep : str) (parts : list str) (c : char) :
  ~ In c sep -> (forall p, In p parts -> ~ In c p) -> ~ In c (join sep parts).
Proof.
  intros Hsep. induction parts as [|p r IH]; intros Hp; [simpl; tauto|].
  cbn [join]. destruct r as [|q r'].
  - apply Hp. left. reflexivity.
  - intros H. apply in_app_or in H. destruct H as [H|H].
    + apply (Hp p (or_introl eq_refl)), H.
    + apply in_app_or in H. destruct H as [H|H]; [exact (Hsep H)|].
      apply IH; [|exact H]. intros p' Hp'. apply Hp. right. exact Hp'.
Qed.

Lemma oraciones_simples_sin_punto (texto : str) (o : str) :
  In o (WordChef.oraciones_simples texto) ->
  o <> [] /\ ~ In 46%N o /\ strip o = o.
Proof.
  unfold WordChef.oraciones_simples. intros H.
  apply in_map_iff in H. destruct H as (s & <- & Hs).
  apply filter_In in Hs. destruct Hs as [Hs Ht].
  split; [destruct (strip s); [discriminate|discriminate]|].
  split.
  - intros Hin. apply strip_incl in Hin.
    apply (split_on_sin _ _ _ Hs), Hin.
  - unfold strip, rstrip, lstrip.
    set (a := dropwhile isspace s).
    set (b := dropwhile isspace (rev a)).
    assert (Hb : dropwhile isspace b = b).
    { unfold b. generalize (rev a). intros l.
      induction l as [|x r IH]; simpl; [reflexivity|].
      destruct (isspace x) eqn:E; [exact IH|]. simpl. rewrite E. reflexivity. }
    assert (Ha : dropwhile isspace (rev b) = rev b).
    { destruct (dropwhile_suffix isspace (rev a)) as (pre & E & F).
      fold b in E. apply (f_equal (@rev _)) in E.
      rewrite rev_involutive, rev_app_distr in E.
      destruct (rev b) as [|x r] eqn:Er; [reflexivity|].
      simpl. destruct (isspace x) eqn:Ex; [|reflexivity].
      exfalso. unfold a in E.
      assert (Hd : forall l y t, dropwhile isspace l = y :: t ->
                                 isspace y = false).
      { clear. induction l as [|z l IH]; simpl; [discriminate|].
        intros y t. destruct (isspace z) eqn:Ez; [apply IH|].
        intros H. injection H as <- _. exact Ez. }
      simpl in E. apply Hd in E. congruence. }
    rewrite Ha, rev_involutive. rewrite Hb. reflexivity.
Qed.

(** X11: without spaCy, a summary that leaves sentences out contains no
    full stop: the sentences are the pieces between full stops, and they are
    joined by single spaces. *)
Theorem resumen_sin_puntos alnum texto n s :
  forallb isspace texto = false ->
  len (WordChef.oraciones_simples texto) > n ->
  WordChef.resumen_simple alnum texto n None = Ok s ->
  ~ In 46%N s.
Proof.
  intros Hb Hn H. unfold WordChef.resumen_simple in H.
  rewrite vacio_blanco, Hb in H.
  assert (E : (len (WordChef.oraciones_simples texto) <=? n) = false)
    by (apply Z.leb_gt; lia).
  rewrite E in H. injection H as <-.
  unfold WordChef.resumir. apply join_sin.
  - cbv. intros [H|[]]. discriminate H.
  - intros p Hp. apply in_map_iff in Hp. destruct Hp as (i & <- & _).
    destruct (Nat.lt_ge_cases i (length (WordChef.oraciones_simples texto)))
      as [Hi|Hi].
    + apply (oraciones_simples_sin_punto texto), nth_In, Hi.
    + rewrite nth_overflow by exact Hi. simpl. tauto.
Qed.

(** X12: asked for no sentence at all, [resumen_simple] returns the empty
    string as soon as the text has a sentence, and the text itself when it
    has none. *)
Theorem resumen_de_cero_oraciones alnum texto :
  forallb isspace texto = false ->
  WordChef.resumen_simple alnum texto 0 None
    = Ok (if truthy (WordChef.oraciones_simples texto) then [] else texto)
  /\ forall pipeline doc, pipeline texto = Ok doc ->
       WordChef.resumen_simple alnum texto 0 (Some pipeline)
       = Ok (if truthy (sents doc) then [] else texto).
Proof.
  intros Hb. unfold WordChef.resumen_simple. rewrite vacio_blanco, Hb.
  split.
  - destruct (WordChef.oraciones_simples texto); reflexivity.
  - intros pipeline doc ->. simpl. destruct (sents doc); reflexivity.
Qed.

(** ** The pattern finders *)

Section ReFacts.
Variable is_word : char -> bool.

Let mt_ok := Re.mt_ok is_word.

Lemma rep_loop_ok (r : Re.regex) (k : option char -> str -> option str) :
  mt_ok r ->
  forall n lo hi prev s out,
    hi = Some n \/ hi = None ->
    Re.rep_loop (Re.mt is_word r) k n lo prev s = Some out ->
    exists w prev' s',
      s = w ++ s' /\ Re.denota (Re.Rep lo hi r) w /\ k prev' s' = Some out.
Proof.
  intros Hr. induction n as [|n IH]; intros lo hi prev s out Hhi H.
  - simpl in H. destruct (Nat.eqb lo 0) eqn:E; [|discriminate].
    apply Nat.eqb_eq in E. subst lo.
    exists [], prev, s. repeat split; [constructor | exact H].
  - cbn [Re.rep_loop] in H.
    destruct (Re.mt is_word r prev s _) as [out'|] eqn:Em.
    + injection H as ->.
      apply Hr in Em. destruct Em as (w1 & p1 & s1 & -> & Hw1 & Hk).
      apply (IH (pred lo) (option_map pred hi)) in Hk.
      * destruct Hk as (w2 & p2 & s2 & -> & Hw2 & Hk).
        exists (w1 ++ w2), p2, s2. split; [apply app_assoc|].
        split; [|exact Hk].
        apply Re.D_rep_step; [|exact Hw1|exact Hw2].
        destruct Hhi as [->| ->]; discriminate.
      * destruct Hhi as [->| ->]; [left|right]; reflexivity.
    + destruct (Nat.eqb lo 0) eqn:E; [|discriminate].
      apply Nat.eqb_eq in E. subst lo.
      exists [], prev, s. repeat split; [constructor | exact H].
Qed.

(** A successful match consumes a string the pattern denotes. *)
Lemma mt_sound (r : Re.regex) : mt_ok r.
Proof.
  induction r as [|p|r1 IH1 r2 IH2|r1 IH1 r2 IH2|lo hi r IH|];
    intros prev s k out H; cbn [Re.mt] in H.
  - exists [], prev, s. repeat split; [constructor | exact H].
  - destruct s as [|c s']; [discriminate|].
    destruct (p c) eqn:E; [|discriminate].
    exists [c], (Some c), s'. repeat split; [constructor; exact E | exact H].
  - apply IH1 in H. destruct H as (w1 & p1 & s1 & -> & Hw1 & H).
    apply IH2 in H. destruct H as (w2 & p2 & s2 & -> & Hw2 & H).
    exists (w1 ++ w2), p2, s2. split; [apply app_assoc|].
    split; [constructor; assumption | exact H].
  - destruct (Re.mt is_word r1 prev s k) as [out'|] eqn:E1.
    + injection H as ->. apply IH1 in E1.
      destruct E1 as (w & p' & s' & -> & Hw & Hk).
      exists w, p', s'. repeat split; [apply Re.D_alt_l, Hw | exact Hk].
    + apply IH2 in H. destruct H as (w & p' & s' & -> & Hw & Hk).
      exists w, p', s'. repeat split; [apply Re.D_alt_r, Hw | exact Hk].
  - eapply rep_loop_ok; [exact IH| |exact H].
    destruct hi; [left|right]; reflexivity.
  - destruct (Re.at_boundary is_word prev s); [|discriminate].
    exists [], prev, s. repeat split; [constructor | exact H].
Qed.

Lemma match_here_sound (r : Re.regex) prev s rest :
  Re.match_here is_word r prev s = Some rest ->
  exists w, s = w ++ rest /\ Re.denota r w
            /\ firstn (length s - length rest) s = w.
Proof.
  unfold Re.match_here. intros H. apply mt_sound in H.
  destruct H as (w & p' & s' & -> & Hw & E). injection E as ->.
  exists w. repeat split; [exact Hw|].
  rewrite length_app, Nat.add_sub. rewrite firstn_app, Nat.sub_diag.
  rewrite firstn_all. simpl. apply app_nil_r.
Qed.

(** Whatever [findall] returns is a piece of the text that the pattern
    denotes. *)
Lemma scan_sound (r : Re.regex) (s : str) :
  forall skip prev w,
    In w (Re.scan is_word r skip prev s) ->
    Re.denota r w /\ exists pre post, s = pre ++ w ++ post.
Proof.
  induction s as [|c s' IH]; intros skip prev w H.
  - cbn [Re.scan] in H. destruct skip; [|contradiction].
    destruct (Re.match_here is_word r prev []) as [rest|] eqn:E;
      [|contradiction].
    destruct H as [<-|[]].
    apply match_here_sound in E. destruct E as (w & E & Hw & _).
    destruct w; [|discriminate]. split; [exact Hw|].
    exists [], []. reflexivity.
  - cbn [Re.scan] in H. destruct skip as [|j].
    + destruct (Re.match_here is_word r prev (c :: s')) as [rest|] eqn:E.
      * destruct H as [<-|H].
        -- apply match_here_sound in E. destruct E as (w & E & Hw & ->).
           split; [exact Hw|]. exists [], rest. exact E.
        -- apply IH in H. destruct H as [Hw (pre & post & ->)].
           split; [exact Hw|]. exists (c :: pre), post. reflexivity.
      * apply IH in H. destruct H as [Hw (pre & post & ->)].
        split; [exact Hw|]. exists (c :: pre), post. reflexivity.
    + apply IH in H. destruct H as [Hw (pre & post & ->)].
      split; [exact Hw|]. exists (c :: pre), post. reflexivity.
Qed.

End ReFacts.

Lemma denota_solo (P : char -> bool) (r : Re.regex) (w : str) :
  Re.denota r w -> Re.solo P r -> forallb P w = true.
Proof.
  induction 1; cbn [Re.solo]; intros Hs; try reflexivity.
  - simpl. rewrite (Hs c H). reflexivity.
  - destruct Hs. rewrite forallb_app, IHdenota1, IHdenota2 by assumption.
    reflexivity.
  - destruct Hs. auto.
  - destruct Hs. auto.
  - rewrite forallb_app, IHdenota1, IHdenota2 by assumption. reflexivity.
Qed.

Lemma denota_exige (P : char -> bool) (r : Re.regex) (w : str) :
  Re.denota r w -> Re.exige P r -> existsb P w = true.
Proof.
  induction 1; cbn [Re.exige]; intros He; try contradiction.
  - simpl. rewrite (He c H). reflexivity.
  - rewrite existsb_app. destruct He as [He|He].
    + rewrite IHdenota1 by exact He. reflexivity.
    + rewrite IHdenota2 by exact He. apply orb_true_r.
  - destruct He. auto.
  - destruct He. auto.
  - destruct He as [He _]. inversion He.
  - destruct He as [_ He]. rewrite existsb_app, IHdenota1 by exact He.
    reflexivity.
Qed.

Lemma denota_len (r : Re.regex) (w : str) :
  Re.denota r w ->
  (Re.minlen r <= length w)%nat
  /\ forall m, Re.maxlen r = Some m -> (length w <= m)%nat.
Proof.
  induction 1; cbn [Re.minlen Re.maxlen].
  - split; [simpl; lia|]. intros m E. injection E as <-. simpl. lia.
  - split; [simpl; lia|]. intros m E. injection E as <-. simpl. lia.
  - destruct IHdenota1 as [L1 U1], IHdenota2 as [L2 U2].
    rewrite length_app. split; [lia|].
    intros m E. destruct (Re.maxlen r1), (Re.maxlen r2); try discriminate.
    injection E as <-. specialize (U1 _ eq_refl). specialize (U2 _ eq_refl).
    lia.
  - destruct IHdenota as [L U]. split; [lia|].
    intros m E. destruct (Re.maxlen r1), (Re.maxlen r2); try discriminate.
    injection E as <-. specialize (U _ eq_refl). lia.
  - destruct IHdenota as [L U]. split; [lia|].
    intros m E. destruct (Re.maxlen r1), (Re.maxlen r2); try discriminate.
    injection E as <-. specialize (U _ eq_refl). lia.
  - split; [simpl; lia|]. intros m E. simpl. lia.
  - destruct IHdenota1 as [L1 U1], IHdenota2 as [L2 U2].
    cbn [Re.minlen Re.maxlen] in L2, U2.
    rewrite length_app. split.
    + destruct lo; simpl in *; nia.
    + intros m E. destruct hi as [h|]; [|discriminate].
      destruct (Re.maxlen r) as [a|]; [|discriminate].
      injection E as <-. specialize (U1 _ eq_refl).
      simpl in U2. specialize (U2 _ eq_refl).
      destruct h; [congruence|]. simpl in *. nia.
  - split; [simpl; lia|]. intros m E. injection E as <-. simpl. lia.
Qed.

Ltac un_caracter :=
  let c := fresh "c" in
  let Hc := fresh "Hc" in
  intros c Hc;
  first [ apply N.eqb_eq in Hc; subst; reflexivity
        | destruct c; [discriminate Hc|];
          apply Pos.eqb_eq in Hc; subst; reflexivity ].

Lemma findall_vacio is_word (r : Re.regex) (P : char -> bool) (texto : str) :
  Re.exige P r -> existsb P texto = false -> Re.findall is_word r texto = [].
Proof.
  intros He Hn. destruct (Re.findall is_word r texto) as [|w ws] eqn:E;
    [reflexivity|].
  assert (Hin : In w (Re.findall is_word r texto))
    by (rewrite E; left; reflexivity).
  apply scan_sound in Hin. destruct Hin as [Hw (pre & post & ->)].
  apply (denota_exige P) in Hw; [|exact He].
  rewrite !existsb_app, Hw in Hn. rewrite orb_true_l, orb_true_r in Hn.
  discriminate Hn.
Qed.

(** X13: every date that [encontrar_fechas] returns is a piece of the text
    of 6 to 10 characters, all of them digits, slashes or hyphens, at least
    one a digit; a text without digits gives the empty list. *)
Theorem fechas_encontradas isdigit is_word (texto : str) :
  (forall f, In f (Patrones.encontrar_fechas isdigit is_word texto) ->
     (exists pre post, texto = pre ++ f ++ post)
     /\ 6 <= len f <= 10
     /\ forallb (Patrones.o isdigit (Patrones.uno_de [47; 45]%N)) f = true
     /\ existsb isdigit f = true)
  /\ (existsb isdigit texto = false ->
      Patrones.encontrar_fechas isdigit is_word texto = []).
Proof.
  assert (He : Re.exige isdigit (Patrones.PATRON_FECHAS isdigit)).
  { cbn. right. left. split; left; split; auto. }
  split.
  - intros f Hf. apply scan_sound in Hf. destruct Hf as [Hd Hsub].
    split; [exact Hsub|].
    destruct (denota_len Hd) as [Hmin Hmax].
    specialize (Hmax 10%nat eq_refl). cbn in Hmin.
    split; [unfold len; lia|]. split.
    + apply (denota_solo _ Hd). cbn [Re.solo Patrones.PATRON_FECHAS].
      repeat split; intros c Hc; apply orb_true_iff;
        first [left; exact Hc | right; exact Hc].
    + apply (denota_exige _ Hd He).
  - apply findall_vacio, He.
Qed.

(** X14: every amount that [encontrar_dinero] returns is a piece of the
    text that holds a digit and a currency mark, the euro sign, the dollar
    sign, or the first letter of "euros" or "USD"; a text without digits
    gives the empty list. *)
Theorem dinero_encontrado isdigit is_word (texto : str) :
  (forall m, In m (Patrones.encontrar_dinero isdigit is_word texto) ->
     (exists pre post, texto = pre ++ m ++ post)
     /\ 2 <= len m
     /\ existsb isdigit m = true
     /\ existsb (Patrones.uno_de [8364; 36; 101; 85]%N) m = true)
  /\ (existsb isdigit texto = false ->
      Patrones.encontrar_dinero isdigit is_word texto = []).
Proof.
  assert (He : Re.exige isdigit (Patrones.PATRON_DINERO isdigit)).
  { cbn. right. split.
    - right. right. left. split; auto.
    - right. left. split; auto. }
  split.
  - intros m Hm. apply scan_sound in Hm. destruct Hm as [Hd Hsub].
    split; [exact Hsub|].
    destruct (denota_len Hd) as [Hmin _]. cbn in Hmin.
    split; [unfold len; lia|]. split; [apply (denota_exige _ Hd He)|].
    apply (denota_exige _ Hd). cbn. right. split.
    + do 6 right. repeat split.
      * un_caracter.
      * left. un_caracter.
      * left. un_caracter.
      * un_caracter.
    + left. un_caracter.
  - apply findall_vacio, He.
Qed.

(** X15: every address that [encontrar_correos] returns is a piece of the
    text of at least 6 characters that holds an at sign and a dot and is
    made of ASCII letters, digits and the marks [. _ % + - @] only; a text
    without an at sign gives the empty list. *)
Theorem correos_encontrados is_word (texto : str) :
  let permitido :=
    Patrones.o Patrones.letra_o_cifra
               (Patrones.uno_de [46; 95; 37; 43; 45; 64]%N) in
  (forall e, In e (Patrones.encontrar_correos is_word texto) ->
     (exists pre post, texto = pre ++ e ++ post)
     /\ 6 <= len e
     /\ In 64%N e /\ In 46%N e
     /\ forallb permitido e = true)
  /\ (~ In 64%N texto -> Patrones.encontrar_correos is_word texto = []).
Proof.
  intros permitido.
  assert (He : Re.exige (N.eqb 64%N) Patrones.PATRON_EMAIL).
  { cbn. right. right. left. intros c Hc. exact Hc. }
  assert (Hin : forall a (w : str), existsb (N.eqb a) w = true -> In a w).
  { intros a w H. apply existsb_exists in H. destruct H as (x & Hx & E).
    apply N.eqb_eq in E. subst x. exact Hx. }
  split.
  - intros e Hf. apply scan_sound in Hf. destruct Hf as [Hd Hsub].
    split; [exact Hsub|].
    destruct (denota_len Hd) as [Hmin _]. cbn in Hmin.
    split; [unfold len; lia|].
    split; [apply Hin, (denota_exige _ Hd He)|].
    split.
    + apply Hin, (denota_exige _ Hd). cbn. do 4 right. left.
      intros c Hc. exact Hc.
    + apply (denota_solo _ Hd).
      cbn [Re.solo Patrones.PATRON_EMAIL Re.Plus].
      repeat split; intros c Hc;
        unfold permitido, Patrones.o, Patrones.letra_o_cifra, Patrones.o,
          Patrones.uno_de in *;
        cbn [existsb] in *; rewrite ?orb_false_r in *;
        repeat match type of Hc with
               | (_ || _ = true) =>
                   apply orb_prop in Hc; destruct Hc as [Hc|Hc]
               end;
        first [rewrite Hc | rewrite N.eqb_sym in Hc; rewrite Hc];
        rewrite ?orb_true_r; reflexivity.
  - intros Hn. apply (findall_vacio _ _ (N.eqb 64%N)); [exact He|].
    destruct (existsb (N.eqb 64%N) texto) eqn:E; [|exact E || reflexivity].
    exfalso. apply Hn, Hin, E.
Qed.

(** ** Loading spaCy *)

Lemma probar_primero {Modelo} (sp : Carga.Spacy Modelo)
  (antes : list str) m (despues : list str) nlp :
  (forall m', In m' antes -> exists e, Carga.load sp m' = Raise e) ->
  Carga.load sp m = Ok nlp ->
  Carga.probar sp (antes ++ m :: despues)
  = Some (if negb (str_in (lit "sentencizer") (Carga.pipe_names sp nlp))
          then Carga.con_sentencizer sp nlp else nlp).
Proof.
  intros Ha Hm. induction antes as [|a r IH]; simpl.
  - rewrite Hm. reflexivity.
  - destruct (Ha a (or_introl eq_refl)) as [e ->].
    apply IH. intros m' Hm'. apply Ha. right. exact Hm'.
Qed.

Lemma probar_ninguno {Modelo} (sp : Carga.Spacy Modelo) (nombres : list str) :
  (forall m, In m nombres -> exists e, Carga.load sp m = Raise e) ->
  Carga.probar sp nombres = None.
Proof.
  induction nombres as [|a r IH]; intros H; simpl; [reflexivity|].
  destruct (H a (or_introl eq_refl)) as [e ->].
  apply IH. intros m Hm. apply H. right. exact Hm.
Qed.

(** X16: [cargar_modelo_spacy] returns [None] only when spaCy is missing,
    after a warning on the console; otherwise the pipeline is the first
    model of the list es_core_news_sm, es_core_news_md, xx_sent_ud_sm that
    loads, left as it is when it already has a sentencizer or when adding
    one fails; and when no model loads, the blank Spanish pipeline.  It
    reads nothing from the console. *)
Theorem carga_del_primer_modelo {Modelo} (sp : Carga.Spacy Modelo)
  (c : Entrada.Consola) :
  (exists c', Carga.cargar_modelo_spacy (@None (Carga.Spacy Modelo)) c
              = Ok (None, c')
              /\ Entrada.pendientes c' = Entrada.pendientes c
              /\ length (Entrada.impreso c')
                 = S (length (Entrada.impreso c)))
  /\ (forall r c', Carga.cargar_modelo_spacy (Some sp) c = Ok (r, c') ->
        r <> None /\ c' = c)
  /\ (forall antes m despues nlp,
        Carga.modelos = antes ++ m :: despues ->
        (forall m', In m' antes -> exists e, Carga.load sp m' = Raise e) ->
        Carga.load sp m = Ok nlp ->
        exists nlp',
          Carga.cargar_modelo_spacy (Some sp) c = Ok (Some nlp', c)
          /\ (nlp' = nlp
              \/ Carga.add_pipe sp (lit "sentencizer") nlp = Ok nlp')
          /\ (In (lit "sentencizer") (Carga.pipe_names sp nlp) -> nlp' = nlp)
          /\ (forall e, Carga.add_pipe sp (lit "sentencizer") nlp = Raise e ->
                        nlp' = nlp))
  /\ ((forall m, In m Carga.modelos -> exists e, Carga.load sp m = Raise e) ->
      Carga.cargar_modelo_spacy (Some sp) c
      = match Carga.blank sp (lit "es") with
        | Ok nlp => Ok (Some (Carga.con_sentencizer sp nlp), c)
        | Raise e => Raise e
        end).
Proof.
  split; [|split; [|split]].
  - eexists. split; [reflexivity|]. split; [reflexivity|].
    cbn [Entrada.impreso]. rewrite length_app. simpl. lia.
  - intros r c' H. unfold Carga.cargar_modelo_spacy in H.
    destruct (Carga.probar sp Carga.modelos).
    + cbv [Entrada.ret] in H. injection H as <- <-.
      split; [discriminate | reflexivity].
    + destruct (Carga.blank sp (lit "es")); [|discriminate].
      injection H as <- <-. split; [discriminate | reflexivity].
  - intros antes m despues nlp E Ha Hm.
    unfold Carga.cargar_modelo_spacy. rewrite E.
    rewrite (@probar_primero _ sp antes m despues nlp Ha Hm).
    eexists. split; [reflexivity|].
    unfold Carga.con_sentencizer.
    destruct (str_in (lit "sentencizer") (Carga.pipe_names sp nlp)) eqn:Es;
      simpl.
    + repeat split; auto.
    + destruct (Carga.add_pipe sp (lit "sentencizer") nlp) eqn:Ea.
      * split; [right; reflexivity|]. split; [|discriminate].
        intros Hin. exfalso.
        assert (Ht : str_in (lit "sentencizer") (Carga.pipe_names sp nlp)
                     = true).
        { unfold str_in. apply existsb_exists.
          exists (lit "sentencizer"). split; [exact Hin|].
          apply str_eqb_eq. reflexivity. }
        congruence.
      * repeat split; auto.
  - intros H. unfold Carga.cargar_modelo_spacy.
    rewrite (@probar_ninguno _ sp Carga.modelos H). reflexivity.
Qed.

(** ** Asking for the text *)

Section EntradaFacts.
Variable archivos : str -> option (exc str).

Lemma pedir_manual_ok (c : Entrada.Consola) l r :
  Entrada.pendientes c = l :: r ->
  exists c', Entrada.pedir_manual c = Ok (l, c')
             /\ Entrada.pendientes c' = r.
Proof.
  intros E. unfold Entrada.pedir_manual, Entrada.input. rewrite E.
  eexists. split; reflexivity.
Qed.

Lemma pedir_manual_inv (c c' : Entrada.Consola) t :
  Entrada.pedir_manual c = Ok (t, c') ->
  Entrada.pendientes c = t :: Entrada.pendientes c'.
Proof.
  unfold Entrada.pedir_manual, Entrada.input.
  destruct (Entrada.pendientes c); [discriminate|].
  intros H. injection H as <- <-. reflexivity.
Qed.

Lemma leer_archivo_inv (ruta : str) (c c' : Entrada.Consola) r :
  Entrada.leer_archivo archivos ruta c = Ok (r, c') ->
  Entrada.pendientes c' = Entrada.pendientes c
  /\ match r with
     | Some t => archivos ruta = Some (Ok t)
     | None => archivos ruta = None \/ exists e, archivos ruta = Some (Raise e)
     end.
Proof.
  unfold Entrada.leer_archivo.
  destruct (archivos ruta) as [[t|e]|]; cbv [Entrada.seguido Entrada.print
    Entrada.ret]; intros H; injection H as <- <-; simpl; eauto.
Qed.

Lemma leer_archivo_total (ruta : str) (c : Entrada.Consola) :
  exists r c', Entrada.leer_archivo archivos ruta c = Ok (r, c').
Proof.
  unfold Entrada.leer_archivo.
  destruct (archivos ruta) as [[t|e]|]; cbv [Entrada.seguido Entrada.print
    Entrada.ret]; eauto.
Qed.

(** What a returning call has read: at least one line, at most two per
    turn and one more; the text is one of the lines read or the content of
    a file. *)
Lemma obtener_texto_desde_inv (intentos : nat) :
  forall c c' texto,
    Entrada.obtener_texto_desde archivos intentos c = Ok (texto, c') ->
    exists leidas,
      Entrada.pendientes c = leidas ++ Entrada.pendientes c'
      /\ (1 <= length leidas <= 2 * intentos + 1)%nat
      /\ (intentos <> 0%nat -> 2 <= length leidas)%nat
      /\ (last leidas [] = texto
          \/ exists ruta, archivos ruta = Some (Ok texto)).
Proof.
  induction intentos as [|n IH]; intros c c' texto H.
  - apply pedir_manual_inv in H. exists [texto].
    repeat split; simpl; auto; try lia; try congruence.
  - cbn [Entrada.obtener_texto_desde] in H.
    cbv [Entrada.seguido Entrada.print] in H.
    unfold Entrada.input at 1 in H. cbn [Entrada.pendientes Entrada.impreso] in H.
    destruct (Entrada.pendientes c) as [|l1 r1] eqn:E1; [discriminate|].
    destruct (str_eqb (strip l1) (lit "1")).
    + apply pedir_manual_inv in H. cbn [Entrada.pendientes] in H.
      exists [l1; texto]. rewrite H.
      repeat split; simpl; auto; lia.
    + destruct (str_eqb (strip l1) (lit "2")).
      * unfold Entrada.input at 1 in H.
        cbn [Entrada.pendientes Entrada.impreso] in H.
        destruct r1 as [|l2 r2]; [discriminate|].
        match type of H with
        | context [Entrada.leer_archivo archivos ?ruta ?c0] =>
            destruct (Entrada.leer_archivo archivos ruta c0)
              as [[[t|] c1]|e] eqn:El
        end; [| |discriminate].
        -- apply leer_archivo_inv in El. destruct El as [Ep Ef].
           cbv [Entrada.ret] in H. injection H as <- <-.
           exists [l1; l2]. rewrite Ep. cbn [Entrada.pendientes].
           repeat split; simpl; auto; try lia. right. eauto.
        -- apply leer_archivo_inv in El. destruct El as [Ep _].
           cbn [Entrada.pendientes] in Ep.
           apply IH in H. destruct H as (leidas & Hp & Hl & _ & Ht).
           cbn [Entrada.pendientes] in Hp. rewrite Ep in Hp.
           exists (l1 :: l2 :: leidas). rewrite Hp.
           repeat split; simpl; try lia.
           destruct Ht as [Ht|Ht]; [left|right; exact Ht].
           destruct leidas; [simpl in Hl; lia | exact Ht].
      * apply IH in H. destruct H as (leidas & Hp & Hl & _ & Ht).
        cbn [Entrada.pendientes] in Hp.
        exists (l1 :: leidas). rewrite Hp.
        repeat split; simpl; try lia.
        destruct Ht as [Ht|Ht]; [left|right; exact Ht].
        destruct leidas; [simpl in Hl; lia | exact Ht].
Qed.

(** With two lines per turn and one more at hand, no call raises. *)
Lemma obtener_texto_desde_total (intentos : nat) :
  forall c,
    (2 * intentos + 1 <= length (Entrada.pendientes c))%nat ->
    exists texto c',
      Entrada.obtener_texto_desde archivos intentos c = Ok (texto, c').
Proof.
  induction intentos as [|n IH]; intros c Hc.
  - cbn [Entrada.obtener_texto_desde].
    destruct (Entrada.pendientes c) as [|l r] eqn:E; [simpl in Hc; lia|].
    destruct (pedir_manual_ok c E) as (c' & H & _). eauto.
  - cbn [Entrada.obtener_texto_desde].
    cbv [Entrada.seguido Entrada.print].
    unfold Entrada.input at 1. cbn [Entrada.pendientes Entrada.impreso].
    destruct (Entrada.pendientes c) as [|l1 r1] eqn:E1; [simpl in Hc; lia|].
    destruct r1 as [|l2 r2]; [simpl in Hc; lia|].
    destruct (str_eqb (strip l1) (lit "1")).
    + unfold Entrada.pedir_manual, Entrada.input. cbn [Entrada.pendientes].
      eauto.
    + destruct (str_eqb (strip l1) (lit "2")).
      * unfold Entrada.input at 1.
        cbn [Entrada.pendientes Entrada.impreso].
        match goal with
        | |- context [Entrada.leer_archivo archivos ?ruta ?c0] =>
            destruct (leer_archivo_total ruta c0) as (r & c1 & El);
            pose proof (leer_archivo_inv _ _ El) as [Ep _]
        end.
        cbn [Entrada.pendientes] in Ep. rewrite El.
        destruct r as [t|]; [cbv [Entrada.ret]; eauto|].
        apply IH. cbn [Entrada.pendientes]. rewrite Ep.
        simpl in Hc |- *. lia.
      * apply IH. cbn [Entrada.pendientes]. simpl in Hc |- *. lia.
Qed.

End EntradaFacts.

(** X17: a call of [obtener_texto] that returns has read at least two and
    at most seven lines from the console, and the text it returns is the
    last line it read, as typed, or the content of a file that could be
    read. *)
Theorem obtener_texto_lee_poco archivos (c c' : Entrada.Consola) texto :
  Entrada.obtener_texto archivos c = Ok (texto, c') ->
  exists leidas,
    Entrada.pendientes c = leidas ++ Entrada.pendientes c'
    /\ (2 <= length leidas <= 7)%nat
    /\ (last leidas [] = texto
        \/ exists ruta, archivos ruta = Some (Ok texto)).
Proof.
  intros H. apply obtener_texto_desde_inv in H.
  destruct H as (leidas & Hp & Hl & Hm & Ht).
  exists leidas. repeat split; try assumption; lia.
Qed.

(** X18: with seven lines to read [obtener_texto] returns a text whatever
    is typed and whatever the files are: after three turns without a text
    it takes the next line as the text. *)
Theorem obtener_texto_termina archivos (c : Entrada.Consola) :
  (7 <= length (Entrada.pendientes c))%nat ->
  exists texto c', Entrada.obtener_texto archivos c = Ok (texto, c').
Proof.
  intros H. apply obtener_texto_desde_total. simpl. exact H.
Qed.

(** ** The menu *)

Section MenuFacts.
Variable lower : str -> str.
Variable alnum : char -> bool.
Variable isdigit : char -> bool.
Variable nltk : option WordChef.Nltk.
Variable archivos : str -> option (exc str).
Variable repr : Menu.PyVal -> str.
Variable formato_4f : Q -> str.
Variable nlp : option Language.
Variable clasificador : option WordChef.Clasificador.


Lemma marco_refl texto n w : Menu.marco texto n w w.
Proof.
  split; [reflexivity|]. exists []. rewrite app_nil_r.
  repeat split; simpl; [lia | contradiction].
Qed.

Lemma marco_trans texto n m w1 w2 w3 :
  Menu.marco texto n w1 w2 -> Menu.marco texto m w2 w3 -> Menu.marco texto (n + m) w1 w3.
Proof.
  intros [P1 (e1 & R1 & L1 & T1)] [P2 (e2 & R2 & L2 & T2)].
  split; [congruence|]. exists (e1 ++ e2).
  rewrite R2, R1, app_assoc. repeat split.
  - rewrite length_app. lia.
  - intros r Hr. apply in_app_or in Hr. destruct Hr; auto.
Qed.

Lemma print_marco texto args w :
  exists w', Menu.print repr args w = Ok (tt, w') /\ Menu.marco texto 0 w w'.
Proof.
  eexists. split; [reflexivity|]. split; [reflexivity|].
  exists []. cbn. rewrite app_nil_r. repeat split; [lia | contradiction].
Qed.

Lemma log_marco tipo texto v w :
  exists w', Menu.log tipo texto v w = Ok (tt, w') /\ Menu.marco texto 1 w w'
             /\ Menu.registros w' = Menu.registros w ++ [(tipo, texto, v)].
Proof.
  eexists. split; [reflexivity|]. split; [|reflexivity].
  split; [reflexivity|]. exists [(tipo, texto, v)].
  repeat split; [simpl; lia|]. intros r [<-|[]]. reflexivity.
Qed.

Lemma luego_marco {A B} texto n m (f : Menu.M A) (k : A -> Menu.M B) w w' b :
  (forall a w1, f w = Ok (a, w1) -> Menu.marco texto n w w1) ->
  (forall a w1 w2, k a w1 = Ok (b, w2) -> Menu.marco texto m w1 w2) ->
  Menu.luego f k w = Ok (b, w') -> Menu.marco texto (n + m) w w'.
Proof.
  intros Hf Hk H. unfold Menu.luego in H.
  destruct (f w) as [[a w1]|e] eqn:E; [|discriminate].
  eapply marco_trans; [eapply Hf; reflexivity | eapply Hk; exact H].
Qed.

Lemma luego_marco_de {A B} texto n m (f : Menu.M A) (k : A -> Menu.M B)
  w w' b :
  Menu.luego f k w = Ok (b, w') ->
  (forall a w1, f w = Ok (a, w1) -> Menu.marco texto n w w1) ->
  (forall a w1 w2, k a w1 = Ok (b, w2) -> Menu.marco texto m w1 w2) ->
  Menu.marco texto (n + m) w w'.
Proof. intros H Hf Hk. eapply luego_marco; eassumption. Qed.

Lemma llamar_marco {A} texto (r : exc A) w a w1 :
  Menu.llamar r w = Ok (a, w1) -> Menu.marco texto 0 w w1.
Proof.
  unfold Menu.llamar. destruct r; [|discriminate].
  intros H. injection H as _ <-. apply marco_refl.
Qed.

Lemma print_marco_inv texto args w u w1 :
  Menu.print repr args w = Ok (u, w1) -> Menu.marco texto 0 w w1.
Proof.
  destruct (print_marco texto args w) as (w' & E & Hm).
  rewrite E. intros H. injection H as _ <-. exact Hm.
Qed.

Lemma log_marco_inv tipo texto v w u w1 :
  Menu.log tipo texto v w = Ok (u, w1) -> Menu.marco texto 1 w w1.
Proof.
  destruct (log_marco tipo texto v w) as (w' & E & Hm & _).
  rewrite E. intros H. injection H as _ <-. exact Hm.
Qed.

Lemma marco_mono texto n m w w' :
  (n <= m)%nat -> Menu.marco texto n w w' -> Menu.marco texto m w w'.
Proof.
  intros Hnm [P (e & R & L & T)]. split; [exact P|].
  exists e. repeat split; [exact R | lia | exact T].
Qed.

Lemma imprimir_entidades_marco texto (d : dict (list str)) :
  forall (m : Menu.M unit),
    (forall w u w1, m w = Ok (u, w1) -> Menu.marco texto 0 w w1) ->
    forall w u w1,
      fold_left
        (fun m kv =>
           Menu.luego m (fun _ =>
           Menu.print_linea repr
             (fst kv ++ lit ": " ++
              (if truthy (snd kv) then repr (Menu.vstrs (snd kv))
               else lit "Ninguno detectado"))))
        d m w = Ok (u, w1) ->
      Menu.marco texto 0 w w1.
Proof.
  induction d as [|kv r IH]; intros m Hm w u w1 H; simpl in H.
  - eapply Hm, H.
  - eapply IH; [|exact H]. intros w0 u0 w2 H0.
    apply (@luego_marco _ _ texto 0 0 _ _ _ _ _) in H0; [exact H0| |].
    + intros a w3 E. eapply Hm, E.
    + intros a w3 w4 E. eapply print_marco_inv, E.
Qed.

End MenuFacts.

Ltac correr H :=
  cbv [Menu.luego Menu.print Menu.print_linea Menu.lift Menu.log Menu.ret
       Menu.llamar Entrada.print Menu.consola Menu.registros
       Entrada.pendientes Entrada.impreso] in H.

Ltac marco_hecho :=
  split; [reflexivity|]; cbn [Menu.registros];
  first [ exists []; split; [symmetry; apply app_nil_r|];
          split; [simpl; lia | contradiction]
        | eexists; split; [reflexivity|];
          split; [simpl; lia|];
          let r := fresh "r" in
          intros r [<-|[]]; reflexivity ].

(** X19: whatever the option, the branch of the menu that handles it reads
    nothing from the console and makes at most one call to [logger.log],
    with the text that was analysed. *)
Theorem atender_registra_una_vez
  lower alnum isdigit nltk repr formato_4f nlp clasificador
  (opcion texto : str) (w w' : Menu.Mundo) :
  Menu.atender lower alnum isdigit nltk repr formato_4f nlp clasificador
    opcion texto w = Ok (tt, w') ->
  Menu.marco texto 1 w w'.
Proof.
  unfold Menu.atender. intros H.
  destruct (str_eqb opcion (lit "1")).
  { destruct (WordChef.normalizador_texto lower texto nlp) as [[r|]|e];
      correr H; [| |discriminate]; injection H as <-; marco_hecho. }
  destruct (str_eqb opcion (lit "2")).
  { cbv zeta in H. correr H. injection H as <-. marco_hecho. }
  destruct (str_eqb opcion (lit "3")).
  { destruct (WordChef.resumen_simple alnum texto 3 nlp) as [r|e];
      correr H; [|discriminate]; injection H as <-; marco_hecho. }
  destruct (str_eqb opcion (lit "4")).
  { eapply marco_mono;
      [| eapply (@luego_marco_de _ _ texto 0%nat 1%nat _ _ _ _ _ H)]; [lia| |].
    - intros a w1 E. unfold Menu.entidades_con_aviso in E.
      destruct nlp as [p|].
      + destruct (WordChef.extraer_entidades texto (Some p)); correr E;
          [|discriminate]. injection E as _ <-. marco_hecho.
      + correr E. cbn in E. injection E as _ <-. marco_hecho.
    - intros a w1 w2 E.
      eapply marco_mono;
        [| eapply (@luego_marco_de _ _ texto 0%nat 1%nat _ _ _ _ _ E)];
        [lia| |].
      + intros a0 w3 E0. eapply imprimir_entidades_marco; [|exact E0].
        intros w4 u w5 E1. correr E1. injection E1 as _ <-. marco_hecho.
      + intros a0 w3 w4 E0. correr E0. injection E0 as <-. marco_hecho. }
  destruct (str_eqb opcion (lit "5")).
  { destruct (WordChef.extraer_palabras_clave lower alnum nltk texto nlp)
      as [[r|]|e]; correr H; [| |discriminate]; injection H as <-;
      marco_hecho. }
  destruct (str_eqb opcion (lit "6")).
  { destruct (WordChef.sentimiento_es texto clasificador) as [[s sc] raw].
    destruct (str_eqb s (lit "Error")); correr H; injection H as <-;
      marco_hecho. }
  correr H. injection H as <-. marco_hecho.
Qed.

Ltac decidir :=
  repeat match goal with
         | |- context [str_eqb (lit ?a) (lit ?b)] =>
             let v := eval vm_compute in (str_eqb (lit a) (lit b)) in
             change (str_eqb (lit a) (lit b)) with v
         end;
  cbv iota.

(** X20: on a blank text the branches of the normaliser and of the
    keywords print nothing and log nothing, while the branches of the
    summary and of the sentiment log the message "Error: texto vacio." as
    their result. *)
Theorem atender_texto_en_blanco
  lower alnum isdigit nltk repr formato_4f nlp clasificador
  (texto : str) (w : Menu.Mundo) :
  forallb isspace texto = true ->
  let atender :=
    Menu.atender lower alnum isdigit nltk repr formato_4f nlp clasificador in
  atender (lit "1") texto w = Ok (tt, w)
  /\ atender (lit "5") texto w = Ok (tt, w)
  /\ (exists w', atender (lit "3") texto w = Ok (tt, w')
                 /\ Menu.registros w'
                    = Menu.registros w
                      ++ [(lit "Resumen", texto,
                           Menu.VDicc [(lit "Resumen",
                                        Menu.VStr WordChef.error_texto_vacio)])])
  /\ (exists w', atender (lit "6") texto w = Ok (tt, w')
                 /\ Menu.registros w'
                    = Menu.registros w
                      ++ [(lit "Sentimiento", texto,
                           Menu.VDicc
                             [(lit "Sentimiento",
                               Menu.VStr WordChef.error_texto_vacio);
                              (lit "Confianza", Menu.VStr (formato_4f 0%Q));
                              (lit "Etiqueta", Menu.VStr [])])]).
Proof.
  intros Hb atender.
  destruct (@texto_blanco_guardas lower alnum nltk texto nlp 3 clasificador Hb)
    as (H1 & H5 & H3 & H6).
  unfold atender, Menu.atender. decidir.
  rewrite H1, H5, H3, H6.
  assert (E : str_eqb WordChef.error_texto_vacio (lit "Error") = false)
    by reflexivity.
  rewrite E.
  split; [reflexivity|]. split; [reflexivity|].
  split; eexists; (split; [reflexivity|]); reflexivity.
Qed.

Lemma mostrar_menu_marco repr (w : Menu.Mundo) :
  exists w1, Menu.mostrar_menu repr w = Ok (tt, w1)
             /\ Entrada.pendientes (Menu.consola w1)
                = Entrada.pendientes (Menu.consola w)
             /\ Menu.registros w1 = Menu.registros w.
Proof.
  eexists. split; [reflexivity|]. split; reflexivity.
Qed.

Section BucleFacts.
Variable lower : str -> str.
Variable alnum : char -> bool.
Variable isdigit : char -> bool.
Variable nltk : option WordChef.Nltk.
Variable archivos : str -> option (exc str).
Variable repr : Menu.PyVal -> str.
Variable formato_4f : Q -> str.
Variable nlp : option Language.
Variable clasificador : option WordChef.Clasificador.

(** One turn of the loop, once the menu is shown and the option read. *)
Lemma menu_bucle_turno (vueltas : nat) (w : Menu.Mundo) l resto :
  Entrada.pendientes (Menu.consola w) = l :: resto ->
  exists w1,
    Entrada.pendientes (Menu.consola w1) = resto
    /\ Menu.registros w1 = Menu.registros w
    /\ Menu.menu_bucle lower alnum isdigit nltk archivos repr formato_4f nlp
         clasificador (S vueltas) w
       = (let opcion := strip l in
          if str_eqb opcion (lit "0")
          then Menu.print_linea repr (lit "Saliendo.")
          else if negb (contains opcion (lit "123456")) then
            Menu.luego
              (Menu.print_linea repr
                 (lit "Opci" ++ [Menu.o_acute] ++ lit "n no v"
                  ++ [Menu.a_acute] ++ lit "lida, intenta de nuevo."))
              (fun _ => Menu.menu_bucle lower alnum isdigit nltk archivos repr
                          formato_4f nlp clasificador vueltas)
          else
            Menu.luego (Menu.lift (Entrada.solicitar_texto archivos))
              (fun texto =>
               Menu.luego
                 (Menu.atender lower alnum isdigit nltk repr formato_4f nlp
                    clasificador opcion texto)
                 (fun _ => Menu.menu_bucle lower alnum isdigit nltk archivos
                             repr formato_4f nlp clasificador vueltas))) w1.
Proof.
  intros E. cbn [Menu.menu_bucle].
  destruct (mostrar_menu_marco repr w) as (w0 & E0 & P0 & R0).
  unfold Menu.luego at 1. rewrite E0.
  unfold Menu.luego at 1. unfold Menu.lift at 1, Entrada.input.
  rewrite P0, E.
  eexists. split; [|split]; [| |reflexivity]; [reflexivity | exact R0].
Qed.

End BucleFacts.

(** X21: when the line typed at the menu is 0, the loop ends: nothing more
    is read, nothing is logged, and the last line printed is "Saliendo.". *)
Theorem menu_salir
  lower alnum isdigit nltk archivos repr formato_4f nlp clasificador
  (vueltas : nat) (w : Menu.Mundo) l resto :
  Entrada.pendientes (Menu.consola w) = l :: resto ->
  strip l = lit "0" ->
  exists w',
    Menu.menu_bucle lower alnum isdigit nltk archivos repr formato_4f nlp
      clasificador (S vueltas) w = Ok (tt, w')
    /\ Entrada.pendientes (Menu.consola w') = resto
    /\ Menu.registros w' = Menu.registros w
    /\ last (Entrada.impreso (Menu.consola w')) [] = lit "Saliendo.".
Proof.
  intros E H0.
  destruct (menu_bucle_turno lower alnum isdigit nltk archivos repr
              formato_4f nlp clasificador vueltas w E) as (w1 & P1 & R1 & ->).
  cbv zeta. rewrite H0. decidir.
  eexists. split; [reflexivity|].
  cbn [Menu.consola Menu.registros Entrada.pendientes Entrada.impreso].
  split; [exact P1|]. split; [exact R1|]. apply last_last.
Qed.

(** X22: a line that is not 0 and is not a piece of "123456" is refused:
    the turn prints "Opcion no valida, intenta de nuevo.", asks for no text,
    logs nothing, and the menu is shown again. *)
Theorem menu_opcion_no_valida
  lower alnum isdigit nltk archivos repr formato_4f nlp clasificador
  (vueltas : nat) (w : Menu.Mundo) l resto :
  Entrada.pendientes (Menu.consola w) = l :: resto ->
  strip l <> lit "0" ->
  contains (strip l) (lit "123456") = false ->
  exists w1,
    Menu.menu_bucle lower alnum isdigit nltk archivos repr formato_4f nlp
      clasificador (S vueltas) w
    = Menu.menu_bucle lower alnum isdigit nltk archivos repr formato_4f nlp
        clasificador vueltas w1
    /\ Entrada.pendientes (Menu.consola w1) = resto
    /\ Menu.registros w1 = Menu.registros w
    /\ last (Entrada.impreso (Menu.consola w1)) []
       = lit "Opci" ++ [Menu.o_acute] ++ lit "n no v" ++ [Menu.a_acute]
         ++ lit "lida, intenta de nuevo.".
Proof.
  intros E H0 Hc.
  destruct (menu_bucle_turno lower alnum isdigit nltk archivos repr
              formato_4f nlp clasificador vueltas w E) as (w1 & P1 & R1 & ->).
  cbv zeta. rewrite Hc.
  destruct (str_eqb (strip l) (lit "0")) eqn:E0;
    [apply str_eqb_eq in E0; contradiction|].
  cbv [negb]. eexists. split; [reflexivity|].
  cbn [Menu.consola Menu.registros Entrada.pendientes Entrada.impreso].
  split; [exact P1|]. split; [exact R1|]. apply last_last.
Qed.

(** X23: a line that is a piece of "123456" without being one of its six
    digits, the empty line among them, is accepted: the text is asked for,
    and then nothing is analysed, printed or logged before the menu is shown
    again. *)
Theorem menu_opcion_sin_efecto
  lower alnum isdigit nltk archivos repr formato_4f nlp clasificador
  (vueltas : nat) (w : Menu.Mundo) l resto :
  Entrada.pendientes (Menu.consola w) = l :: resto ->
  contains (strip l) (lit "123456") = true ->
  ~ In (strip l) [lit "1"; lit "2"; lit "3"; lit "4"; lit "5"; lit "6"] ->
  exists w1,
    Menu.menu_bucle lower alnum isdigit nltk archivos repr formato_4f nlp
      clasificador (S vueltas) w
    = Menu.luego (Menu.lift (Entrada.solicitar_texto archivos))
        (fun _ => Menu.menu_bucle lower alnum isdigit nltk archivos repr
                    formato_4f nlp clasificador vueltas) w1
    /\ Entrada.pendientes (Menu.consola w1) = resto
    /\ Menu.registros w1 = Menu.registros w.
Proof.
  intros E Hc Hn.
  destruct (menu_bucle_turno lower alnum isdigit nltk archivos repr
              formato_4f nlp clasificador vueltas w E) as (w1 & P1 & R1 & ->).
  cbv zeta. rewrite Hc.
  destruct (str_eqb (strip l) (lit "0")) eqn:E0.
  { apply str_eqb_eq in E0. rewrite E0 in Hc. discriminate Hc. }
  cbv [negb]. exists w1. split; [|split; assumption].
  unfold Menu.luego. destruct (Menu.lift _ w1) as [[texto w2]|e]; [|reflexivity].
  unfold Menu.atender.
  repeat match goal with
         | |- context [str_eqb (strip l) (lit ?d)] =>
             let Ed := fresh "Ed" in
             destruct (str_eqb (strip l) (lit d)) eqn:Ed;
             [apply str_eqb_eq in Ed; exfalso; apply Hn; rewrite Ed;
              simpl; tauto|]
         end.
  reflexivity.
Qed.

(** ** The further properties on concrete inputs *)

Lemma top_5_palabras_correctas_witness :
  exists r,
    WordChef.extraer_palabras_clave Ejemplos.lower Ejemplos.alnum
      (Some Casos.nltk_simple) Casos.texto_casas None = Ok (Some r)
    /\ WordChef.top_5_palabras r
       = [(lit "casa", 2); (lit "perro", 1); (lit "mira", 1)]
    /\ NoDup (map fst (WordChef.top_5_palabras r)).
Proof.
  eexists. split; [reflexivity|]. split; [reflexivity|].
  apply (@top_5_palabras_correctas Ejemplos.lower Ejemplos.alnum
           Casos.nltk_simple Casos.texto_casas None _ eq_refl).
Defined.

Lemma sustantivos_y_verbos_correctos_witness :
  exists r,
    WordChef.extraer_palabras_clave Ejemplos.lower Ejemplos.alnum None
      Casos.texto_casas (Some (Ejemplos.siempre Casos.doc_casas))
    = Ok (Some r)
    /\ WordChef.sustantivos r = [(lit "casa", 2); (lit "perro", 1)]
    /\ NoDup (map fst (WordChef.verbos r)).
Proof.
  eexists. split; [reflexivity|]. split; [reflexivity|].
  apply (@sustantivos_y_verbos_correctos Ejemplos.lower Ejemplos.alnum None
           Casos.texto_casas (Ejemplos.siempre Casos.doc_casas)
           Casos.doc_casas _ eq_refl eq_refl).
Defined.

Lemma top_palabras_mejoradas_witness :
  exists r regs,
    Mejoras.extraer_palabras_clave (fun s => s) Ejemplos.lower Ejemplos.alnum
      (Some Casos.nltk_simple) Casos.texto_casas None 2 6 = (Some r, regs)
    /\ Mejoras.top_5_palabras r = [(lit "casa", 2); (lit "perro", 1)]
    /\ NoDup (map fst (Mejoras.top_5_palabras r)).
Proof.
  eexists. eexists. split; [reflexivity|]. split; [reflexivity|].
  apply (@top_palabras_mejoradas (fun s => s) Ejemplos.lower Ejemplos.alnum
           (Some Casos.nltk_simple) Casos.texto_casas None 2 6 _ _ eq_refl).
Defined.

Lemma fallo_de_spacy_tolerado_witness :
  fst (Mejoras.extraer_palabras_clave (fun s => s) Ejemplos.lower
         Ejemplos.alnum None Casos.texto_casas (Some Casos.falla) 5 6)
  = fst (Mejoras.extraer_palabras_clave (fun s => s) Ejemplos.lower
           Ejemplos.alnum None Casos.texto_casas None 5 6).
Proof.
  apply (@fallo_de_spacy_tolerado (fun s => s) Ejemplos.lower Ejemplos.alnum
           None Casos.texto_casas Casos.falla (lit "sin modelo") 5 6 eq_refl).
Defined.

Lemma registro_de_la_extraccion_witness :
  exists r errores,
    Mejoras.extraer_palabras_clave (fun s => s) Ejemplos.lower Ejemplos.alnum
      None Casos.texto_casas (Some Casos.falla) 5 6
    = (Some r,
       errores ++ [Mejoras.Info
                     (lit "Extracci" ++ [243%N]
                      ++ lit "n de Palabras Clave (mejorada)")
                     (firstn 120 Casos.texto_casas) r]).
Proof.
  destruct (@registro_de_la_extraccion (fun s => s) Ejemplos.lower
              Ejemplos.alnum None Casos.texto_casas (Some Casos.falla) 5 6
              eq_refl) as (r & errores & H & _).
  exists r, errores. exact H.
Defined.

Lemma frases_clave_sin_repetir_witness :
  exists r regs,
    Ejemplos.mejoras Ejemplos.texto_frases Ejemplos.doc_frases 5 6
      = (Some r, regs)
    /\ map fst (Mejoras.frases_clave r) = [lit "casa campo"; lit "rio"]
    /\ NoDup (map fst (Mejoras.frases_clave r)).
Proof.
  eexists. eexists. split; [reflexivity|]. split; [reflexivity|].
  apply (@frases_clave_sin_repetir (fun s => s) Ejemplos.lower Ejemplos.alnum
           None Ejemplos.texto_frases (Ejemplos.siempre Ejemplos.doc_frases)
           Ejemplos.doc_frases 5 6 _ _ eq_refl eq_refl).
Defined.

Lemma fragmentos_acotados_witness :
  len (SessionLogger.entrada_truncada Ejemplos.ciento_uno) <= 103
  /\ SessionLogger.entrada_truncada (lit "hola") = lit "hola".
Proof.
  split.
  - apply (fragmentos_acotados Ejemplos.ciento_uno).
  - apply (fragmentos_acotados (lit "hola")). vm_compute. discriminate.
Defined.

Lemma sin_repeticiones_sin_vecinas_witness :
  exists n,
    WordChef.normalizador_texto Ejemplos.lower (lit "el el El perro perro ladra")
      None = Ok (Some n)
    /\ WordChef.sin_repeticiones n = lit "el perro ladra"
    /\ exists palabras,
         WordChef.sin_repeticiones n = join (lit " ") palabras
         /\ Vecinas.distintas Ejemplos.lower palabras.
Proof.
  eexists. split; [reflexivity|]. split; [reflexivity|].
  destruct (@sin_repeticiones_sin_vecinas Ejemplos.lower
              (lit "el el El perro perro ladra") None _ eq_refl)
    as (palabras & H1 & H2 & _).
  exists palabras. split; assumption.
Defined.

Lemma corregir_palabras_texto_limpio_witness :
  WordChef.corregir_palabras Ejemplos.lower (Some Casos.doc_limpio)
  = lit "un perro corre".
Proof.
  rewrite (@corregir_palabras_texto_limpio Ejemplos.lower Casos.doc_limpio).
  - reflexivity.
  - intros t Ht. simpl in Ht.
    repeat (destruct Ht as [<-|Ht]; [split; reflexivity|]). contradiction.
  - simpl. repeat split; discriminate.
Defined.

Lemma resumen_sin_puntos_witness :
  ~ In 46%N (lit "uno dos tres cinco seis").
Proof.
  apply (@resumen_sin_puntos Ejemplos.alnum Ejemplos.tres_oraciones 2 _
           eq_refl).
  - vm_compute. reflexivity.
  - reflexivity.
Defined.

Lemma resumen_de_cero_oraciones_witness :
  WordChef.resumen_simple Ejemplos.alnum Ejemplos.tres_oraciones 0 None
  = Ok [].
Proof.
  apply (@resumen_de_cero_oraciones Ejemplos.alnum Ejemplos.tres_oraciones
           eq_refl).
Defined.

Lemma fechas_encontradas_witness :
  Patrones.encontrar_fechas Casos.isdigit Casos.is_word Casos.texto_prueba
    = [lit "15/03/1995"]
  /\ Patrones.encontrar_fechas Casos.isdigit Casos.is_word (lit "sin cifras")
     = [].
Proof.
  split; [reflexivity|].
  apply (fechas_encontradas Casos.isdigit Casos.is_word (lit "sin cifras")).
  reflexivity.
Defined.

Lemma dinero_encontrado_witness :
  Patrones.encontrar_dinero Casos.isdigit Casos.is_word Casos.texto_prueba
    = [lit " 1.500 euros"]
  /\ Patrones.encontrar_dinero Casos.isdigit Casos.is_word (lit "sin cifras")
     = [].
Proof.
  split; [reflexivity|].
  apply (dinero_encontrado Casos.isdigit Casos.is_word (lit "sin cifras")).
  reflexivity.
Defined.

Lemma correos_encontrados_witness :
  Patrones.encontrar_correos Casos.is_word Casos.texto_prueba
    = [lit "juan@ejemplo.com"]
  /\ Patrones.encontrar_correos Casos.is_word (lit "sin arroba") = [].
Proof.
  split; [reflexivity|].
  apply (correos_encontrados Casos.is_word (lit "sin arroba")).
  vm_compute. intuition discriminate.
Defined.

Lemma carga_del_primer_modelo_witness :
  exists nlp',
    Carga.cargar_modelo_spacy (Some Casos.spacy_md) (Casos.consola_de [])
    = Ok (Some nlp', Casos.consola_de [])
    /\ (nlp' = [lit "tagger"]
        \/ Carga.add_pipe Casos.spacy_md (lit "sentencizer") [lit "tagger"]
           = Ok nlp').
Proof.
  destruct (carga_del_primer_modelo Casos.spacy_md (Casos.consola_de []))
    as (_ & _ & H & _).
  destruct (H [lit "es_core_news_sm"] (lit "es_core_news_md")
              [lit "xx_sent_ud_sm"] [lit "tagger"] eq_refl)
    as (nlp' & E & Hn & _).
  - intros m' [<-|[]]. eexists. reflexivity.
  - reflexivity.
  - exists nlp'. split; [exact E | exact Hn].
Defined.

Lemma obtener_texto_lee_poco_witness :
  exists c' leidas,
    Entrada.obtener_texto Casos.sin_archivos
      (Casos.consola_de [lit "9"; lit " 1 "; lit " hola  "; lit "resto"])
    = Ok (lit " hola  ", c')
    /\ [lit "9"; lit " 1 "; lit " hola  "; lit "resto"]
       = leidas ++ Entrada.pendientes c'
    /\ (2 <= length leidas <= 7)%nat.
Proof.
  assert (E : exists c',
             Entrada.obtener_texto Casos.sin_archivos
               (Casos.consola_de [lit "9"; lit " 1 "; lit " hola  ";
                                  lit "resto"])
             = Ok (lit " hola  ", c'))
    by (eexists; vm_compute; reflexivity).
  destruct E as [c' E]. exists c'.
  destruct (@obtener_texto_lee_poco Casos.sin_archivos _ _ _ E)
    as (leidas & H1 & H2 & _).
  exists leidas. split; [exact E|]. split; [exact H1 | exact H2].
Defined.

Lemma obtener_texto_termina_witness :
  exists texto c',
    Entrada.obtener_texto Casos.sin_archivos
      (Casos.consola_de [lit "2"; lit "a.txt"; lit "2"; lit "b.txt";
                         lit "x"; lit "al fin"; lit "resto"])
    = Ok (texto, c').
Proof.
  apply (@obtener_texto_termina Casos.sin_archivos). simpl. lia.
Defined.

Lemma atender_registra_una_vez_witness :
  exists w',
    Casos.atender (lit "2") Casos.texto_prueba (Casos.mundo_de [lit "resto"])
    = Ok (tt, w')
    /\ Menu.marco Casos.texto_prueba 1 (Casos.mundo_de [lit "resto"]) w'.
Proof.
  assert (E : exists w',
             Casos.atender (lit "2") Casos.texto_prueba
               (Casos.mundo_de [lit "resto"]) = Ok (tt, w'))
    by (eexists; vm_compute; reflexivity).
  destruct E as [w' E]. exists w'. split; [exact E|].
  apply (@atender_registra_una_vez Ejemplos.lower Ejemplos.alnum Casos.isdigit
           (Some Casos.nltk_simple) Casos.sin_repr Casos.sin_formato None None
           (lit "2") Casos.texto_prueba _ _ E).
Defined.

Lemma atender_texto_en_blanco_witness :
  Casos.atender (lit "1") [32%N; 9%N] (Casos.mundo_de [])
  = Ok (tt, Casos.mundo_de []).
Proof.
  apply (@atender_texto_en_blanco Ejemplos.lower Ejemplos.alnum Casos.isdigit
           (Some Casos.nltk_simple) Casos.sin_repr Casos.sin_formato None None
           [32%N; 9%N] (Casos.mundo_de []) eq_refl).
Defined.

Lemma menu_salir_witness :
  exists w',
    Casos.menu_bucle 1 (Casos.mundo_de [lit " 0 "; lit "resto"]) = Ok (tt, w')
    /\ Entrada.pendientes (Menu.consola w') = [lit "resto"]
    /\ Menu.registros w' = [].
Proof.
  destruct (@menu_salir Ejemplos.lower Ejemplos.alnum Casos.isdigit
              (Some Casos.nltk_simple) Casos.sin_archivos Casos.sin_repr
              Casos.sin_formato None None 0
              (Casos.mundo_de [lit " 0 "; lit "resto"]) _ _ eq_refl eq_refl)
    as (w' & H & P & R & _).
  exists w'. split; [exact H|]. split; [exact P | exact R].
Defined.

Lemma menu_opcion_no_valida_witness :
  exists w1,
    Casos.menu_bucle 2 (Casos.mundo_de [lit "7"; lit "0"])
    = Casos.menu_bucle 1 w1
    /\ Entrada.pendientes (Menu.consola w1) = [lit "0"].
Proof.
  destruct (@menu_opcion_no_valida Ejemplos.lower Ejemplos.alnum Casos.isdigit
              (Some Casos.nltk_simple) Casos.sin_archivos Casos.sin_repr
              Casos.sin_formato None None 1
              (Casos.mundo_de [lit "7"; lit "0"]) _ _ eq_refl)
    as (w1 & H & P & _).
  - vm_compute. discriminate.
  - reflexivity.
  - exists w1. split; [exact H | exact P].
Defined.

Lemma menu_opcion_sin_efecto_witness :
  (exists w1,
     Casos.menu_bucle 2 (Casos.mundo_de [lit ""; lit "1"; lit "hola"; lit "0"])
     = Menu.luego (Menu.lift (Entrada.solicitar_texto Casos.sin_archivos))
         (fun _ => Casos.menu_bucle 1) w1
     /\ Menu.registros w1 = [])
  /\ exists w',
       Casos.menu_bucle 2
         (Casos.mundo_de [lit "23"; lit "1"; lit "hola"; lit "0"])
       = Ok (tt, w')
       /\ Menu.registros w' = [].
Proof.
  split.
  - destruct (@menu_opcion_sin_efecto Ejemplos.lower Ejemplos.alnum
                Casos.isdigit (Some Casos.nltk_simple) Casos.sin_archivos
                Casos.sin_repr Casos.sin_formato None None 1
                (Casos.mundo_de [lit ""; lit "1"; lit "hola"; lit "0"]) _ _
                eq_refl eq_refl)
      as (w1 & H & _ & R).
    + vm_compute. intuition discriminate.
    + exists w1. split; [exact H | exact R].
  - eexists. split; [vm_compute; reflexivity | reflexivity].
Defined.
